(** * gdns: the DNS packet buffer and decoders of [gdns.go]

    A shallow embedding of the packet buffer ([BytePacketBuffer]), the name
    decoder ([Read_qname]), the header, question and record decoders and the
    parsing driver of [main], followed by the properties of the written
    specification that were checked against them. *)

From Stdlib Require Import ZArith String Ascii Strings.Byte Bool Lia List.
Import ListNotations.
Open Scope Z_scope.

(** ** Machine integers *)

(** Go's [int] is taken to be 64 bits wide (two's complement). *)
Module Int.

Definition wrap (z : Z) : Z := (z + 2 ^ 63) mod 2 ^ 64 - 2 ^ 63.

Definition add (x y : Z) : Z := wrap (x + y).

End Int.

(** Conversions to the unsigned types: the value modulo the width. *)
Definition uint8 (z : Z) : Z := z mod 2 ^ 8.
Definition uint16 (z : Z) : Z := z mod 2 ^ 16.
Definition uint32 (z : Z) : Z := z mod 2 ^ 32.

(** The numeric value of a byte, in [0, 255]. *)
Definition u (x : byte) : Z := Z.of_N (Byte.to_N x).

(** The byte with a given value (used to write down packets). *)
Definition byte_of_Z (z : Z) : byte :=
  match Byte.of_N (Z.to_N z) with
  | Some x => x
  | None => x00
  end.

(** [string(bytes)]: the bytes taken as the characters of a string. *)
Fixpoint string_of_bytes (l : list byte) : string :=
  match l with
  | [] => EmptyString
  | x :: l' => String (ascii_of_byte x) (string_of_bytes l')
  end.

(** ** Outcomes

    A Go function of this program returns a value and a nil error, returns a
    non-nil error (built by [fmt.Errorf], so a message), or stops the program
    with the run-time panic of an index out of range. *)
Inductive outcome (A : Type) : Type :=
| Ok (a : A)
| Err (msg : string)
| Panic.

Arguments Ok {A} a.
Arguments Err {A} msg.
Arguments Panic {A}.

(** The two spellings of the overrun message ([Read] and [Get] against
    [GetRange]) and the message of the jump limit. *)
Definition end_of_buffer : string := "end of buffer".
Definition End_of_buffer : string := "End of buffer".
Definition jump_limit : string := "limit of 5 jumps exceeded".

(** The error kinds of the specification. *)
Definition BufferOverrun {A} (o : outcome A) : Prop :=
  o = Err end_of_buffer \/ o = Err End_of_buffer.

Definition CompressionLoopLimit {A} (o : outcome A) : Prop :=
  o = Err jump_limit.

(** ** The state and error monad

    State [S] is threaded through every call and survives a failure: the
    receiver is mutated in place, so what was written before an error stays
    written. *)
Definition M (S A : Type) : Type := S -> outcome A * S.

Definition ret {S A} (a : A) : M S A := fun s => (Ok a, s).

Definition bind {S A B} (m : M S A) (f : A -> M S B) : M S B :=
  fun s =>
    match m s with
    | (Ok a, s') => f a s'
    | (Err e, s') => (Err e, s')
    | (Panic, s') => (Panic, s')
    end.

Declare Scope go_scope.
Delimit Scope go_scope with go.
Notation "x <- m ;; k" := (bind m (fun x => k))
  (at level 61, m at next level, right associativity) : go_scope.
Notation "m ;;; k" := (bind m (fun _ => k))
  (at level 61, right associativity) : go_scope.
Open Scope go_scope.

(** ** The packet buffer *)

(** [buf [512]byte] and [pos int].  The array is held as the list of its
    leading cells; a cell beyond the end of the list holds the zero value, so
    that every list stands for one 512-byte array ([cell]). *)
Record BytePacketBuffer : Type := mkBuffer {
  buf : list byte;
  pos : Z
}.

Definition cell (a : list byte) (i : nat) : byte := nth i a x00.

(** [a[i]] with Go's bounds check: [None] is the run-time panic. *)
Definition index (a : list byte) (i : Z) : option byte :=
  if (0 <=? i) && (i <? 512) then Some (cell a (Z.to_nat i)) else None.

(** [a[lo:hi]] with Go's bounds check [0 <= lo <= hi <= 512]. *)
Definition slice (a : list byte) (lo hi : Z) : option (list byte) :=
  if (0 <=? lo) && (lo <=? hi) && (hi <=? 512)
  then Some (map (cell a) (seq (Z.to_nat lo) (Z.to_nat (hi - lo))))
  else None.

Definition set_pos (b : BytePacketBuffer) (p : Z) : BytePacketBuffer :=
  mkBuffer (buf b) p.

Definition NewBytePacketBuffer : BytePacketBuffer := mkBuffer (repeat x00 512) 0.

(** [copy(buffer.buf[:], data)]: the first 512 bytes of [data] overwrite the
    front of the array. *)
Definition copy (b : BytePacketBuffer) (data : list byte) : BytePacketBuffer :=
  let d := firstn 512 data in
  mkBuffer (d ++ skipn (length d) (buf b))%list (pos b).

Definition Pos (b : BytePacketBuffer) : Z := pos b.

Definition Step (steps : Z) : M BytePacketBuffer unit :=
  fun b => (Ok tt, set_pos b (Int.add (pos b) steps)).

Definition Seek (p : Z) : M BytePacketBuffer unit :=
  fun b => (Ok tt, set_pos b p).

Definition Read : M BytePacketBuffer byte :=
  fun b =>
    if 512 <=? pos b then (Err end_of_buffer, b)
    else match index (buf b) (pos b) with
         | None => (Panic, b)
         | Some res => (Ok res, set_pos b (Int.add (pos b) 1))
         end.

Definition Get (p : Z) : M BytePacketBuffer byte :=
  fun b =>
    if 512 <=? pos b then (Err end_of_buffer, b)
    else match index (buf b) p with
         | None => (Panic, b)
         | Some res => (Ok res, b)
         end.

Definition GetRange (start len : Z) : M BytePacketBuffer (list byte) :=
  fun b =>
    if 512 <=? Int.add start len then (Err End_of_buffer, b)
    else match slice (buf b) start (Int.add start len) with
         | None => (Panic, b)
         | Some bytes => (Ok bytes, b)
         end.

Definition ReadU16 : M BytePacketBuffer Z :=
  high <- Read ;;
  low <- Read ;;
  ret (Z.lor (uint16 (Z.shiftl (u high) 8)) (u low)).

(** [QueryType] is a [uint16]. *)
Definition QueryType : Type := Z.

Definition ReadU16_Query : M BytePacketBuffer QueryType :=
  high <- Read ;;
  low <- Read ;;
  ret (Z.lor (uint16 (Z.shiftl (u high) 8)) (u low)).

Definition ReadU32 : M BytePacketBuffer Z :=
  b1 <- Read ;;
  b2 <- Read ;;
  b3 <- Read ;;
  b4 <- Read ;;
  ret (Z.lor (Z.lor (Z.lor (uint32 (Z.shiftl (u b1) 24))
                           (uint32 (Z.shiftl (u b2) 16)))
                    (uint32 (Z.shiftl (u b3) 8)))
             (u b4)).

(** ** The name decoder *)

(** The receiver, the string behind [outstr] and the local variables of
    [Read_qname]. *)
Record locals : Type := mkLocals {
  l_b : BytePacketBuffer;
  l_outstr : string;
  l_pos : Z;
  l_delim : string;
  l_jumped : bool;
  l_jumpsPerformed : Z
}.

Definition maxJumps : Z := 5.

(** How one pass through the body of the [for] loop ends: at [continue] or
    at the end of the body, at [break], or at a [return] from inside the
    loop (an error, or the panic of an index out of range). *)
Inductive flow : Type :=
| Continue (s : locals)
| Break (s : locals)
| Return (o : outcome unit) (s : locals).

(** Line 140: the offset a two-byte pointer holds. *)
Definition pointer_target (len offset : byte) : Z :=
  Z.lor (uint16 (Z.shiftl (Z.lxor (uint16 (u len)) 0xC0) 8)) (uint16 (u offset)).

Definition Read_qname_body (s : locals) : flow :=
  if maxJumps <? l_jumpsPerformed s then Return (Err jump_limit) s
  else
    match Get (l_pos s) (l_b s) with
    | (Err e, b0) => Return (Err e) (mkLocals b0 (l_outstr s) (l_pos s) (l_delim s) (l_jumped s) (l_jumpsPerformed s))
    | (Panic, b0) => Return Panic (mkLocals b0 (l_outstr s) (l_pos s) (l_delim s) (l_jumped s) (l_jumpsPerformed s))
    | (Ok len, b0) =>
      if Z.land (u len) 0xC0 =? 0xC0 then
        let b1 := if l_jumped s then b0 else snd (Seek (Int.add (l_pos s) 2) b0) in
        match Get (Int.add (l_pos s) 1) b1 with
        | (Err e, b2) => Return (Err e) (mkLocals b2 (l_outstr s) (l_pos s) (l_delim s) (l_jumped s) (l_jumpsPerformed s))
        | (Panic, b2) => Return Panic (mkLocals b2 (l_outstr s) (l_pos s) (l_delim s) (l_jumped s) (l_jumpsPerformed s))
        | (Ok offset, b2) =>
          Continue (mkLocals b2 (l_outstr s) (pointer_target len offset) (l_delim s)
                             true (Int.add (l_jumpsPerformed s) 1))
        end
      else
        let pos1 := Int.add (l_pos s) 1 in
        if u len =? 0 then
          Break (mkLocals b0 (l_outstr s) pos1 (l_delim s) (l_jumped s) (l_jumpsPerformed s))
        else
          let out1 := (l_outstr s ++ l_delim s)%string in
          match GetRange pos1 (u len) b0 with
          | (Err e, b1) => Return (Err e) (mkLocals b1 out1 pos1 (l_delim s) (l_jumped s) (l_jumpsPerformed s))
          | (Panic, b1) => Return Panic (mkLocals b1 out1 pos1 (l_delim s) (l_jumped s) (l_jumpsPerformed s))
          | (Ok rangeBytes, b1) =>
            Continue (mkLocals b1 (out1 ++ string_of_bytes rangeBytes)%string
                               (Int.add pos1 (u len)) "." (l_jumped s)
                               (l_jumpsPerformed s))
          end
    end.

(** The [for] loop, run for at most [fuel] passes; [None] when the passes
    are used up before the loop is left. *)
Fixpoint Read_qname_loop (fuel : nat) (s : locals) : option (outcome unit * locals) :=
  match fuel with
  | O => None
  | S fuel' =>
    match Read_qname_body s with
    | Continue s' => Read_qname_loop fuel' s'
    | Break s' => Some (Ok tt, s')
    | Return o s' => Some (o, s')
    end
  end.

Definition Read_qname_init (outstr : string) (b : BytePacketBuffer) : locals :=
  mkLocals b outstr (Pos b) "" false 0.

(** What follows the loop: the final [Seek] when no jump was made. *)
Definition Read_qname_exit (r : outcome unit * locals) : outcome unit * (string * BytePacketBuffer) :=
  match r with
  | (Ok _, s) =>
    if l_jumped s then (Ok tt, (l_outstr s, l_b s))
    else let (_, b') := Seek (l_pos s) (l_b s) in (Ok tt, (l_outstr s, b'))
  | (o, s) => (o, (l_outstr s, l_b s))
  end.

Definition Read_qname_fuel (fuel : nat) (outstr : string) (b : BytePacketBuffer)
  : option (outcome unit * (string * BytePacketBuffer)) :=
  option_map Read_qname_exit (Read_qname_loop fuel (Read_qname_init outstr b)).

(** Passes that are enough for every buffer: at most six jumps, and fewer
    than 513 labels before the first jump and after each one. *)
Definition qname_fuel : nat := 3600.

(** [Read_qname], on the pair of the string behind [outstr] and the buffer.
    The second branch is never taken ([Read_qname_fuel_enough]). *)
Definition Read_qname : M (string * BytePacketBuffer) unit :=
  fun '(outstr, b) =>
    match Read_qname_fuel qname_fuel outstr b with
    | Some r => r
    | None => (Panic, (outstr, b))
    end.

(** ** Result codes and the header *)

Inductive ResultCode : Type :=
| NOERROR | FORMERR | SERVFAIL | NXDOMAIN | NOTIMP | REFUSED.

Definition ResultCodeFromNum (num : Z) : ResultCode :=
  match num with
  | 1 => FORMERR
  | 2 => SERVFAIL
  | 3 => NXDOMAIN
  | 4 => NOTIMP
  | 5 => REFUSED
  | _ => NOERROR
  end.

Record DnsHeader : Type := mkHeader {
  ID : Z;
  RecursionDesired : bool;
  TruncatedMessage : bool;
  AuthoritativeAnswer : bool;
  Opcode : Z;
  Response : bool;
  ResCode : ResultCode;
  CheckingDisabled : bool;
  AuthedData : bool;
  Z_reserved : bool;          (* the field [Z] *)
  RecursionAvailable : bool;
  Questions : Z;
  Answers : Z;
  AuthoritativeEntries : Z;
  ResourceEntries : Z
}.

Definition NewDnsHeader : DnsHeader :=
  mkHeader 0 false false false 0 false NOERROR false false false false 0 0 0 0.

(** Lines 272 to 282 of [DnsHeader.Read]: the fields taken from the flag
    word.  In Go [>>] and [&] have the same precedence and associate to the
    left, so [flags >> 8 & 1] is [(flags >> 8) & 1]. *)
Definition decode_flags (flags : Z) (h : DnsHeader) : DnsHeader :=
  mkHeader (ID h)
    (0 <? Z.land (Z.shiftr flags 8) 1)
    (0 <? Z.land (Z.shiftr flags 9) 1)
    (0 <? Z.land (Z.shiftr flags 10) 1)
    (uint8 (Z.land (Z.shiftr flags 11) 0xF))
    (0 <? Z.land (Z.shiftr flags 15) 1)
    (ResultCodeFromNum (uint8 (Z.land flags 0xF)))
    (0 <? Z.land (Z.shiftr flags 12) 1)
    (0 <? Z.land (Z.shiftr flags 13) 1)
    (0 <? Z.land (Z.shiftr flags 14) 1)
    (0 <? Z.land (Z.shiftr flags 7) 1)
    (Questions h) (Answers h) (AuthoritativeEntries h) (ResourceEntries h).

(** A call on the buffer from a method whose receiver [T] is mutated too. *)
Definition on_buffer {T A} (m : M BytePacketBuffer A) : M (T * BytePacketBuffer) A :=
  fun '(t, b) => let (o, b') := m b in (o, (t, b')).

(** [x.f, err = m(); if err != nil { return err }]: the field is assigned
    before the error is looked at, and an error comes with the value 0. *)
Definition store {T} (set : Z -> T -> T) (m : M BytePacketBuffer Z) : M (T * BytePacketBuffer) unit :=
  fun '(t, b) =>
    match m b with
    | (Ok v, b') => (Ok tt, (set v t, b'))
    | (Err e, b') => (Err e, (set 0 t, b'))
    | (Panic, b') => (Panic, (t, b'))
    end.

Definition update {T} (f : T -> T) : M (T * BytePacketBuffer) unit :=
  fun '(t, b) => (Ok tt, (f t, b)).

Definition set_ID (v : Z) (h : DnsHeader) : DnsHeader :=
  mkHeader v (RecursionDesired h) (TruncatedMessage h) (AuthoritativeAnswer h)
    (Opcode h) (Response h) (ResCode h) (CheckingDisabled h) (AuthedData h)
    (Z_reserved h) (RecursionAvailable h) (Questions h) (Answers h)
    (AuthoritativeEntries h) (ResourceEntries h).

Definition set_Questions (v : Z) (h : DnsHeader) : DnsHeader :=
  mkHeader (ID h) (RecursionDesired h) (TruncatedMessage h) (AuthoritativeAnswer h)
    (Opcode h) (Response h) (ResCode h) (CheckingDisabled h) (AuthedData h)
    (Z_reserved h) (RecursionAvailable h) v (Answers h)
    (AuthoritativeEntries h) (ResourceEntries h).

Definition set_Answers (v : Z) (h : DnsHeader) : DnsHeader :=
  mkHeader (ID h) (RecursionDesired h) (TruncatedMessage h) (AuthoritativeAnswer h)
    (Opcode h) (Response h) (ResCode h) (CheckingDisabled h) (AuthedData h)
    (Z_reserved h) (RecursionAvailable h) (Questions h) v
    (AuthoritativeEntries h) (ResourceEntries h).

Definition set_AuthoritativeEntries (v : Z) (h : DnsHeader) : DnsHeader :=
  mkHeader (ID h) (RecursionDesired h) (TruncatedMessage h) (AuthoritativeAnswer h)
    (Opcode h) (Response h) (ResCode h) (CheckingDisabled h) (AuthedData h)
    (Z_reserved h) (RecursionAvailable h) (Questions h) (Answers h)
    v (ResourceEntries h).

Definition set_ResourceEntries (v : Z) (h : DnsHeader) : DnsHeader :=
  mkHeader (ID h) (RecursionDesired h) (TruncatedMessage h) (AuthoritativeAnswer h)
    (Opcode h) (Response h) (ResCode h) (CheckingDisabled h) (AuthedData h)
    (Z_reserved h) (RecursionAvailable h) (Questions h) (Answers h)
    (AuthoritativeEntries h) v.

Definition DnsHeader_Read : M (DnsHeader * BytePacketBuffer) unit :=
  store set_ID ReadU16 ;;;
  flags <- on_buffer ReadU16 ;;
  update (decode_flags flags) ;;;
  store set_Questions ReadU16 ;;;
  store set_Answers ReadU16 ;;;
  store set_AuthoritativeEntries ReadU16 ;;;
  store set_ResourceEntries ReadU16.

(** ** Questions *)

Record DnsQuestion : Type := mkQuestion {
  Name : string;
  Qtype : Z;
  Qclass : Z
}.

(** [var question DnsQuestion]: the zero value. *)
Definition zero_DnsQuestion : DnsQuestion := mkQuestion "" 0 0.

Definition set_Qtype (v : Z) (q : DnsQuestion) : DnsQuestion :=
  mkQuestion (Name q) v (Qclass q).

Definition set_Qclass (v : Z) (q : DnsQuestion) : DnsQuestion :=
  mkQuestion (Name q) (Qtype q) v.

(** [buffer.Read_qname(&q.Name)]. *)
Definition Read_qname_Name : M (DnsQuestion * BytePacketBuffer) unit :=
  fun '(q, b) =>
    let '(o, (name, b')) := Read_qname (Name q, b) in
    (o, (mkQuestion name (Qtype q) (Qclass q), b')).

Definition DnsQuestion_Read : M (DnsQuestion * BytePacketBuffer) unit :=
  Read_qname_Name ;;;
  store set_Qtype ReadU16 ;;;
  store set_Qclass ReadU16.

(** ** Resource records *)

Definition QTYPE_A : QueryType := 1.
Definition QTYPE_NS : QueryType := 2.
Definition QTYPE_CNAME : QueryType := 5.
Definition QTYPE_MX : QueryType := 15.
Definition QTYPE_AAAA : QueryType := 28.

(** [Addr] is a [net.IP], a slice of bytes; [nil] is the empty list. *)
Record DnsRecord : Type := mkRecord {
  rec_Name : string;
  rec_Qtype : QueryType;
  rec_Class : Z;
  rec_TTL : Z;
  rec_DataLen : Z;
  rec_Addr : list byte;
  rec_Host : string;
  rec_Priority : Z
}.

(** [net.IPv4(a, b, c, d)] of the Go library: the 16-byte form of an IPv4
    address, the prefix [00 x 10, ff, ff] before the four bytes. *)
Definition net_IPv4 (a b c d : byte) : list byte :=
  (repeat x00 10 ++ [xff; xff; a; b; c; d])%list.

(** [Read_qname] into a field of the local [rec]: when it fails [rec] is
    dropped, so only the buffer is left. *)
Definition Read_qname_into (outstr : string) : M BytePacketBuffer string :=
  fun b =>
    match Read_qname (outstr, b) with
    | (Ok _, (s, b')) => (Ok s, b')
    | (Err e, (_, b')) => (Err e, b')
    | (Panic, (_, b')) => (Panic, b')
    end.

(** [for i := 0; i < n; i++ { b, err := buffer.Read(); ...; addr[i] = b }]. *)
Fixpoint Read_bytes (n : nat) : M BytePacketBuffer (list byte) :=
  match n with
  | O => ret []
  | S n' => x <- Read ;; l <- Read_bytes n' ;; ret (x :: l)
  end.

(** Lines 360 to 384 of [DnsRecordRead]: the fields every record has. *)
Definition DnsRecordRead_prefix : M BytePacketBuffer DnsRecord :=
  name <- Read_qname_into "" ;;
  qtype <- ReadU16_Query ;;
  class <- ReadU16 ;;
  ttl <- ReadU32 ;;
  datalen <- ReadU16 ;;
  ret (mkRecord name qtype class ttl datalen [] "" 0).

(** Lines 386 to 427: the [switch] on the record type. *)
Definition DnsRecordRead_switch (rec : DnsRecord) : M BytePacketBuffer DnsRecord :=
  if rec_Qtype rec =? QTYPE_A then
    addr <- Read_bytes 4 ;;
    ret (mkRecord (rec_Name rec) (rec_Qtype rec) (rec_Class rec) (rec_TTL rec)
           (rec_DataLen rec)
           (net_IPv4 (nth 0 addr x00) (nth 1 addr x00) (nth 2 addr x00) (nth 3 addr x00))
           (rec_Host rec) (rec_Priority rec))
  else if rec_Qtype rec =? QTYPE_AAAA then
    addr <- Read_bytes 16 ;;
    ret (mkRecord (rec_Name rec) (rec_Qtype rec) (rec_Class rec) (rec_TTL rec)
           (rec_DataLen rec) addr (rec_Host rec) (rec_Priority rec))
  else if rec_Qtype rec =? QTYPE_CNAME then
    host <- Read_qname_into (rec_Host rec) ;;
    ret (mkRecord (rec_Name rec) (rec_Qtype rec) (rec_Class rec) (rec_TTL rec)
           (rec_DataLen rec) (rec_Addr rec) host (rec_Priority rec))
  else if rec_Qtype rec =? QTYPE_MX then
    priority <- ReadU16 ;;
    host <- Read_qname_into (rec_Host rec) ;;
    ret (mkRecord (rec_Name rec) (rec_Qtype rec) (rec_Class rec) (rec_TTL rec)
           (rec_DataLen rec) (rec_Addr rec) host priority)
  else ret rec.

Definition DnsRecordRead : M BytePacketBuffer DnsRecord :=
  rec <- DnsRecordRead_prefix ;;
  DnsRecordRead_switch rec.

(** ** The driver of [main] *)

(** [for i := 0; i < int(header.Questions); i++]: each pass decodes into a
    fresh question; the first failure ends the program. *)
Fixpoint read_questions (n : nat) : M BytePacketBuffer (list DnsQuestion) :=
  match n with
  | O => ret []
  | S n' =>
    fun b =>
      match DnsQuestion_Read (zero_DnsQuestion, b) with
      | (Ok _, (q, b')) => (l <- read_questions n' ;; ret (q :: l)) b'
      | (Err e, (_, b')) => (Err e, b')
      | (Panic, (_, b')) => (Panic, b')
      end
  end.

Fixpoint read_records (n : nat) : M BytePacketBuffer (list DnsRecord) :=
  match n with
  | O => ret []
  | S n' => r <- DnsRecordRead ;; l <- read_records n' ;; ret (r :: l)
  end.

(** What [main] prints for the bytes of the file, or the failure it exits
    on. *)
Definition main_parse (data : list byte)
  : outcome (DnsHeader * list DnsQuestion * list DnsRecord) :=
  let buffer := copy NewBytePacketBuffer data in
  match DnsHeader_Read (NewDnsHeader, buffer) with
  | (Ok _, (header, buffer1)) =>
    match read_questions (Z.to_nat (Questions header)) buffer1 with
    | (Ok questions, buffer2) =>
      match read_records (Z.to_nat (Answers header)) buffer2 with
      | (Ok records, _) => Ok (header, questions, records)
      | (Err e, _) => Err e
      | (Panic, _) => Panic
      end
    | (Err e, _) => Err e
    | (Panic, _) => Panic
    end
  | (Err e, _) => Err e
  | (Panic, _) => Panic
  end.

(** ** Packets used in the examples *)

Definition bytes_of (l : list Z) : list byte := map byte_of_Z l.

(** [{3}www{7}example{3}com{0}]. *)
Definition www_example_com : list byte :=
  bytes_of [3; 119; 119; 119; 7; 101; 120; 97; 109; 112; 108; 101; 3; 99; 111; 109; 0].

Definition buffer_of (data : list byte) (p : Z) : BytePacketBuffer :=
  set_pos (copy NewBytePacketBuffer data) p.

(** * Definitions the properties are stated with *)

(** ** Sequences of byte reads *)

(** [reads n m]: the computation [m] behaves on the cursor like [n] calls of
    [Read] in a row.  It succeeds when [n] bytes are left and moves the
    cursor by [n]; it fails with the overrun error when fewer are left, and
    the bytes read before the failure stay read (the cursor stops at 512);
    it panics on a negative cursor. *)
Definition reads {A} (n : Z) (m : M BytePacketBuffer A) : Prop :=
  forall b,
    match m b with
    | (Ok _, b') => 0 <= pos b /\ pos b + n <= 512 /\ b' = set_pos b (pos b + n)
    | (Err e, b') =>
      e = end_of_buffer /\ 512 < pos b + n /\ b' = set_pos b (Z.max (pos b) 512)
    | (Panic, b') => pos b < 0 /\ b' = b
    end.

(** ** The contents of the buffer *)

(** [bytes_at a p l]: the bytes [l] lie in the buffer from index [p] on. *)
Definition bytes_at (a : list byte) (p : Z) (l : list byte) : Prop :=
  forall i, (i < length l)%nat -> index a (p + Z.of_nat i) = Some (nth i l x00).

(** [zero_from b]: from the cursor to the end the buffer holds zeros, as it
    does after the last byte copied into it. *)
Definition zero_from (b : BytePacketBuffer) : Prop :=
  forall i, pos b <= i < 512 -> index (buf b) i = Some x00.

(** The first octet of a compression pointer: the two top bits set. *)
Definition is_pointer (len : byte) : Prop := Z.land (u len) 0xC0 = 0xC0.

(** [labels_at a p ls q]: the octets of [a] from [p] up to [q] are the
    labels [ls], each one a length octet (not zero, not a pointer) and that
    many bytes, all followed by at least one more octet of the buffer. *)
Inductive labels_at (a : list byte) : Z -> list (list byte) -> Z -> Prop :=
| labels_nil (p : Z) : labels_at a p [] p
| labels_cons (p q : Z) (len : byte) (l : list byte) (ls : list (list byte)) :
    index a p = Some len -> u len <> 0 -> ~ is_pointer len ->
    p + 1 + u len < 512 ->
    l = map (cell a) (seq (Z.to_nat (p + 1)) (Z.to_nat (u len))) ->
    labels_at a (p + 1 + u len) ls q ->
    labels_at a p (l :: ls) q.

(** What the loop appends for the labels [ls]: each one after the delimiter
    in force, which is ["."] from the second label on. *)
Fixpoint append_labels (outstr delim : string) (ls : list (list byte)) : string :=
  match ls with
  | [] => outstr
  | l :: ls' => append_labels ((outstr ++ delim) ++ string_of_bytes l)%string "." ls'
  end.

(** The delimiter in force after the labels [ls]. *)
Definition delim_after (delim : string) (ls : list (list byte)) : string :=
  match ls with
  | [] => delim
  | _ :: _ => "."%string
  end.

(** [pointer_chain a n p q]: following [n] pointers from [p] leads to [q];
    both octets of each pointer lie in the buffer. *)
Inductive pointer_chain (a : list byte) : nat -> Z -> Z -> Prop :=
| chain_O (p : Z) : pointer_chain a 0 p p
| chain_S (n : nat) (p q : Z) (len offset : byte) :
    index a p = Some len -> is_pointer len -> index a (p + 1) = Some offset ->
    pointer_chain a n (pointer_target len offset) q ->
    pointer_chain a (S n) p q.

(** ** The loop of the name decoder as a relation *)

(** [Read_qname_run s r]: the loop entered with the variables [s] is left
    with [r]. *)
Inductive Read_qname_run : locals -> outcome unit * locals -> Prop :=
| run_continue (s s' : locals) (r : outcome unit * locals) :
    Read_qname_body s = Continue s' -> Read_qname_run s' r -> Read_qname_run s r
| run_break (s s' : locals) :
    Read_qname_body s = Break s' -> Read_qname_run s (Ok tt, s')
| run_return (s s' : locals) (o : outcome unit) :
    Read_qname_body s = Return o s' -> Read_qname_run s (o, s').

(** The passes the loop can still make from [s]: one to leave, 513 for each
    jump the limit still allows, and one for each byte between the local
    position and the end of the buffer. *)
Definition passes_left (s : locals) : Z :=
  1 + (6 - l_jumpsPerformed s) * 513 +
  (if (0 <=? l_pos s) && (l_pos s <? 512) then 512 - l_pos s else 0).

(** The buffer after the first octet of a pointer: the cursor is moved past
    the pointer unless a jump was made before. *)
Definition after_pointer (s : locals) : BytePacketBuffer :=
  if l_jumped s then l_b s else set_pos (l_b s) (l_pos s + 2).

(** Two passes of the loop over the same bytes: same local position, same
    delimiter, same text so far; the cursors, the jump flags and the jump
    counters may differ. *)
Definition same_walk (s1 s2 : locals) : Prop :=
  buf (l_b s1) = buf (l_b s2) /\ l_pos s1 = l_pos s2 /\
  l_delim s1 = l_delim s2 /\ l_outstr s1 = l_outstr s2.

(** Two passes of the loop over the same bytes, the first with the text [P]
    of earlier labels already written: either no label was read since, or
    the second has a text that is not empty and the first has [P], a dot
    and that text. *)
Definition prefix_walk (P : string) (s1 s2 : locals) : Prop :=
  buf (l_b s1) = buf (l_b s2) /\ l_pos s1 = l_pos s2 /\
  ((l_outstr s1 = P /\ l_delim s1 = "."%string /\
    l_outstr s2 = ""%string /\ l_delim s2 = ""%string) \/
   (l_delim s1 = "."%string /\ l_delim s2 = "."%string /\
    l_outstr s2 <> ""%string /\
    l_outstr s1 = (P ++ "." ++ l_outstr s2)%string)).

(** ** More packets *)

(** The labels of [www_example_com]. *)
Definition www : list byte := bytes_of [119; 119; 119].
Definition example : list byte := bytes_of [101; 120; 97; 109; 112; 108; 101].
Definition com : list byte := bytes_of [99; 111; 109].

(** The name [C2 00]: a compression pointer to offset 512. *)
Definition pointer_to_512 : list byte := bytes_of [0xC2; 0].

(** A pointer to offset 2, where [{3}www{0}] lies. *)
Definition pointer_to_www : list byte := bytes_of [0xC0; 2; 3; 119; 119; 119; 0].

(** [{3}www] and a pointer to offset 6, where [{7}example{3}com{0}] lies. *)
Definition www_then_pointer : list byte :=
  bytes_of [3; 119; 119; 119; 0xC0; 6;
            7; 101; 120; 97; 109; 112; 108; 101; 3; 99; 111; 109; 0].

(** [{3}www] and a pointer to offset 6, where the empty name [{0}] lies. *)
Definition www_then_pointer_to_root : list byte :=
  bytes_of [3; 119; 119; 119; 0xC0; 6; 0].

(** Five pointers at 0, 2, 4, 6 and 8, each to the next and the last to
    offset 10; [{3}www{7}example{3}com{0}] at 10; a pointer to offset 0 at
    27. *)
Definition chain_bytes : list byte :=
  (bytes_of [0xC0; 2; 0xC0; 4; 0xC0; 6; 0xC0; 8; 0xC0; 10] ++
   www_example_com ++ bytes_of [0xC0; 0])%list.

(** The same with a pointer in the last two bytes of the buffer, at 510 and
    511: to offset 0 (six pointers from 510) and to offset 2 (five). *)
Definition six_from_510 : list byte :=
  (chain_bytes ++ repeat x00 481 ++ bytes_of [0xC0; 0])%list.
Definition five_from_510 : list byte :=
  (chain_bytes ++ repeat x00 481 ++ bytes_of [0xC0; 2])%list.

(** A header whose flag word is [0x0010] (bit 4 alone), and one whose flag
    word is [0x1000] (bit 12 alone). *)
Definition header_flags_0010 : list byte :=
  bytes_of [0x12; 0x34; 0x00; 0x10; 0; 1; 0; 0; 0; 0; 0; 0].
Definition header_flags_1000 : list byte :=
  bytes_of [0x12; 0x34; 0x10; 0x00; 0; 1; 0; 0; 0; 0; 0; 0].

(** The header [DnsHeader_Read] fills from the bytes [data], starting from
    [NewDnsHeader] with the cursor at 0. *)
Definition decoded_header (data : list byte) : outcome unit * DnsHeader :=
  let '(o, (h, _)) := DnsHeader_Read (NewDnsHeader, buffer_of data 0) in (o, h).

(** A packet whose header declares two questions and that holds one, for
    [www.example.com], type A, class IN. *)
Definition two_declared_one_present : list byte :=
  (bytes_of [0x12; 0x34; 0x01; 0x00; 0; 2; 0; 0; 0; 0; 0; 0] ++
   www_example_com ++ bytes_of [0; 1; 0; 1])%list.

(** The same with 1 and with 46 answers declared, and none present. *)
Definition two_declared_one_answer : list byte :=
  (bytes_of [0x12; 0x34; 0x01; 0x00; 0; 2; 0; 1; 0; 0; 0; 0] ++
   www_example_com ++ bytes_of [0; 1; 0; 1])%list.
Definition two_declared_46_answers : list byte :=
  (bytes_of [0x12; 0x34; 0x01; 0x00; 0; 2; 0; 46; 0; 0; 0; 0] ++
   www_example_com ++ bytes_of [0; 1; 0; 1])%list.

(** [var rec DnsRecord]: the zero value. *)
Definition zero_DnsRecord : DnsRecord := mkRecord "" 0 0 0 0 [] "" 0.

(** A TXT record (type 16) for [www.example.com] with four bytes of data,
    and what it decodes to. *)
Definition txt_record : list byte :=
  (www_example_com ++
   bytes_of [0; 16; 0; 1; 0; 0; 0x0e; 0x10; 0; 4; 3; 97; 98; 99])%list.
Definition txt_decoded : DnsRecord :=
  mkRecord "www.example.com" 16 1 3600 4 [] "" 0.

(** ** Definitions for the further properties *)

(** The big-endian 16-bit word in cells [i] and [i + 1], and the 32-bit word
    in cells [i] to [i + 3]. *)
Definition word_at (a : list byte) (i : Z) : Z :=
  256 * u (cell a (Z.to_nat i)) + u (cell a (Z.to_nat (i + 1))).

Definition dword_at (a : list byte) (i : Z) : Z :=
  65536 * word_at a i + word_at a (i + 2).

(** The values of the constants [NOERROR] to [REFUSED] (lines 172 to 179);
    [ResultCode] is a [uint8]. *)
Definition ResultCode_value (rc : ResultCode) : Z :=
  match rc with
  | NOERROR => 0
  | FORMERR => 1
  | SERVFAIL => 2
  | NXDOMAIN => 3
  | NOTIMP => 4
  | REFUSED => 5
  end.

(** [ResultCode.String], on the [uint8] behind the result code. *)
Definition ResultCode_String (rc : Z) : string :=
  match rc with
  | 0 => "NOERROR"
  | 1 => "FORMERR"
  | 2 => "SERVFAIL"
  | 3 => "NXDOMAIN"
  | 4 => "NOTIMP"
  | 5 => "REFUSED"
  | _ => "UNKNOWN"
  end.

(** [keeps_bytes m]: the computation [m] leaves the bytes of the buffer as
    they are, in every outcome. *)
Definition keeps_bytes {A} (m : M BytePacketBuffer A) : Prop :=
  forall b, buf (snd (m b)) = buf b.

(** [advances k m]: started at a cursor from 0 to 512, [m] when it succeeds
    has moved the cursor forward by [k] at least, and not beyond 512. *)
Definition advances {A} (k : Z) (m : M BytePacketBuffer A) : Prop :=
  forall b,
    0 <= pos b <= 512 ->
    match m b with
    | (Ok _, b') => pos b + k <= pos b' <= 512
    | _ => True
    end.

(** The text of a name: its labels joined by dots. *)
Definition name_text (ls : list (list byte)) : string :=
  String.concat "." (map string_of_bytes ls).

(** An A record for the empty name with the data [7F 00 00 01], and an MX
    record for the empty name whose host is a pointer to offset 0. *)
Definition a_record : list byte :=
  bytes_of [0; 0; 1; 0; 1; 0; 0; 0; 60; 0; 4; 127; 0; 0; 1].

(** A buffer whose byte 500 announces a label of twenty bytes. *)
Definition overrun_label : list byte := (repeat x00 500 ++ bytes_of [20])%list.

(** A buffer whose last byte is the first octet of a pointer. *)
Definition pointer_at_511 : list byte := (repeat x00 511 ++ bytes_of [0xC0])%list.

(** What the loop of [Read_qname] keeps true of the cursor, [p0] being the
    cursor at the call: before any jump the cursor is still [p0] and the
    local position is not behind it; after a jump the cursor is two bytes
    or more past [p0] and inside the buffer. *)
Definition cursor_kept (p0 : Z) (s : locals) : Prop :=
  if l_jumped s
  then 0 <= p0 /\ p0 + 2 <= pos (l_b s) <= 511
  else pos (l_b s) = p0 /\ p0 <= l_pos s /\ (l_pos s = p0 \/ 0 <= p0).

(** [rec] with the address [addr], with the host [host], and with the host
    [host] and the priority [priority]. *)
Definition with_Addr (rec : DnsRecord) (addr : list byte) : DnsRecord :=
  mkRecord (rec_Name rec) (rec_Qtype rec) (rec_Class rec) (rec_TTL rec)
           (rec_DataLen rec) addr (rec_Host rec) (rec_Priority rec).

Definition with_Host (rec : DnsRecord) (host : string) : DnsRecord :=
  mkRecord (rec_Name rec) (rec_Qtype rec) (rec_Class rec) (rec_TTL rec)
           (rec_DataLen rec) (rec_Addr rec) host (rec_Priority rec).

Definition with_Host_Priority (rec : DnsRecord) (host : string) (priority : Z)
  : DnsRecord :=
  mkRecord (rec_Name rec) (rec_Qtype rec) (rec_Class rec) (rec_TTL rec)
           (rec_DataLen rec) (rec_Addr rec) host priority.

(** An AAAA record for the empty name with the data [00 01 ... 0F], and an
    MX record for [{3}www{0}] with priority 10 and, as host, a pointer to
    offset 0. *)
Definition aaaa_record : list byte :=
  bytes_of [0; 0; 28; 0; 1; 0; 0; 0; 60; 0; 16;
            0; 1; 2; 3; 4; 5; 6; 7; 8; 9; 10; 11; 12; 13; 14; 15].
Definition mx_record : list byte :=
  bytes_of [3; 119; 119; 119; 0; 0; 15; 0; 1; 0; 0; 0; 60; 0; 4; 0; 10; 0xC0; 0].

(** A buffer with [{3}www{0}] at 0 and, from 499 on, a CNAME record for the
    empty name whose host is a pointer to offset 0 that lies in bytes 510
    and 511. *)
Definition cname_pointer_at_510 : list byte :=
  (bytes_of [3; 119; 119; 119; 0] ++ repeat x00 494 ++
   bytes_of [0; 0; 5; 0; 1; 0; 0; 0; 60; 0; 2; 0xC0; 0])%list.

(** A CNAME record for the empty name whose host is [{3}www{0}]. *)
Definition cname_record : list byte :=
  bytes_of [0; 0; 5; 0; 1; 0; 0; 0; 60; 0; 5; 3; 119; 119; 119; 0].

(** [reads] for a method that mutates its receiver [T] too. *)
Definition reads_pair {T A} (n : Z) (m : M (T * BytePacketBuffer) A) : Prop :=
  forall t b,
    match m (t, b) with
    | (Ok _, (_, b')) => 0 <= pos b /\ pos b + n <= 512 /\ b' = set_pos b (pos b + n)
    | (Err e, (_, b')) =>
      e = end_of_buffer /\ 512 < pos b + n /\ b' = set_pos b (Z.max (pos b) 512)
    | (Panic, (_, b')) => pos b < 0 /\ b' = b
    end.

(** The header that lies in the twelve bytes from [i] on. *)
Definition header_at (a : list byte) (i : Z) : DnsHeader :=
  decode_flags (word_at a (i + 2))
    (mkHeader (word_at a i) false false false 0 false NOERROR false false false false
              (word_at a (i + 4)) (word_at a (i + 6)) (word_at a (i + 8))
              (word_at a (i + 10))).

(** * Properties *)

(** ** Machine integers *)

Lemma Int_wrap_small (z : Z) : - 2 ^ 63 <= z < 2 ^ 63 -> Int.wrap z = z.
Proof.
  intros H. unfold Int.wrap. rewrite Z.mod_small; lia.
Qed.

Lemma Int_add_small (x y : Z) : - 2 ^ 63 <= x + y < 2 ^ 63 -> Int.add x y = x + y.
Proof. apply Int_wrap_small. Qed.

(** ** Bytes and cells *)

Lemma u_range (x : byte) : 0 <= u x < 256.
Proof.
  unfold u. pose proof (Byte.to_N_bounded x) as H. lia.
Qed.

Lemma set_pos_same (b : BytePacketBuffer) : set_pos b (pos b) = b.
Proof. destruct b; reflexivity. Qed.

Lemma pos_set_pos (b : BytePacketBuffer) (p : Z) : pos (set_pos b p) = p.
Proof. reflexivity. Qed.

Lemma buf_set_pos (b : BytePacketBuffer) (p : Z) : buf (set_pos b p) = buf b.
Proof. reflexivity. Qed.

Lemma set_pos_set_pos (b : BytePacketBuffer) (p q : Z) :
  set_pos (set_pos b p) q = set_pos b q.
Proof. reflexivity. Qed.

Lemma index_in (a : list byte) (i : Z) :
  0 <= i < 512 -> index a i = Some (cell a (Z.to_nat i)).
Proof.
  intros H. unfold index.
  destruct (Z.leb_spec 0 i); [|lia]. destruct (Z.ltb_spec i 512); [|lia]. reflexivity.
Qed.

Lemma index_out (a : list byte) (i : Z) :
  i < 0 \/ 512 <= i -> index a i = None.
Proof.
  intros H. unfold index.
  destruct (Z.leb_spec 0 i); destruct (Z.ltb_spec i 512); try reflexivity; lia.
Qed.

Lemma index_Some (a : list byte) (i : Z) (x : byte) :
  index a i = Some x -> 0 <= i < 512 /\ x = cell a (Z.to_nat i).
Proof.
  unfold index.
  destruct (Z.leb_spec 0 i); destruct (Z.ltb_spec i 512); simpl; intros E;
    inversion E; split; auto; lia.
Qed.

(** ** The primitive reads *)

Lemma Read_ok (b : BytePacketBuffer) :
  0 <= pos b < 512 ->
  Read b = (Ok (cell (buf b) (Z.to_nat (pos b))), set_pos b (pos b + 1)).
Proof.
  intros H. unfold Read.
  destruct (Z.leb_spec 512 (pos b)); [lia|].
  rewrite index_in by lia. rewrite Int_add_small by lia. reflexivity.
Qed.

Lemma Read_err (b : BytePacketBuffer) :
  512 <= pos b -> Read b = (Err end_of_buffer, b).
Proof.
  intros H. unfold Read. destruct (Z.leb_spec 512 (pos b)); [reflexivity|lia].
Qed.

Lemma Read_panic (b : BytePacketBuffer) :
  pos b < 0 -> Read b = (Panic, b).
Proof.
  intros H. unfold Read. destruct (Z.leb_spec 512 (pos b)); [lia|].
  rewrite index_out by lia. reflexivity.
Qed.

Lemma Get_ok (b : BytePacketBuffer) (p : Z) :
  pos b < 512 -> 0 <= p < 512 ->
  Get p b = (Ok (cell (buf b) (Z.to_nat p)), b).
Proof.
  intros H Hp. unfold Get. destruct (Z.leb_spec 512 (pos b)); [lia|].
  rewrite index_in by lia. reflexivity.
Qed.

Lemma Get_err (b : BytePacketBuffer) (p : Z) :
  512 <= pos b -> Get p b = (Err end_of_buffer, b).
Proof.
  intros H. unfold Get. destruct (Z.leb_spec 512 (pos b)); [reflexivity|lia].
Qed.

Lemma Get_panic (b : BytePacketBuffer) (p : Z) :
  pos b < 512 -> p < 0 \/ 512 <= p -> Get p b = (Panic, b).
Proof.
  intros H Hp. unfold Get. destruct (Z.leb_spec 512 (pos b)); [lia|].
  rewrite index_out by lia. reflexivity.
Qed.

Lemma Get_buffer (b : BytePacketBuffer) (p : Z) : snd (Get p b) = b.
Proof.
  unfold Get. destruct (512 <=? pos b); [reflexivity|].
  destruct (index (buf b) p); reflexivity.
Qed.

Lemma GetRange_buffer (b : BytePacketBuffer) (start len : Z) :
  snd (GetRange start len b) = b.
Proof.
  unfold GetRange. destruct (512 <=? Int.add start len); [reflexivity|].
  destruct (slice (buf b) start (Int.add start len)); reflexivity.
Qed.

Lemma GetRange_ok (b : BytePacketBuffer) (start len : Z) :
  0 <= start -> 0 <= len -> start + len < 512 ->
  GetRange start len b =
    (Ok (map (cell (buf b)) (seq (Z.to_nat start) (Z.to_nat len))), b).
Proof.
  intros Hs Hl H. unfold GetRange. rewrite Int_add_small by lia.
  destruct (Z.leb_spec 512 (start + len)); [lia|].
  unfold slice.
  destruct (Z.leb_spec 0 start); [|lia].
  destruct (Z.leb_spec start (start + len)); [|lia].
  destruct (Z.leb_spec (start + len) 512); [|lia].
  simpl. replace (start + len - start) with len by lia. reflexivity.
Qed.

Lemma GetRange_err (b : BytePacketBuffer) (start len : Z) :
  512 <= start + len < 2 ^ 63 ->
  GetRange start len b = (Err End_of_buffer, b).
Proof.
  intros H. unfold GetRange. rewrite Int_add_small by lia.
  destruct (Z.leb_spec 512 (start + len)); [reflexivity|lia].
Qed.

(** The three ways [ReadU16] can go, by where the cursor is. *)
Lemma ReadU16_ok (b : BytePacketBuffer) :
  0 <= pos b < 511 ->
  ReadU16 b =
    (Ok (Z.lor (uint16 (Z.shiftl (u (cell (buf b) (Z.to_nat (pos b)))) 8))
               (u (cell (buf b) (Z.to_nat (pos b + 1))))),
     set_pos b (pos b + 2)).
Proof.
  intros H. unfold ReadU16, bind, ret.
  rewrite Read_ok by lia. rewrite Read_ok by (rewrite pos_set_pos; lia).
  rewrite pos_set_pos, buf_set_pos, set_pos_set_pos.
  replace (pos b + 1 + 1) with (pos b + 2) by lia. reflexivity.
Qed.


Lemma ReadU16_err (b : BytePacketBuffer) :
  512 <= pos b -> ReadU16 b = (Err end_of_buffer, b).
Proof.
  intros H. unfold ReadU16, bind. rewrite Read_err by lia. reflexivity.
Qed.

Lemma ReadU16_panic (b : BytePacketBuffer) :
  pos b < 0 -> ReadU16 b = (Panic, b).
Proof.
  intros H. unfold ReadU16, bind. rewrite Read_panic by lia. reflexivity.
Qed.

(** ** Sequences of byte reads *)

Lemma reads_Read : reads 1 Read.
Proof.
  intros b.
  destruct (Z.lt_ge_cases (pos b) 0).
  - rewrite Read_panic by lia. auto.
  - destruct (Z.lt_ge_cases (pos b) 512).
    + rewrite Read_ok by lia. repeat split; lia.
    + rewrite Read_err by lia. repeat split; try lia.
      rewrite Z.max_l by lia. symmetry. apply set_pos_same.
Qed.

Lemma reads_bind {A B} (n k : Z) (m : M BytePacketBuffer A) (f : A -> M BytePacketBuffer B) :
  0 <= n -> 0 < k -> reads n m -> (forall a, reads k (f a)) -> reads (n + k) (bind m f).
Proof.
  intros Hn Hk Hm Hf b. unfold bind.
  specialize (Hm b). destruct (m b) as [[a|e|] b1].
  - destruct Hm as (H0 & H1 & ->).
    specialize (Hf a (set_pos b (pos b + n))).
    destruct (f a (set_pos b (pos b + n))) as [[x|e|] b2];
      rewrite pos_set_pos in Hf.
    + destruct Hf as (_ & H2 & ->). repeat split; try lia.
      rewrite set_pos_set_pos. f_equal. lia.
    + destruct Hf as (-> & H2 & ->). repeat split; try lia.
      rewrite set_pos_set_pos. f_equal. lia.
    + lia.
  - destruct Hm as (-> & H1 & ->). repeat split; lia.
  - destruct Hm as (H1 & ->). auto.
Qed.

Lemma reads_last {A B} (n : Z) (m : M BytePacketBuffer A) (g : A -> B) :
  reads n m -> reads n (bind m (fun a => ret (g a))).
Proof.
  intros Hm b. unfold bind, ret. specialize (Hm b).
  destruct (m b) as [[a|e|] b1]; exact Hm.
Qed.

Lemma reads_ReadU16 : reads 2 ReadU16.
Proof.
  unfold ReadU16. apply (reads_bind 1 1); try lia.
  - apply reads_Read.
  - intros high. apply reads_last, reads_Read.
Qed.

Lemma reads_ReadU16_Query : reads 2 ReadU16_Query.
Proof. exact reads_ReadU16. Qed.

Lemma reads_ReadU32 : reads 4 ReadU32.
Proof.
  unfold ReadU32. apply (reads_bind 1 3); try lia; [apply reads_Read|].
  intros b1. apply (reads_bind 1 2); try lia; [apply reads_Read|].
  intros b2. apply (reads_bind 1 1); try lia; [apply reads_Read|].
  intros b3. apply reads_last, reads_Read.
Qed.

(** ** C6: a failed read and the cursor *)



(** ** C9: the cursor and the bound 512 *)

(** C9, counterexample: [Seek] reports success and leaves the cursor at 600. *)
Lemma C9_counterexample :
  fst (Seek 600 NewBytePacketBuffer) = Ok tt /\
  ~ pos (snd (Seek 600 NewBytePacketBuffer)) <= 512.
Proof.
  split; [reflexivity|]. simpl. lia.
Qed.

(** C9, as amended: after a successful [Read], [ReadU16], [ReadU32] or [Get]
    the cursor is at most 512; [GetRange] never moves the cursor; [Seek] and
    [Step] always succeed and set the cursor without any check, so it is
    through them alone that the cursor can pass 512: no read, failed or not,
    takes a cursor that was at most 512 beyond 512. *)
Theorem C9_cursor_bound (b : BytePacketBuffer) :
  (forall x b', Read b = (Ok x, b') -> pos b' <= 512) /\
  (forall x b', ReadU16 b = (Ok x, b') -> pos b' <= 512) /\
  (forall x b', ReadU32 b = (Ok x, b') -> pos b' <= 512) /\
  (forall p x b', Get p b = (Ok x, b') -> pos b' <= 512) /\
  (forall start len, snd (GetRange start len b) = b) /\
  (forall p, Seek p b = (Ok tt, set_pos b p)) /\
  (forall steps, Step steps b = (Ok tt, set_pos b (Int.add (pos b) steps))) /\
  (pos b <= 512 ->
   pos (snd (Read b)) <= 512 /\ pos (snd (ReadU16 b)) <= 512 /\
   pos (snd (ReadU32 b)) <= 512).
Proof.
  pose proof (reads_Read b) as H1.
  pose proof (reads_ReadU16 b) as H2.
  pose proof (reads_ReadU32 b) as H4.
  repeat split.
  - intros x b' E. rewrite E in H1. destruct H1 as (_ & H & ->). simpl. lia.
  - intros x b' E. rewrite E in H2. destruct H2 as (_ & H & ->). simpl. lia.
  - intros x b' E. rewrite E in H4. destruct H4 as (_ & H & ->). simpl. lia.
  - intros p x b' E. unfold Get in E.
    destruct (Z.leb_spec 512 (pos b)); [discriminate|].
    destruct (index (buf b) p); inversion E; subst; lia.
  - intros start len. apply GetRange_buffer.
  - destruct (Read b) as [[x|e|] b']; simpl.
    + destruct H1 as (_ & ? & ->). simpl. lia.
    + destruct H1 as (_ & ? & ->). simpl. lia.
    + destruct H1 as (_ & ->). assumption.
  - destruct (ReadU16 b) as [[x|e|] b']; simpl.
    + destruct H2 as (_ & ? & ->). simpl. lia.
    + destruct H2 as (_ & ? & ->). simpl. lia.
    + destruct H2 as (_ & ->). assumption.
  - destruct (ReadU32 b) as [[x|e|] b']; simpl.
    + destruct H4 as (_ & ? & ->). simpl. lia.
    + destruct H4 as (_ & ? & ->). simpl. lia.
    + destruct H4 as (_ & ->). assumption.
Qed.

Lemma C9_cursor_bound_witness :
  pos (buffer_of [] 510) <= 512 /\
  pos (snd (ReadU16 (buffer_of [] 510))) <= 512 /\
  pos (snd (Seek 600 (buffer_of [] 510))) = 600.
Proof.
  destruct (C9_cursor_bound (buffer_of [] 510))
    as (_ & _ & _ & _ & _ & HS & _ & HR).
  split; [simpl; lia|]. split.
  - apply HR. simpl. lia.
  - rewrite HS. reflexivity.
Defined.

(** ** C1: reading past byte 511 *)

(** What the claim says and the code does: [Read] past byte 511 is refused
    with the overrun error, and so is a range that ends past byte 511. *)
Lemma Read_past_end (b : BytePacketBuffer) :
  511 < pos b -> Read b = (Err end_of_buffer, b) /\ BufferOverrun (fst (Read b)).
Proof.
  intros H. rewrite Read_err by lia. split; [reflexivity|]. left. reflexivity.
Qed.

Lemma GetRange_past_end (b : BytePacketBuffer) (start len : Z) :
  0 <= start < 512 -> 0 <= len < 512 -> 511 < start + len - 1 ->
  BufferOverrun (fst (GetRange start len b)).
Proof.
  intros Hs Hl H. rewrite GetRange_err by lia. right. reflexivity.
Qed.

(** [Get] tests the cursor, not the index it is asked for: with the cursor
    inside the buffer an index outside it is not refused but reaches the
    array, where Go's bounds check stops the program. *)
Lemma Get_past_end (b : BytePacketBuffer) (p : Z) :
  pos b < 512 -> 511 < p -> Get p b = (Panic, b).
Proof.
  intros H Hp. apply Get_panic; lia.
Qed.

(** C1, the failing input: [Get 512] on a fresh buffer (cursor 0) and the
    decoding of a name that is a pointer to offset 512 end in the
    index-out-of-range panic, not in the overrun error. *)
Theorem C1_Get_index_unchecked :
  Get 512 NewBytePacketBuffer = (Panic, NewBytePacketBuffer) /\
  ~ BufferOverrun (fst (Get 512 NewBytePacketBuffer)) /\
  fst (Read_qname (""%string, buffer_of pointer_to_512 0)) = Panic.
Proof.
  split; [reflexivity|]. split.
  - intros [H|H]; discriminate H.
  - vm_compute. reflexivity.
Qed.

(** ** C2: the flag word *)

Lemma land_1_testbit (x : Z) : (0 <? Z.land x 1) = Z.testbit x 0.
Proof.
  change 1 with (Z.ones 1). rewrite Z.land_ones by lia.
  change (2 ^ 1) with 2. rewrite <- Z.bit0_mod.
  destruct (Z.testbit x 0); reflexivity.
Qed.

Lemma shiftr_land_1_testbit (flags k : Z) :
  0 <= k -> (0 <? Z.land (Z.shiftr flags k) 1) = Z.testbit flags k.
Proof.
  intros Hk. rewrite land_1_testbit, Z.shiftr_spec by lia. f_equal.
Qed.

(** The bits [decode_flags] takes each field from.  The four-bit opcode is
    bits 11 to 14; checking-disabled, authed-data and the reserved bit are
    read from bits 12, 13 and 14, inside the opcode, and bits 4, 5 and 6 of
    the word are not looked at. *)
Lemma decode_flags_bits (flags : Z) (h : DnsHeader) :
  0 <= flags < 2 ^ 16 ->
  let h' := decode_flags flags h in
  Response h' = Z.testbit flags 15 /\
  Opcode h' = (flags / 2 ^ 11) mod 2 ^ 4 /\
  AuthoritativeAnswer h' = Z.testbit flags 10 /\
  TruncatedMessage h' = Z.testbit flags 9 /\
  RecursionDesired h' = Z.testbit flags 8 /\
  RecursionAvailable h' = Z.testbit flags 7 /\
  Z_reserved h' = Z.testbit flags 14 /\
  AuthedData h' = Z.testbit flags 13 /\
  CheckingDisabled h' = Z.testbit flags 12 /\
  ResCode h' = ResultCodeFromNum (flags mod 2 ^ 4).
Proof.
  intros H. unfold decode_flags. cbn [Response Opcode AuthoritativeAnswer
    TruncatedMessage RecursionDesired RecursionAvailable Z_reserved AuthedData
    CheckingDisabled ResCode].
  rewrite !shiftr_land_1_testbit by lia.
  repeat split.
  - change 0xF with (Z.ones 4). rewrite Z.land_ones, Z.shiftr_div_pow2 by lia.
    unfold uint8. apply Z.mod_small.
    pose proof (Z.mod_pos_bound (flags / 2 ^ 11) (2 ^ 4) ltac:(lia)). lia.
  - change 0xF with (Z.ones 4). rewrite Z.land_ones by lia.
    unfold uint8. f_equal. apply Z.mod_small.
    pose proof (Z.mod_pos_bound flags (2 ^ 4) ltac:(lia)). lia.
Qed.

(** C2, the failing input: with bit 4 of the flag word set and all others
    clear the decoded header has checking-disabled false; with bit 12 set
    (a bit of the opcode) it has checking-disabled true and opcode 2.  Bits
    5 and 6 (authed-data, reserved) go the same way with bits 13 and 14. *)
Theorem C2_flag_bits_misread :
  decoded_header header_flags_0010 =
    (Ok tt, mkHeader 0x1234 false false false 0 false NOERROR
                     false false false false 1 0 0 0) /\
  decoded_header header_flags_1000 =
    (Ok tt, mkHeader 0x1234 false false false 2 false NOERROR
                     true false false false 1 0 0 0) /\
  decoded_header (bytes_of [0; 0; 0x00; 0x60; 0; 0; 0; 0; 0; 0; 0; 0]) =
    (Ok tt, NewDnsHeader) /\
  AuthedData (decode_flags 0x2000 NewDnsHeader) = true /\
  Z_reserved (decode_flags 0x4000 NewDnsHeader) = true.
Proof.
  repeat split; vm_compute; reflexivity.
Qed.

(** ** The name decoder: one pass of the loop *)

Lemma body_limit (s : locals) :
  maxJumps < l_jumpsPerformed s -> Read_qname_body s = Return (Err jump_limit) s.
Proof.
  intros H. unfold Read_qname_body.
  destruct (Z.ltb_spec maxJumps (l_jumpsPerformed s)); [reflexivity|lia].
Qed.

Lemma locals_eta (s : locals) :
  mkLocals (l_b s) (l_outstr s) (l_pos s) (l_delim s) (l_jumped s) (l_jumpsPerformed s) = s.
Proof. destruct s; reflexivity. Qed.

Lemma body_overrun (s : locals) :
  l_jumpsPerformed s <= maxJumps -> 512 <= pos (l_b s) ->
  Read_qname_body s = Return (Err end_of_buffer) s.
Proof.
  intros Hj H. unfold Read_qname_body.
  destruct (Z.ltb_spec maxJumps (l_jumpsPerformed s)); [lia|].
  rewrite Get_err by lia. rewrite locals_eta. reflexivity.
Qed.

Lemma body_panic (s : locals) :
  l_jumpsPerformed s <= maxJumps -> pos (l_b s) < 512 ->
  l_pos s < 0 \/ 512 <= l_pos s ->
  Read_qname_body s = Return Panic s.
Proof.
  intros Hj H Hp. unfold Read_qname_body.
  destruct (Z.ltb_spec maxJumps (l_jumpsPerformed s)); [lia|].
  rewrite Get_panic by lia. rewrite locals_eta. reflexivity.
Qed.

(** The terminating octet. *)
Lemma body_end (s : locals) (len : byte) :
  l_jumpsPerformed s <= maxJumps -> pos (l_b s) < 512 ->
  index (buf (l_b s)) (l_pos s) = Some len -> u len = 0 ->
  Read_qname_body s =
    Break (mkLocals (l_b s) (l_outstr s) (l_pos s + 1) (l_delim s) (l_jumped s)
                    (l_jumpsPerformed s)).
Proof.
  intros Hj H Hi Hz. apply index_Some in Hi. destruct Hi as [Hp ->].
  unfold Read_qname_body.
  destruct (Z.ltb_spec maxJumps (l_jumpsPerformed s)); [lia|].
  rewrite Get_ok by lia. rewrite Hz. simpl.
  rewrite Int_add_small by lia. reflexivity.
Qed.

(** A label that fits: its bytes are appended after the delimiter. *)
Lemma body_label (s : locals) (len : byte) :
  l_jumpsPerformed s <= maxJumps -> pos (l_b s) < 512 ->
  index (buf (l_b s)) (l_pos s) = Some len ->
  u len <> 0 -> ~ is_pointer len -> l_pos s + 1 + u len < 512 ->
  Read_qname_body s =
    Continue (mkLocals (l_b s)
      ((l_outstr s ++ l_delim s) ++
       string_of_bytes (map (cell (buf (l_b s)))
                            (seq (Z.to_nat (l_pos s + 1)) (Z.to_nat (u len)))))%string
      (l_pos s + 1 + u len) "." (l_jumped s) (l_jumpsPerformed s)).
Proof.
  intros Hj H Hi Hz Hp Hfit. apply index_Some in Hi. destruct Hi as [Hr ->].
  unfold is_pointer in Hp. unfold Read_qname_body.
  destruct (Z.ltb_spec maxJumps (l_jumpsPerformed s)); [lia|].
  rewrite Get_ok by lia.
  set (len := cell (buf (l_b s)) (Z.to_nat (l_pos s))) in *.
  pose proof (u_range len) as Hu.
  destruct (Z.eqb_spec (Z.land (u len) 0xC0) 0xC0); [contradiction|].
  destruct (Z.eqb_spec (u len) 0); [contradiction|].
  rewrite Int_add_small by lia.
  rewrite GetRange_ok by lia.
  rewrite Int_add_small by lia. reflexivity.
Qed.

(** A label that runs into the end of the buffer. *)
Lemma body_label_overrun (s : locals) (len : byte) :
  l_jumpsPerformed s <= maxJumps -> pos (l_b s) < 512 ->
  index (buf (l_b s)) (l_pos s) = Some len ->
  u len <> 0 -> ~ is_pointer len -> 512 <= l_pos s + 1 + u len ->
  Read_qname_body s =
    Return (Err End_of_buffer)
      (mkLocals (l_b s) (l_outstr s ++ l_delim s)%string (l_pos s + 1) (l_delim s)
                (l_jumped s) (l_jumpsPerformed s)).
Proof.
  intros Hj H Hi Hz Hp Hfit. apply index_Some in Hi. destruct Hi as [Hr ->].
  unfold is_pointer in Hp. unfold Read_qname_body.
  destruct (Z.ltb_spec maxJumps (l_jumpsPerformed s)); [lia|].
  rewrite Get_ok by lia.
  set (len := cell (buf (l_b s)) (Z.to_nat (l_pos s))) in *.
  pose proof (u_range len) as Hu.
  destruct (Z.eqb_spec (Z.land (u len) 0xC0) 0xC0); [contradiction|].
  destruct (Z.eqb_spec (u len) 0); [contradiction|].
  rewrite Int_add_small by lia.
  rewrite GetRange_err by lia. reflexivity.
Qed.

Lemma body_pointer (s : locals) (len offset : byte) :
  l_jumpsPerformed s <= maxJumps -> - 2 ^ 63 <= l_jumpsPerformed s ->
  pos (l_b s) < 512 ->
  index (buf (l_b s)) (l_pos s) = Some len -> is_pointer len ->
  pos (after_pointer s) < 512 ->
  index (buf (l_b s)) (l_pos s + 1) = Some offset ->
  Read_qname_body s =
    Continue (mkLocals (after_pointer s) (l_outstr s) (pointer_target len offset)
                       (l_delim s) true (l_jumpsPerformed s + 1)).
Proof.
  intros Hj Hj0 H Hi Hp Ha Ho.
  apply index_Some in Hi. destruct Hi as [Hr ->].
  apply index_Some in Ho. destruct Ho as [Hr1 ->].
  unfold is_pointer in Hp. unfold Read_qname_body.
  destruct (Z.ltb_spec maxJumps (l_jumpsPerformed s)); [lia|].
  rewrite Get_ok by lia.
  destruct (Z.eqb_spec (Z.land (u (cell (buf (l_b s)) (Z.to_nat (l_pos s)))) 0xC0) 0xC0);
    [|contradiction].
  unfold after_pointer in *. unfold maxJumps in *.
  rewrite !Int_add_small by lia.
  unfold Seek. destruct (l_jumped s); cbn [snd] in *.
  - rewrite Get_ok by lia. reflexivity.
  - rewrite pos_set_pos in Ha. rewrite Get_ok by (rewrite ?pos_set_pos; lia).
    reflexivity.
Qed.

(** A pointer whose second octet cannot be read: the cursor was moved to
    512 or beyond by the [Seek] just before. *)
Lemma body_pointer_overrun (s : locals) (len : byte) :
  l_jumpsPerformed s <= maxJumps -> pos (l_b s) < 512 ->
  index (buf (l_b s)) (l_pos s) = Some len -> is_pointer len ->
  512 <= pos (after_pointer s) ->
  Read_qname_body s =
    Return (Err end_of_buffer)
      (mkLocals (after_pointer s) (l_outstr s) (l_pos s) (l_delim s) (l_jumped s)
                (l_jumpsPerformed s)).
Proof.
  intros Hj H Hi Hp Ha.
  apply index_Some in Hi. destruct Hi as [Hr ->].
  unfold is_pointer in Hp. unfold Read_qname_body.
  destruct (Z.ltb_spec maxJumps (l_jumpsPerformed s)); [lia|].
  rewrite Get_ok by lia.
  destruct (Z.eqb_spec (Z.land (u (cell (buf (l_b s)) (Z.to_nat (l_pos s)))) 0xC0) 0xC0);
    [|contradiction].
  unfold after_pointer in *.
  rewrite !Int_add_small by lia.
  unfold Seek. destruct (l_jumped s); cbn [snd] in *.
  - lia.
  - rewrite pos_set_pos in Ha. rewrite Get_err by (rewrite ?pos_set_pos; lia).
    reflexivity.
Qed.

Lemma Get_Ok_inv (b b' : BytePacketBuffer) (p : Z) (x : byte) :
  Get p b = (Ok x, b') -> pos b < 512 /\ index (buf b) p = Some x /\ b' = b.
Proof.
  unfold Get. destruct (Z.leb_spec 512 (pos b)); [discriminate|].
  destruct (index (buf b) p); intros E; inversion E; subst. auto.
Qed.

Lemma GetRange_Ok_inv (b b' : BytePacketBuffer) (start len : Z) (l : list byte) :
  GetRange start len b = (Ok l, b') ->
  Int.add start len < 512 /\ slice (buf b) start (Int.add start len) = Some l /\ b' = b.
Proof.
  unfold GetRange. destruct (Z.leb_spec 512 (Int.add start len)); [discriminate|].
  destruct (slice (buf b) start (Int.add start len)); intros E; inversion E; subst. auto.
Qed.

(** Every pass that goes on to another either makes a jump, which the limit
    allows six times at most, or reads a label, which moves the local
    position forward and keeps it inside the buffer. *)
Lemma body_Continue (s s' : locals) :
  Read_qname_body s = Continue s' ->
  (l_jumpsPerformed s <= maxJumps /\
   l_jumpsPerformed s' = Int.add (l_jumpsPerformed s) 1) \/
  (l_jumpsPerformed s' = l_jumpsPerformed s /\
   0 <= l_pos s < l_pos s' /\ l_pos s' < 512).
Proof.
  unfold Read_qname_body.
  destruct (Z.ltb_spec maxJumps (l_jumpsPerformed s)); [discriminate|].
  destruct (Get (l_pos s) (l_b s)) as [[len|e|] b0] eqn:EG; try discriminate.
  apply Get_Ok_inv in EG. destruct EG as (Hc & Hi & ->).
  apply index_Some in Hi. destruct Hi as [Hr _].
  destruct (Z.eqb_spec (Z.land (u len) 0xC0) 0xC0) as [Hptr|Hptr].
  - destruct (Get _ _) as [[offset|e|] b2]; try discriminate.
    intros E. inversion E; subst. left. simpl. auto.
  - rewrite Int_add_small by lia.
    destruct (Z.eqb_spec (u len) 0) as [Hz|Hz]; [discriminate|].
    destruct (GetRange _ _ _) as [[bytes|e|] b1] eqn:ER; try discriminate.
    apply GetRange_Ok_inv in ER. destruct ER as (Hlt & _ & ->).
    pose proof (u_range len) as Hu.
    rewrite Int_add_small in * by lia.
    intros E. inversion E; subst. right. simpl. lia.
Qed.

(** ** The name decoder: runs of the loop *)

Lemma loop_run (fuel : nat) : forall s r,
  Read_qname_loop fuel s = Some r -> Read_qname_run s r.
Proof.
  induction fuel as [|fuel IH]; intros s r; simpl; [discriminate|].
  destruct (Read_qname_body s) as [s'|s'|o s'] eqn:E.
  - intros H. eapply run_continue; eauto.
  - intros H. inversion H. apply run_break. assumption.
  - intros H. inversion H. apply run_return. assumption.
Qed.

Lemma run_deterministic (s : locals) (r1 r2 : outcome unit * locals) :
  Read_qname_run s r1 -> Read_qname_run s r2 -> r1 = r2.
Proof.
  intros H1. revert r2.
  induction H1 as [s s' r E _ IH|s s' E|s s' o E]; intros r2 H2;
    inversion H2; subst; try congruence.
  apply IH. congruence.
Qed.

Lemma loop_more (fuel : nat) : forall s r k,
  Read_qname_loop fuel s = Some r -> Read_qname_loop (fuel + k) s = Some r.
Proof.
  induction fuel as [|fuel IH]; intros s r k; simpl; [discriminate|].
  destruct (Read_qname_body s); auto.
Qed.

Lemma passes_left_pos_bound (s : locals) :
  0 <= (if (0 <=? l_pos s) && (l_pos s <? 512) then 512 - l_pos s else 0) <= 512.
Proof.
  destruct (Z.leb_spec 0 (l_pos s)); destruct (Z.ltb_spec (l_pos s) 512);
    cbn [andb]; lia.
Qed.

Lemma loop_enough (fuel : nat) : forall s,
  0 <= l_jumpsPerformed s <= 6 -> passes_left s <= Z.of_nat fuel ->
  exists r, Read_qname_loop fuel s = Some r.
Proof.
  induction fuel as [|fuel IH]; intros s Hj Hf.
  - exfalso. unfold passes_left in Hf.
    pose proof (passes_left_pos_bound s) as Hb. simpl Z.of_nat in Hf. nia.
  - simpl. destruct (Read_qname_body s) as [s'|s'|o s'] eqn:E; eauto.
    apply IH.
    + apply body_Continue in E. unfold maxJumps in E.
      destruct E as [[Hle ->]|[-> _]]; [|assumption].
      rewrite Int_add_small by lia. lia.
    + pose proof (passes_left_pos_bound s) as Hb.
      pose proof (passes_left_pos_bound s') as Hb'.
      apply body_Continue in E. unfold maxJumps in E. unfold passes_left in *.
      destruct E as [[Hle Hs']|[Hs' [Hp Hp']]]; rewrite Hs'.
      * rewrite Int_add_small by lia. lia.
      * destruct (Z.leb_spec 0 (l_pos s)); [|lia].
        destruct (Z.ltb_spec (l_pos s) 512); [|lia].
        destruct (Z.leb_spec 0 (l_pos s')); [|lia].
        destruct (Z.ltb_spec (l_pos s') 512); [|lia].
        cbn [andb] in *. lia.
Qed.

Lemma passes_left_init (outstr : string) (b : BytePacketBuffer) :
  passes_left (Read_qname_init outstr b) <= 3591.
Proof.
  pose proof (passes_left_pos_bound (Read_qname_init outstr b)) as H.
  unfold passes_left. simpl l_jumpsPerformed. lia.
Qed.

(** 3591 passes are enough for every buffer and cursor, and more passes
    change nothing. *)
Lemma Read_qname_fuel_enough (outstr : string) (b : BytePacketBuffer) :
  exists r,
    Read_qname_run (Read_qname_init outstr b) r /\
    forall fuel, (3591 <= fuel)%nat ->
      Read_qname_fuel fuel outstr b = Some (Read_qname_exit r).
Proof.
  destruct (loop_enough 3591 (Read_qname_init outstr b)) as [r Hr].
  - simpl. lia.
  - pose proof (passes_left_init outstr b). lia.
  - exists r. split; [eapply loop_run; eassumption|].
    intros fuel Hf. unfold Read_qname_fuel.
    replace fuel with (3591 + (fuel - 3591))%nat by lia.
    rewrite (loop_more _ _ _ _ Hr). reflexivity.
Qed.

(** [Read_qname] is what the loop, run to its end, and the exit give. *)
Lemma Read_qname_of_run (outstr : string) (b : BytePacketBuffer) (r : outcome unit * locals) :
  Read_qname_run (Read_qname_init outstr b) r ->
  Read_qname (outstr, b) = Read_qname_exit r.
Proof.
  intros Hrun. destruct (Read_qname_fuel_enough outstr b) as [r' [Hr' Hf]].
  unfold Read_qname. rewrite Hf by (unfold qname_fuel; lia).
  f_equal. eapply run_deterministic; eassumption.
Qed.

Lemma Read_qname_run_ex (outstr : string) (b : BytePacketBuffer) :
  exists r, Read_qname_run (Read_qname_init outstr b) r /\
            Read_qname (outstr, b) = Read_qname_exit r.
Proof.
  destruct (Read_qname_fuel_enough outstr b) as [r [Hr Hf]].
  exists r. split; [assumption|]. apply Read_qname_of_run. assumption.
Qed.

(** ** C10: name decoding ends, with a name, an error or a panic *)

(** C10, the failing input.  The loop of [Read_qname] does end on every
    buffer content, string and cursor: it is left after at most 3591 passes
    and more fuel gives the same result, which is the value of
    [Read_qname]; a pass that goes on either makes one of the at most six
    jumps the limit lets through or moves the local position forward inside
    the 512 bytes.  But the call does not always return a name or an error:
    on the name [C2 00], a pointer to offset 512, read at cursor 0, [Get],
    which tests the cursor (2 by then) and not the index 512 it is asked
    for, reaches the array and the program stops with the
    index-out-of-range panic. *)
Theorem C10_Read_qname_ends_or_panics :
  (forall outstr b,
     exists r,
       (forall fuel, (3591 <= fuel)%nat -> Read_qname_fuel fuel outstr b = Some r) /\
       Read_qname (outstr, b) = r) /\
  (forall s s',
     Read_qname_body s = Continue s' ->
     (l_jumpsPerformed s <= maxJumps /\
      l_jumpsPerformed s' = Int.add (l_jumpsPerformed s) 1) \/
     (l_jumpsPerformed s' = l_jumpsPerformed s /\
      0 <= l_pos s < l_pos s' /\ l_pos s' < 512)) /\
  (forall s, maxJumps < l_jumpsPerformed s ->
     Read_qname_body s = Return (Err jump_limit) s) /\
  Read_qname (""%string, buffer_of pointer_to_512 0) =
    (Panic, (""%string, buffer_of pointer_to_512 2)) /\
  pos (snd (snd (Read_qname (""%string, buffer_of pointer_to_512 0)))) = 2 /\
  fst (Read_qname (""%string, buffer_of pointer_to_512 0)) <> Ok tt /\
  (forall e, fst (Read_qname (""%string, buffer_of pointer_to_512 0)) <> Err e).
Proof.
  split; [|split; [|split]].
  - intros outstr b.
    destruct (Read_qname_fuel_enough outstr b) as [r [Hr Hf]].
    exists (Read_qname_exit r). split; [exact Hf|].
    apply Read_qname_of_run. assumption.
  - exact body_Continue.
  - exact body_limit.
  - assert (H : Read_qname (""%string, buffer_of pointer_to_512 0) =
                (Panic, (""%string, buffer_of pointer_to_512 2)))
      by (vm_compute; reflexivity).
    split; [exact H|]. rewrite H. split; [reflexivity|].
    split; [discriminate|]. intros e. discriminate.
Qed.

Lemma C10_Read_qname_ends_or_panics_witness :
  Read_qname_fuel 3591 "" (buffer_of www_example_com 0) =
    Some (Read_qname (""%string, buffer_of www_example_com 0)) /\
  Read_qname_fuel 3591 "" (buffer_of pointer_to_512 0) =
    Some (Panic, (""%string, buffer_of pointer_to_512 2)).
Proof.
  destruct C10_Read_qname_ends_or_panics as (Hall & _ & _ & Hp & _).
  split.
  - destruct (Hall ""%string (buffer_of www_example_com 0)) as [r [Hf Hr]].
    rewrite Hr. apply Hf. apply Nat.le_refl.
  - destruct (Hall ""%string (buffer_of pointer_to_512 0)) as [r [Hf Hr]].
    rewrite <- Hp, Hr. apply Hf. apply Nat.le_refl.
Defined.

(** ** Encoded names in the buffer *)

Lemma string_app_nil_r (s : string) : (s ++ "")%string = s.
Proof.
  induction s as [|c s IH]; simpl; [reflexivity|]. rewrite IH. reflexivity.
Qed.

Lemma string_app_assoc (s1 s2 s3 : string) :
  ((s1 ++ s2) ++ s3)%string = (s1 ++ (s2 ++ s3))%string.
Proof.
  induction s1 as [|c s1 IH]; simpl; [reflexivity|]. rewrite IH. reflexivity.
Qed.

Lemma delim_after_dot (ls : list (list byte)) : delim_after "." ls = "."%string.
Proof. destruct ls; reflexivity. Qed.

Lemma labels_at_range (a : list byte) (p q : Z) (ls : list (list byte)) :
  labels_at a p ls q -> p <= q /\ (ls <> [] -> 0 <= p /\ q < 512).
Proof.
  induction 1 as [p|p q len l ls Hi Hz Hp Hfit El Hl [IH1 IH2]].
  - split; [lia|]. intros H; contradiction H; reflexivity.
  - apply index_Some in Hi. destruct Hi as [Hr _].
    pose proof (u_range len). split; [lia|]. intros _.
    destruct ls as [|l' ls'].
    + inversion Hl; subst. lia.
    + assert (l' :: ls' <> []) as Hne by discriminate.
      specialize (IH2 Hne). lia.
Qed.

(** The loop walks over labels: entered at their first octet it comes, with
    the cursor of the buffer untouched, to the octet after them. *)
Lemma run_labels (a : list byte) (p q : Z) (ls : list (list byte)) :
  labels_at a p ls q ->
  forall s r,
    buf (l_b s) = a -> l_pos s = p -> pos (l_b s) < 512 ->
    l_jumpsPerformed s <= maxJumps ->
    Read_qname_run
      (mkLocals (l_b s) (append_labels (l_outstr s) (l_delim s) ls) q
                (delim_after (l_delim s) ls) (l_jumped s) (l_jumpsPerformed s)) r ->
    Read_qname_run s r.
Proof.
  induction 1 as [p|p q len l ls Hi Hz Hp Hfit El Hl IH]; intros s r Ha Hpos Hc Hj Hrun.
  - simpl in Hrun. rewrite <- Hpos in Hrun. rewrite locals_eta in Hrun. exact Hrun.
  - subst a p.
    eapply run_continue; [apply (body_label s len); assumption|].
    apply IH; simpl; try assumption; try reflexivity.
    rewrite delim_after_dot. simpl in Hrun. rewrite El in Hrun. exact Hrun.
Qed.

Lemma skipn_nth_cons {A} (d : A) (l : list A) : forall k,
  (k < length l)%nat -> skipn k l = nth k l d :: skipn (S k) l.
Proof.
  induction l as [|x l IH]; intros k Hk; simpl in Hk; [lia|].
  destruct k as [|k]; [reflexivity|].
  simpl skipn at 1. simpl nth. rewrite (IH k) by lia. reflexivity.
Qed.

Lemma bytes_at_cells (a : list byte) (p : Z) (l : list byte) :
  bytes_at a p l -> 0 <= p ->
  forall n k, (k + n <= length l)%nat ->
    map (cell a) (seq (Z.to_nat (p + Z.of_nat k)) n) = firstn n (skipn k l).
Proof.
  intros Hb Hp. induction n as [|n IH]; intros k Hk; [reflexivity|].
  rewrite (skipn_nth_cons x00 l k) by lia. simpl.
  f_equal.
  - specialize (Hb k ltac:(lia)). apply index_Some in Hb. destruct Hb as [_ Hb].
    symmetry. exact Hb.
  - replace (S (Z.to_nat (p + Z.of_nat k))) with (Z.to_nat (p + Z.of_nat (S k))) by lia.
    apply IH. lia.
Qed.

(** A label among bytes known to lie in the buffer. *)
Lemma labels_cons_bytes (a : list byte) (p q : Z) (l : list byte) (k n : nat)
      (ls : list (list byte)) :
  bytes_at a p l -> 0 <= p ->
  u (nth k l x00) = Z.of_nat n -> n <> 0%nat -> ~ is_pointer (nth k l x00) ->
  (k + 1 + n < length l)%nat ->
  labels_at a (p + Z.of_nat (k + 1 + n)) ls q ->
  labels_at a (p + Z.of_nat k) (firstn n (skipn (S k) l) :: ls) q.
Proof.
  intros Hb Hp Hu Hn Hptr Hlen Hl.
  pose proof (Hb (k + 1 + n)%nat Hlen) as Hnext. apply index_Some in Hnext.
  apply (labels_cons a _ q (nth k l x00)).
  - apply Hb. lia.
  - lia.
  - assumption.
  - lia.
  - rewrite Hu, Nat2Z.id.
    replace (p + Z.of_nat k + 1) with (p + Z.of_nat (S k)) by lia.
    symmetry. apply bytes_at_cells; try assumption. lia.
  - replace (p + Z.of_nat k + 1 + u (nth k l x00)) with (p + Z.of_nat (k + 1 + n)) by lia.
    exact Hl.
Qed.

(** What the loop appends is the labels joined by dots. *)
Lemma append_labels_dot (ls : list (list byte)) : forall out x,
  append_labels (out ++ x)%string "." ls =
  (out ++ String.concat "." (x :: map string_of_bytes ls))%string.
Proof.
  induction ls as [|l ls IH]; intros out x; [reflexivity|].
  cbn [append_labels map].
  rewrite (string_app_assoc out x "."), (string_app_assoc out (x ++ ".") (string_of_bytes l)).
  rewrite (string_app_assoc x "." (string_of_bytes l)).
  replace (x ++ "." ++ string_of_bytes l)%string
    with ((x ++ ".") ++ string_of_bytes l)%string by apply string_app_assoc.
  rewrite <- (string_app_assoc out (x ++ ".") (string_of_bytes l)).
  rewrite IH. change (String.concat "." (x :: string_of_bytes l :: map string_of_bytes ls))
    with (x ++ "." ++ String.concat "." (string_of_bytes l :: map string_of_bytes ls))%string.
  rewrite !string_app_assoc. reflexivity.
Qed.

Lemma append_labels_text (outstr : string) (ls : list (list byte)) :
  append_labels outstr "" ls = (outstr ++ name_text ls)%string.
Proof.
  destruct ls as [|l ls]; [symmetry; apply string_app_nil_r|].
  unfold name_text. cbn [append_labels map].
  rewrite string_app_nil_r. apply append_labels_dot.
Qed.

(** ** C5: an uncompressed name *)

Lemma www_example_com_labels (a : list byte) (p : Z) :
  bytes_at a p www_example_com ->
  0 <= p /\ p + 16 < 512 /\ index a (p + 16) = Some x00 /\
  labels_at a p [www; example; com] (p + 16).
Proof.
  intros Hb.
  assert (0 <= p /\ p + 16 < 512) as [Hp0 Hp1].
  { pose proof (Hb 0%nat ltac:(simpl; lia)) as H0.
    pose proof (Hb 16%nat ltac:(simpl; lia)) as H16.
    apply index_Some in H0. apply index_Some in H16. simpl Z.of_nat in *. lia. }
  repeat split; try assumption.
  - apply (Hb 16%nat). simpl. lia.
  - replace p with (p + Z.of_nat 0) at 1 by (simpl; lia).
    apply (labels_cons_bytes a p _ www_example_com 0 3); try assumption;
      try (vm_compute; congruence); try (simpl; lia).
    apply (labels_cons_bytes a p _ www_example_com 4 7); try assumption;
      try (vm_compute; congruence); try (simpl; lia).
    apply (labels_cons_bytes a p _ www_example_com 12 3); try assumption;
      try (vm_compute; congruence); try (simpl; lia).
    apply labels_nil.
Qed.

(** The loop on labels that end with the zero octet: it is left at [break]
    with the local position one past the zero. *)
Lemma run_labels_end (a : list byte) (p q : Z) (ls : list (list byte)) (s : locals) :
  labels_at a p ls q -> index a q = Some x00 ->
  buf (l_b s) = a -> l_pos s = p -> pos (l_b s) < 512 ->
  l_jumpsPerformed s <= maxJumps ->
  Read_qname_run s
    (Ok tt, mkLocals (l_b s) (append_labels (l_outstr s) (l_delim s) ls) (q + 1)
                     (delim_after (l_delim s) ls) (l_jumped s) (l_jumpsPerformed s)).
Proof.
  intros Hl Hz Ha Hp Hc Hj.
  eapply (run_labels _ _ _ _ Hl); try assumption.
  apply run_break.
  rewrite (body_end _ x00); simpl; try assumption; try reflexivity.
  rewrite Ha. exact Hz.
Qed.

(** C5: when the seventeen bytes [{3}www{7}example{3}com{0}] lie in the
    buffer at the cursor, [Read_qname] succeeds, appends the text
    ["www.example.com"] to the string it is given (so yields that text for
    the empty string) and leaves the cursor seventeen bytes on, one byte
    past the terminating zero (which lies at the cursor plus sixteen); the
    bytes of the buffer are as they were. *)
Theorem C5_uncompressed_name (b : BytePacketBuffer) (outstr : string) :
  bytes_at (buf b) (pos b) www_example_com ->
  fst (Read_qname (outstr, b)) = Ok tt /\
  fst (snd (Read_qname (outstr, b))) = (outstr ++ "www.example.com")%string /\
  pos (snd (snd (Read_qname (outstr, b)))) = pos b + 17 /\
  buf (snd (snd (Read_qname (outstr, b)))) = buf b /\
  index (buf b) (pos b + 16) = Some x00.
Proof.
  intros Hb.
  destruct (www_example_com_labels _ _ Hb) as (Hp0 & Hp1 & Hz & Hl).
  rewrite (Read_qname_of_run outstr b _
             (run_labels_end _ _ _ _ (Read_qname_init outstr b) Hl Hz
                eq_refl eq_refl ltac:(simpl; lia) ltac:(unfold maxJumps; simpl; lia))).
  simpl Read_qname_exit. unfold Seek. simpl append_labels.
  rewrite string_app_nil_r, !string_app_assoc. simpl.
  repeat split; try assumption. lia.
Qed.

Lemma C5_uncompressed_name_witness :
  bytes_at (buf (buffer_of www_example_com 0)) (pos (buffer_of www_example_com 0))
           www_example_com /\
  fst (Read_qname (""%string, buffer_of www_example_com 0)) = Ok tt /\
  fst (snd (Read_qname (""%string, buffer_of www_example_com 0))) =
    "www.example.com"%string /\
  pos (snd (snd (Read_qname (""%string, buffer_of www_example_com 0)))) = 17.
Proof.
  assert (H : bytes_at (buf (buffer_of www_example_com 0))
                       (pos (buffer_of www_example_com 0)) www_example_com).
  { intros i Hi.
    do 17 (destruct i as [|i]; [vm_compute; reflexivity|]).
    simpl in Hi. lia. }
  destruct (C5_uncompressed_name (buffer_of www_example_com 0) "" H)
    as (H1 & H2 & H3 & _).
  split; [exact H|]. split; [exact H1|]. split; [exact H2|exact H3].
Defined.

(** ** C7: records of any other type *)

Lemma bind_Ok_inv {S A B} (m : M S A) (f : A -> M S B) (s s' : S) (x : B) :
  bind m f s = (Ok x, s') ->
  exists a s1, m s = (Ok a, s1) /\ f a s1 = (Ok x, s').
Proof.
  unfold bind. destruct (m s) as [[a|e|] s1]; try discriminate.
  intros H. exists a, s1. auto.
Qed.

Lemma DnsRecordRead_prefix_payload (b b1 : BytePacketBuffer) (rec : DnsRecord) :
  DnsRecordRead_prefix b = (Ok rec, b1) ->
  rec_Addr rec = [] /\ rec_Host rec = ""%string /\ rec_Priority rec = 0.
Proof.
  unfold DnsRecordRead_prefix. intros H.
  apply bind_Ok_inv in H. destruct H as (name & s1 & _ & H).
  apply bind_Ok_inv in H. destruct H as (qtype & s2 & _ & H).
  apply bind_Ok_inv in H. destruct H as (class & s3 & _ & H).
  apply bind_Ok_inv in H. destruct H as (ttl & s4 & _ & H).
  apply bind_Ok_inv in H. destruct H as (datalen & s5 & _ & H).
  unfold ret in H. inversion H; subst. auto.
Qed.

(** C7: when the fields every record has are read (name, type, class, TTL,
    data length) and the type is none of A, AAAA, CNAME and MX,
    [DnsRecordRead] returns the record at once: the buffer, and so the
    cursor, is as it was right after the data length was read, and the
    record has no address, an empty host and priority zero. *)
Theorem C7_other_type_consumes_nothing
        (b b1 : BytePacketBuffer) (rec : DnsRecord) :
  DnsRecordRead_prefix b = (Ok rec, b1) ->
  rec_Qtype rec <> QTYPE_A -> rec_Qtype rec <> QTYPE_AAAA ->
  rec_Qtype rec <> QTYPE_CNAME -> rec_Qtype rec <> QTYPE_MX ->
  DnsRecordRead b = (Ok rec, b1) /\
  rec_Addr rec = [] /\ rec_Host rec = ""%string /\ rec_Priority rec = 0.
Proof.
  intros Hpre HA HAAAA HCNAME HMX.
  split; [|eapply DnsRecordRead_prefix_payload; eassumption].
  unfold DnsRecordRead, bind. rewrite Hpre. unfold DnsRecordRead_switch.
  destruct (Z.eqb_spec (rec_Qtype rec) QTYPE_A); [contradiction|].
  destruct (Z.eqb_spec (rec_Qtype rec) QTYPE_AAAA); [contradiction|].
  destruct (Z.eqb_spec (rec_Qtype rec) QTYPE_CNAME); [contradiction|].
  destruct (Z.eqb_spec (rec_Qtype rec) QTYPE_MX); [contradiction|].
  reflexivity.
Qed.

Lemma C7_other_type_consumes_nothing_witness :
  DnsRecordRead_prefix (buffer_of txt_record 0) =
    (Ok txt_decoded, set_pos (buffer_of txt_record 0) 27) /\
  DnsRecordRead (buffer_of txt_record 0) =
    (Ok txt_decoded, set_pos (buffer_of txt_record 0) 27).
Proof.
  assert (H : DnsRecordRead_prefix (buffer_of txt_record 0) =
              (Ok txt_decoded, set_pos (buffer_of txt_record 0) 27))
    by (vm_compute; reflexivity).
  split; [exact H|].
  apply (C7_other_type_consumes_nothing _ _ _ H); vm_compute; discriminate.
Defined.

(** ** Questions decoded from the zeros that fill the buffer *)

(** A zero octet at the cursor is the empty name. *)
Lemma Read_qname_zero (b : BytePacketBuffer) (outstr : string) :
  index (buf b) (pos b) = Some x00 ->
  Read_qname (outstr, b) = (Ok tt, (outstr, set_pos b (pos b + 1))).
Proof.
  intros Hz. pose proof (index_Some _ _ _ Hz) as [Hr _].
  rewrite (Read_qname_of_run outstr b _
             (run_labels_end (buf b) (pos b) (pos b) [] (Read_qname_init outstr b)
                (labels_nil _ _) Hz eq_refl eq_refl ltac:(simpl; lia)
                ltac:(unfold maxJumps; simpl; lia))).
  reflexivity.
Qed.

Lemma zero_from_cell (b : BytePacketBuffer) (i : Z) :
  zero_from b -> pos b <= i < 512 -> 0 <= i -> cell (buf b) (Z.to_nat i) = x00.
Proof.
  intros Hz Hi H0. specialize (Hz i Hi). rewrite index_in in Hz by lia.
  inversion Hz. reflexivity.
Qed.

(** With five bytes or more of zeros left, a question is decoded from them:
    the empty name, type 0 and class 0. *)
Lemma DnsQuestion_Read_zeros (b : BytePacketBuffer) :
  zero_from b -> 0 <= pos b <= 507 ->
  DnsQuestion_Read (zero_DnsQuestion, b) =
    (Ok tt, (zero_DnsQuestion, set_pos b (pos b + 5))).
Proof.
  intros Hz Hp.
  unfold DnsQuestion_Read, bind, Read_qname_Name. simpl Name.
  rewrite Read_qname_zero by (apply Hz; lia).
  unfold store.
  rewrite ReadU16_ok by (rewrite pos_set_pos; lia).
  rewrite pos_set_pos, buf_set_pos, set_pos_set_pos.
  rewrite ReadU16_ok by (rewrite pos_set_pos; lia).
  rewrite pos_set_pos, buf_set_pos, set_pos_set_pos.
  rewrite !(zero_from_cell b) by (assumption || lia).
  replace (pos b + 1 + 2 + 2) with (pos b + 5) by lia. reflexivity.
Qed.

(** With fewer than five bytes left a question cannot be read. *)
Lemma DnsQuestion_Read_end (b : BytePacketBuffer) (q : DnsQuestion) :
  zero_from b -> 507 < pos b ->
  fst (DnsQuestion_Read (q, b)) = Err end_of_buffer.
Proof.
  intros Hz Hp.
  unfold DnsQuestion_Read, bind, Read_qname_Name.
  destruct (Z.le_gt_cases 512 (pos b)) as [Hge|Hlt].
  - destruct (Read_qname_run_ex (Name q) b) as (r & Hrun & ->).
    inversion Hrun as [s s' r' E _ | s s' E | s s' o E]; subst;
      rewrite body_overrun in E by (unfold maxJumps; simpl; lia);
      try discriminate.
    inversion E; subst. reflexivity.
  - rewrite Read_qname_zero by (apply Hz; lia). unfold store.
    pose proof (reads_ReadU16 (set_pos b (pos b + 1))) as H1.
    destruct (ReadU16 (set_pos b (pos b + 1))) as [[v|e|] b1].
    + destruct H1 as (_ & H1 & ->). rewrite pos_set_pos in *.
      rewrite set_pos_set_pos.
      pose proof (reads_ReadU16 (set_pos b (pos b + 1 + 2))) as H2.
      destruct (ReadU16 (set_pos b (pos b + 1 + 2))) as [[v2|e2|] b2].
      * destruct H2 as (_ & H2 & _). rewrite pos_set_pos in H2. lia.
      * destruct H2 as (-> & _). reflexivity.
      * destruct H2 as (H2 & _). rewrite pos_set_pos in H2. lia.
    + destruct H1 as (-> & _). reflexivity.
    + destruct H1 as (H1 & _). rewrite pos_set_pos in H1. lia.
Qed.

Lemma DnsQuestion_Read_Ok_buf (b b1 : BytePacketBuffer) (q q1 : DnsQuestion) :
  DnsQuestion_Read (q, b) = (Ok tt, (q1, b1)) -> 0 <= pos b1 <= 512.
Proof.
  unfold DnsQuestion_Read. intros H.
  apply bind_Ok_inv in H. destruct H as (x1 & [q2 b2] & _ & H).
  apply bind_Ok_inv in H. destruct H as (x2 & [q3 b3] & _ & H).
  unfold store in H. pose proof (reads_ReadU16 b3) as H3.
  destruct (ReadU16 b3) as [[v|e|] b4]; try discriminate.
  inversion H; subst. destruct H3 as (H0 & H3 & ->). rewrite pos_set_pos. lia.
Qed.

(** When a first question is decoded and only the zeros that fill the
    buffer follow it, a second question is decoded from them if five bytes
    or more are left, and cannot be read otherwise. *)
Lemma read_two_questions_padding
      (b b1 : BytePacketBuffer) (q1 : DnsQuestion) :
  DnsQuestion_Read (zero_DnsQuestion, b) = (Ok tt, (q1, b1)) ->
  zero_from b1 ->
  (pos b1 <= 507 ->
   read_questions 2 b = (Ok [q1; zero_DnsQuestion], set_pos b1 (pos b1 + 5))) /\
  (507 < pos b1 -> fst (read_questions 2 b) = Err end_of_buffer).
Proof.
  intros H1 Hz. pose proof (DnsQuestion_Read_Ok_buf _ _ _ _ H1) as Hr.
  split; intros Hp; simpl read_questions; rewrite H1; unfold bind.
  - rewrite DnsQuestion_Read_zeros by (assumption || lia). reflexivity.
  - pose proof (DnsQuestion_Read_end b1 zero_DnsQuestion Hz Hp) as He.
    destruct (DnsQuestion_Read (zero_DnsQuestion, b1)) as [[x|e|] [q2 b2]];
      simpl in He; try discriminate.
    inversion He; subst. reflexivity.
Qed.

Lemma nth_padding (data : list byte) (i : nat) :
  (length data <= i)%nat ->
  cell (buf (copy NewBytePacketBuffer data)) i = x00.
Proof.
  intros H. unfold cell, copy, NewBytePacketBuffer. cbv zeta. cbn [buf].
  assert (Hd : (length (firstn 512 data) <= i)%nat)
    by (rewrite length_firstn; lia).
  set (d := firstn 512 data) in *.
  rewrite app_nth2 by lia. rewrite nth_skipn. apply nth_repeat.
Qed.

Lemma zero_from_buffer_of (data : list byte) (p : Z) :
  Z.of_nat (length data) <= p -> zero_from (buffer_of data p).
Proof.
  intros H i Hi. unfold buffer_of in *. rewrite pos_set_pos in Hi.
  rewrite buf_set_pos. rewrite index_in by lia. f_equal.
  apply nth_padding. lia.
Qed.

(** ** C3: compression pointers, the cursor and the text *)

(** After a jump the loop leaves the buffer alone. *)
Lemma body_jumped (s : locals) :
  l_jumped s = true ->
  match Read_qname_body s with
  | Continue s' | Break s' | Return _ s' => l_b s' = l_b s /\ l_jumped s' = true
  end.
Proof.
  intros Hj. unfold Read_qname_body.
  destruct (maxJumps <? l_jumpsPerformed s); [auto|].
  pose proof (Get_buffer (l_b s) (l_pos s)) as HG.
  destruct (Get (l_pos s) (l_b s)) as [[len|e|] b0]; simpl in HG; subst b0;
    simpl; auto.
  destruct (Z.land (u len) 0xC0 =? 0xC0).
  - rewrite Hj.
    pose proof (Get_buffer (l_b s) (Int.add (l_pos s) 1)) as HG.
    destruct (Get (Int.add (l_pos s) 1) (l_b s)) as [[offset|e|] b2];
      simpl in HG; subst b2; simpl; auto.
  - destruct (u len =? 0); [simpl; auto|].
    pose proof (GetRange_buffer (l_b s) (Int.add (l_pos s) 1) (u len)) as HG.
    destruct (GetRange (Int.add (l_pos s) 1) (u len) (l_b s)) as [[bytes|e|] b1];
      simpl in HG; subst b1; simpl; auto.
Qed.

Lemma run_jumped (s : locals) (r : outcome unit * locals) :
  Read_qname_run s r -> l_jumped s = true ->
  l_b (snd r) = l_b s /\ l_jumped (snd r) = true.
Proof.
  induction 1 as [s s' r E _ IH|s s' E|s s' o E]; intros Hj;
    pose proof (body_jumped s Hj) as Hb; rewrite E in Hb; destruct Hb as [Hb1 Hb2].
  - destruct (IH Hb2) as [IH1 IH2]. split; congruence.
  - simpl. auto.
  - simpl. auto.
Qed.

(** The first pointer: the cursor is moved two bytes past it, whatever comes
    of the second octet, and the loop does not end well there. *)
Lemma body_first_pointer (s : locals) (len : byte) :
  l_jumped s = false -> l_jumpsPerformed s <= maxJumps -> pos (l_b s) < 512 ->
  index (buf (l_b s)) (l_pos s) = Some len -> is_pointer len ->
  match Read_qname_body s with
  | Continue s' =>
    l_b s' = set_pos (l_b s) (l_pos s + 2) /\ l_jumped s' = true /\
    l_outstr s' = l_outstr s /\ l_delim s' = l_delim s /\
    exists offset, index (buf (l_b s)) (l_pos s + 1) = Some offset /\
                   l_pos s' = pointer_target len offset
  | Break _ => False
  | Return o s' => l_b s' = set_pos (l_b s) (l_pos s + 2) /\ o <> Ok tt
  end.
Proof.
  intros Hj Hle Hc Hi Hp. apply index_Some in Hi. destruct Hi as [Hr ->].
  unfold is_pointer in Hp. unfold Read_qname_body.
  destruct (Z.ltb_spec maxJumps (l_jumpsPerformed s)); [lia|].
  rewrite Get_ok by lia.
  destruct (Z.eqb_spec (Z.land (u (cell (buf (l_b s)) (Z.to_nat (l_pos s)))) 0xC0) 0xC0);
    [|contradiction].
  rewrite Hj. unfold Seek. cbn [snd]. rewrite !Int_add_small by lia.
  destruct (Get (l_pos s + 1) (set_pos (l_b s) (l_pos s + 2))) as [[offset|e'|] b2] eqn:EG.
  - apply Get_Ok_inv in EG. destruct EG as (_ & EG & ->).
    simpl. repeat split. exists offset. auto.
  - pose proof (Get_buffer (set_pos (l_b s) (l_pos s + 2)) (l_pos s + 1)) as HG.
    rewrite EG in HG. simpl in HG. subst b2. simpl. split; [reflexivity|discriminate].
  - pose proof (Get_buffer (set_pos (l_b s) (l_pos s + 2)) (l_pos s + 1)) as HG.
    rewrite EG in HG. simpl in HG. subst b2. simpl. split; [reflexivity|discriminate].
Qed.

Lemma run_total (s : locals) :
  0 <= l_jumpsPerformed s <= 6 -> exists r, Read_qname_run s r.
Proof.
  intros Hj.
  destruct (loop_enough (Z.to_nat (passes_left s)) s Hj) as [r Hr].
  - pose proof (passes_left_pos_bound s). unfold passes_left in *. lia.
  - exists r. eapply loop_run. eassumption.
Qed.

(** Where [Read_qname] leaves the buffer when the name has a pointer: at the
    first pointer plus two, in every outcome. *)
Lemma Read_qname_first_pointer (b : BytePacketBuffer) (outstr : string)
      (ls : list (list byte)) (q : Z) (len : byte) :
  pos b < 512 ->
  labels_at (buf b) (pos b) ls q -> index (buf b) q = Some len -> is_pointer len ->
  snd (snd (Read_qname (outstr, b))) = set_pos b (q + 2).
Proof.
  intros Hc Hl Hi Hp.
  set (s1 := mkLocals b (append_labels outstr "" ls) q (delim_after "" ls) false 0).
  destruct (run_total s1) as [r Hr]; [simpl; lia|].
  assert (Hrun : Read_qname_run (Read_qname_init outstr b) r).
  { eapply (run_labels _ _ _ _ Hl); try reflexivity; try assumption.
    unfold maxJumps. simpl. lia. }
  rewrite (Read_qname_of_run _ _ _ Hrun).
  pose proof (body_first_pointer s1 len eq_refl) as Hb.
  specialize (Hb ltac:(unfold maxJumps; simpl; lia) Hc Hi Hp).
  inversion Hr as [s s' r' E Hr' | s s' E | s s' o E]; subst; rewrite E in Hb.
  - destruct Hb as (Hb1 & Hb2 & _). subst s1. simpl in Hb1.
    destruct (run_jumped _ _ Hr' Hb2) as [H1 H2].
    destruct r as [o sf]. simpl in H1, H2.
    destruct o as [[]|e|]; simpl; rewrite ?H2; simpl; congruence.
  - contradiction.
  - destruct Hb as [Hb1 Hb2]. subst s1. simpl in Hb1.
    destruct o as [[]|e|]; simpl; [contradiction Hb2; reflexivity| |]; exact Hb1.
Qed.

Lemma slice_Some (a : list byte) (lo hi : Z) (l : list byte) :
  slice a lo hi = Some l ->
  l = map (cell a) (seq (Z.to_nat lo) (Z.to_nat (hi - lo))).
Proof.
  unfold slice. destruct ((0 <=? lo) && (lo <=? hi) && (hi <=? 512));
    intros E; inversion E; reflexivity.
Qed.

(** What a pass that goes on has read: a pointer and its second octet, or
    the length octet of a label that fits. *)
Lemma body_Continue_inv (s s' : locals) :
  Read_qname_body s = Continue s' ->
  exists len,
    index (buf (l_b s)) (l_pos s) = Some len /\ buf (l_b s') = buf (l_b s) /\
    ((is_pointer len /\
      l_outstr s' = l_outstr s /\ l_delim s' = l_delim s /\
      exists offset,
        index (buf (l_b s)) (l_pos s + 1) = Some offset /\
        l_pos s' = pointer_target len offset) \/
     (~ is_pointer len /\ u len <> 0 /\
      l_pos s' = l_pos s + 1 + u len /\ l_delim s' = "."%string /\
      l_outstr s' =
        ((l_outstr s ++ l_delim s) ++
         string_of_bytes (map (cell (buf (l_b s)))
                              (seq (Z.to_nat (l_pos s + 1)) (Z.to_nat (u len)))))%string)).
Proof.
  intros E. unfold Read_qname_body in E.
  destruct (Z.ltb_spec maxJumps (l_jumpsPerformed s)); [discriminate|].
  destruct (Get (l_pos s) (l_b s)) as [[len|e|] b0] eqn:EG; try discriminate.
  apply Get_Ok_inv in EG. destruct EG as (Hc & Hi & ->).
  pose proof (index_Some _ _ _ Hi) as [Hr _].
  exists len. split; [exact Hi|].
  destruct (Z.eqb_spec (Z.land (u len) 0xC0) 0xC0) as [Hptr|Hptr].
  - destruct (Get _ _) as [[offset|e|] b2] eqn:EG2; try discriminate.
    apply Get_Ok_inv in EG2. destruct EG2 as (_ & Hi2 & ->).
    assert (Hb : buf (if l_jumped s then l_b s
                      else snd (Seek (Int.add (l_pos s) 2) (l_b s))) = buf (l_b s))
      by (destruct (l_jumped s); reflexivity).
    rewrite Hb in Hi2. rewrite Int_add_small in Hi2 by lia.
    inversion E; subst. simpl. split; [exact Hb|].
    left. repeat split; try assumption. exists offset. auto.
  - rewrite Int_add_small in E by lia.
    destruct (Z.eqb_spec (u len) 0) as [Hz|Hz]; [discriminate|].
    destruct (GetRange _ _ _) as [[bytes|e|] b1] eqn:ER; try discriminate.
    apply GetRange_Ok_inv in ER. destruct ER as (Hlt & Hs & ->).
    pose proof (u_range len) as Hu.
    rewrite Int_add_small in * by lia.
    apply slice_Some in Hs.
    replace (l_pos s + 1 + u len - (l_pos s + 1)) with (u len) in Hs by lia.
    inversion E; subst. simpl. split; [reflexivity|].
    right. repeat split; assumption.
Qed.

Lemma body_Break_inv (s s' : locals) :
  Read_qname_body s = Break s' ->
  exists len,
    index (buf (l_b s)) (l_pos s) = Some len /\ ~ is_pointer len /\ u len = 0 /\
    s' = mkLocals (l_b s) (l_outstr s) (l_pos s + 1) (l_delim s) (l_jumped s)
                  (l_jumpsPerformed s).
Proof.
  intros E. unfold Read_qname_body in E.
  destruct (Z.ltb_spec maxJumps (l_jumpsPerformed s)); [discriminate|].
  destruct (Get (l_pos s) (l_b s)) as [[len|e|] b0] eqn:EG; try discriminate.
  apply Get_Ok_inv in EG. destruct EG as (Hc & Hi & ->).
  pose proof (index_Some _ _ _ Hi) as [Hr _].
  exists len. split; [exact Hi|].
  destruct (Z.eqb_spec (Z.land (u len) 0xC0) 0xC0) as [Hptr|Hptr].
  - destruct (Get _ _) as [[offset|e|] b2]; discriminate.
  - rewrite Int_add_small in E by lia.
    destruct (Z.eqb_spec (u len) 0) as [Hz|Hz].
    + inversion E; subst. auto.
    + destruct (GetRange _ _ _) as [[bytes|e|] b1]; discriminate.
Qed.

Lemma body_Return_inv (s s' : locals) (o : outcome unit) :
  Read_qname_body s = Return o s' -> o <> Ok tt.
Proof.
  unfold Read_qname_body.
  destruct (maxJumps <? l_jumpsPerformed s);
    [intros E; inversion E; discriminate|].
  destruct (Get (l_pos s) (l_b s)) as [[len|e|] b0];
    try (intros E; inversion E; discriminate).
  destruct (Z.land (u len) 0xC0 =? 0xC0).
  - destruct (Get _ _) as [[offset|e|] b2]; intros E; inversion E; discriminate.
  - destruct (u len =? 0); [discriminate|].
    destruct (GetRange _ _ _) as [[bytes|e|] b1]; intros E; inversion E; discriminate.
Qed.

(** Two runs over the same bytes that both end well give the same text. *)
Lemma run_same_walk (s1 : locals) (r1 : outcome unit * locals) :
  Read_qname_run s1 r1 ->
  forall s2 r2,
    same_walk s1 s2 -> Read_qname_run s2 r2 ->
    fst r1 = Ok tt -> fst r2 = Ok tt ->
    l_outstr (snd r1) = l_outstr (snd r2).
Proof.
  induction 1 as [s1 s1' r1 E1 _ IH|s1 s1' E1|s1 s1' o1 E1];
    intros s2 r2 (Hbuf & Hpos & Hdelim & Hout) H2 Ho1 Ho2;
    inversion H2 as [t t' r' E2 H2' | t t' E2 | t t' o2 E2]; subst;
    simpl in Ho1, Ho2;
    try (apply body_Return_inv in E1; contradiction);
    try (apply body_Return_inv in E2; contradiction).
  - apply (IH t' r2); try assumption.
    apply body_Continue_inv in E1. destruct E1 as (len1 & I1 & B1 & C1).
    apply body_Continue_inv in E2. destruct E2 as (len2 & I2 & B2 & C2).
    rewrite Hbuf, Hpos in I1. rewrite I1 in I2. inversion I2; subst len2.
    unfold same_walk. rewrite B1, B2.
    destruct C1 as [(P1 & O1 & D1 & off1 & J1 & T1)|(P1 & Z1 & T1 & D1 & O1)];
      destruct C2 as [(P2 & O2 & D2 & off2 & J2 & T2)|(P2 & Z2 & T2 & D2 & O2)];
      try contradiction.
    + rewrite Hbuf, Hpos in J1. rewrite J1 in J2. inversion J2; subst off2.
      repeat split; congruence.
    + repeat split; try congruence;
        rewrite O1, O2, Hbuf, Hpos, Hdelim, Hout; reflexivity.
  - apply body_Continue_inv in E1. destruct E1 as (len1 & I1 & B1 & C1).
    apply body_Break_inv in E2. destruct E2 as (len2 & I2 & P2 & Z2 & _).
    rewrite Hbuf, Hpos in I1. rewrite I1 in I2. inversion I2; subst len2.
    destruct C1 as [(P1 & _)|(_ & Z1 & _)]; contradiction.
  - apply body_Break_inv in E1. destruct E1 as (len1 & I1 & P1 & Z1 & _).
    apply body_Continue_inv in E2. destruct E2 as (len2 & I2 & B2 & C2).
    rewrite Hbuf, Hpos in I1. rewrite I1 in I2. inversion I2; subst len2.
    destruct C2 as [(P2 & _)|(_ & Z2 & _)]; contradiction.
  - apply body_Break_inv in E1. destruct E1 as (len1 & _ & _ & _ & ->).
    apply body_Break_inv in E2. destruct E2 as (len2 & _ & _ & _ & ->).
    simpl. exact Hout.
Qed.

Lemma Read_qname_exit_Ok (r : outcome unit * locals) (s : string) (b : BytePacketBuffer) :
  Read_qname_exit r = (Ok tt, (s, b)) -> fst r = Ok tt /\ l_outstr (snd r) = s.
Proof.
  destruct r as [[[]|e|] sf]; simpl; try discriminate.
  destruct (l_jumped sf); simpl; intros E; inversion E; auto.
Qed.

Lemma string_app_not_empty (s1 s2 : string) :
  s2 <> ""%string -> (s1 ++ s2)%string <> ""%string.
Proof.
  intros H. destruct s1 as [|c s1]; simpl; [exact H|discriminate].
Qed.

(** The text of a label is not empty. *)
Lemma label_text_not_empty (a : list byte) (start : nat) (len : byte) :
  u len <> 0 ->
  string_of_bytes (map (cell a) (seq start (Z.to_nat (u len)))) <> ""%string.
Proof.
  intros H. pose proof (u_range len) as Hu.
  destruct (Z.to_nat (u len)) as [|n] eqn:E; [lia|].
  simpl. discriminate.
Qed.

(** The same with the text of earlier labels in front. *)
Lemma run_prefix_walk (P : string) (s1 : locals) (r1 : outcome unit * locals) :
  Read_qname_run s1 r1 ->
  forall s2 r2,
    prefix_walk P s1 s2 -> Read_qname_run s2 r2 ->
    fst r1 = Ok tt -> fst r2 = Ok tt ->
    (l_outstr (snd r2) = ""%string /\ l_outstr (snd r1) = P) \/
    (l_outstr (snd r2) <> ""%string /\
     l_outstr (snd r1) = (P ++ "." ++ l_outstr (snd r2))%string).
Proof.
  induction 1 as [s1 s1' r1 E1 _ IH|s1 s1' E1|s1 s1' o1 E1];
    intros s2 r2 (Hbuf & Hpos & Hrel) H2 Ho1 Ho2;
    inversion H2 as [t t' r' E2 H2' | t t' E2 | t t' o2 E2]; subst;
    simpl in Ho1, Ho2;
    try (apply body_Return_inv in E1; contradiction);
    try (apply body_Return_inv in E2; contradiction).
  - apply (IH t' r2); try assumption.
    apply body_Continue_inv in E1. destruct E1 as (len1 & I1 & B1 & C1).
    apply body_Continue_inv in E2. destruct E2 as (len2 & I2 & B2 & C2).
    rewrite Hbuf, Hpos in I1. rewrite I1 in I2. inversion I2; subst len2.
    unfold prefix_walk. rewrite B1, B2.
    destruct C1 as [(P1 & O1 & D1 & off1 & J1 & T1)|(P1 & Z1 & T1 & D1 & O1)];
      destruct C2 as [(P2 & O2 & D2 & off2 & J2 & T2)|(P2 & Z2 & T2 & D2 & O2)];
      try contradiction.
    + rewrite Hbuf, Hpos in J1. rewrite J1 in J2. inversion J2; subst off2.
      split; [assumption|]. split; [congruence|].
      rewrite O1, O2, D1, D2. exact Hrel.
    + split; [assumption|]. split; [congruence|]. right.
      split; [assumption|]. split; [assumption|].
      split.
      * rewrite O2. apply string_app_not_empty, label_text_not_empty. assumption.
      * rewrite O1, O2, Hbuf, Hpos.
        destruct Hrel as [(R1 & R2 & R3 & R4)|(R1 & R2 & _ & R3)].
        -- rewrite R1, R2, R3, R4. simpl. rewrite !string_app_assoc. reflexivity.
        -- rewrite R1, R2, R3. rewrite !string_app_assoc. reflexivity.
  - apply body_Continue_inv in E1. destruct E1 as (len1 & I1 & B1 & C1).
    apply body_Break_inv in E2. destruct E2 as (len2 & I2 & P2 & Z2 & _).
    rewrite Hbuf, Hpos in I1. rewrite I1 in I2. inversion I2; subst len2.
    destruct C1 as [(P1 & _)|(_ & Z1 & _)]; contradiction.
  - apply body_Break_inv in E1. destruct E1 as (len1 & I1 & P1 & Z1 & _).
    apply body_Continue_inv in E2. destruct E2 as (len2 & I2 & B2 & C2).
    rewrite Hbuf, Hpos in I1. rewrite I1 in I2. inversion I2; subst len2.
    destruct C2 as [(P2 & _)|(_ & Z2 & _)]; contradiction.
  - apply body_Break_inv in E1. destruct E1 as (len1 & _ & _ & _ & ->).
    apply body_Break_inv in E2. destruct E2 as (len2 & _ & _ & _ & ->).
    simpl. destruct Hrel as [(R1 & R2 & R3 & R4)|(R1 & R2 & R3 & R4)]; auto.
Qed.

(** [Read_qname] on a name that starts with the labels [ls]: the loop comes
    to the octet after them with their text written. *)
Lemma Read_qname_after_labels (b : BytePacketBuffer) (outstr : string)
      (ls : list (list byte)) (q : Z) :
  pos b < 512 -> labels_at (buf b) (pos b) ls q ->
  exists r,
    Read_qname_run
      (mkLocals b (append_labels outstr "" ls) q (delim_after "" ls) false 0) r /\
    Read_qname (outstr, b) = Read_qname_exit r.
Proof.
  intros Hc Hl.
  destruct (run_total
              (mkLocals b (append_labels outstr "" ls) q (delim_after "" ls) false 0))
    as [r Hr]; [simpl; lia|].
  exists r. split; [exact Hr|].
  apply Read_qname_of_run.
  eapply (run_labels _ _ _ _ Hl); try reflexivity; try assumption.
  unfold maxJumps. simpl. lia.
Qed.

(** C3, counterexample: a name that has a label before its pointer.  The
    cursor ends two bytes past the pointer (at 6), but the decoded text is
    ["www.example.com"] while the pointer's target, decoded directly, gives
    ["example.com"].  And a name that is a pointer and nothing else: from 27
    six pointers are followed and the decoding fails, while the target of
    the first one, offset 0, decodes to ["www.example.com"]. *)
Lemma C3_counterexample :
  (Read_qname (""%string, buffer_of www_then_pointer 0) =
     (Ok tt, ("www.example.com"%string, buffer_of www_then_pointer 6)) /\
   Read_qname (""%string, buffer_of www_then_pointer 6) =
     (Ok tt, ("example.com"%string, buffer_of www_then_pointer 19)) /\
   "www.example.com"%string <> "example.com"%string) /\
  (Read_qname (""%string, buffer_of chain_bytes 27) =
     (Err jump_limit, (""%string, buffer_of chain_bytes 29)) /\
   Read_qname (""%string, buffer_of chain_bytes 0) =
     (Ok tt, ("www.example.com"%string, buffer_of chain_bytes 2))).
Proof.
  split; [split; [|split]|split]; try (vm_compute; reflexivity).
  discriminate.
Qed.

(** C3, as amended: when the name at the cursor has a compression pointer
    (labels [ls], possibly none, then at [q] an octet with the two top bits
    set), [Read_qname] leaves the cursor at [q + 2], two bytes past that
    first pointer, and the bytes as they were, in every outcome and whatever
    pointers follow.  When this decoding and the decoding of the pointer's
    target both succeed, the text decoded is the text of the target when
    the name begins with the pointer; when labels precede the pointer it is
    their text alone if the text of the target is empty, and their text, a
    dot and the text of the target if it is not. *)
Theorem C3_pointer_cursor_and_text
        (b : BytePacketBuffer) (ls : list (list byte)) (q : Z) (len : byte) :
  labels_at (buf b) (pos b) ls q -> index (buf b) q = Some len -> is_pointer len ->
  (forall outstr,
     snd (snd (Read_qname (outstr, b))) = set_pos b (q + 2) /\
     pos (snd (snd (Read_qname (outstr, b)))) = q + 2 /\
     buf (snd (snd (Read_qname (outstr, b)))) = buf b) /\
  (forall offset s s' b1 b2,
     index (buf b) (q + 1) = Some offset ->
     Read_qname (""%string, b) = (Ok tt, (s, b1)) ->
     Read_qname (""%string, set_pos b (pointer_target len offset)) = (Ok tt, (s', b2)) ->
     (ls = [] -> s = s') /\
     (ls <> [] ->
      (s' = ""%string /\ s = name_text ls) \/
      (s' <> ""%string /\ s = (name_text ls ++ "." ++ s')%string))).
Proof.
  intros Hl Hi Hp.
  assert (Hc : pos b < 512).
  { pose proof (labels_at_range _ _ _ _ Hl) as [Hle _].
    apply index_Some in Hi. lia. }
  split.
  - intros outstr.
    rewrite (Read_qname_first_pointer b outstr ls q len Hc Hl Hi Hp).
    rewrite pos_set_pos, buf_set_pos. repeat split.
  - intros offset s s' b1 b2 Ho H1 H2.
    destruct (Read_qname_after_labels b "" ls q Hc Hl) as (r1 & R1 & E1).
    rewrite E1 in H1. apply Read_qname_exit_Ok in H1. destruct H1 as [F1 <-].
    destruct (Read_qname_run_ex "" (set_pos b (pointer_target len offset)))
      as (r2 & R2 & E2).
    rewrite E2 in H2. apply Read_qname_exit_Ok in H2. destruct H2 as [F2 <-].
    pose proof (body_first_pointer
                  (mkLocals b (append_labels "" "" ls) q (delim_after "" ls) false 0)
                  len eq_refl) as Hb.
    specialize (Hb ltac:(unfold maxJumps; simpl; lia) Hc Hi Hp).
    inversion R1 as [t t' r' E R1' | t t' E | t t' o E]; subst; rewrite E in Hb.
    + destruct Hb as (Hb1 & _ & Hb3 & Hb4 & off & Hb5 & Hb6).
      simpl in Hb1, Hb3, Hb4, Hb5, Hb6.
      rewrite Ho in Hb5. inversion Hb5; subst off.
      split.
      * intros ->. simpl in Hb3, Hb4.
        refine (run_same_walk _ _ R1' _ _ _ R2 F1 F2).
        unfold same_walk. simpl. unfold Pos. rewrite Hb1, Hb3, Hb4, Hb6.
        repeat split.
      * intros Hne.
        assert (Hd : delim_after "" ls = "."%string)
          by (destruct ls; [contradiction Hne; reflexivity|reflexivity]).
        assert (Ht : append_labels "" "" ls = name_text ls)
          by (rewrite append_labels_text; reflexivity).
        rewrite <- Ht.
        refine (run_prefix_walk _ _ _ R1' _ _ _ R2 F1 F2).
        unfold prefix_walk. simpl. unfold Pos. rewrite Hb1, Hb3, Hb4, Hb6, Hd.
        split; [reflexivity|]. split; [reflexivity|]. left. repeat split.
    + contradiction.
    + destruct Hb as [_ Hb]. simpl in F1. contradiction.
Qed.

Lemma C3_pointer_cursor_and_text_witness :
  (pos (snd (snd (Read_qname (""%string, buffer_of pointer_to_www 0)))) = 2 /\
   fst (snd (Read_qname (""%string, buffer_of pointer_to_www 0))) =
     fst (snd (Read_qname (""%string, buffer_of pointer_to_www 2)))) /\
  (pos (snd (snd (Read_qname (""%string, buffer_of www_then_pointer 0)))) = 6 /\
   fst (snd (Read_qname (""%string, buffer_of www_then_pointer 0))) =
     ("www" ++ "." ++ "example.com")%string) /\
  (pos (snd (snd (Read_qname (""%string, buffer_of www_then_pointer_to_root 0)))) = 6 /\
   fst (snd (Read_qname (""%string, buffer_of www_then_pointer_to_root 0))) =
     "www"%string).
Proof.
  assert (Hp : is_pointer "192"%byte) by (vm_compute; reflexivity).
  split; [|split].
  - assert (Hl : labels_at (buf (buffer_of pointer_to_www 0))
                           (pos (buffer_of pointer_to_www 0)) [] 0)
      by apply labels_nil.
    assert (Hi : index (buf (buffer_of pointer_to_www 0)) 0 = Some "192"%byte)
      by (vm_compute; reflexivity).
    destruct (C3_pointer_cursor_and_text _ _ _ _ Hl Hi Hp) as [HA HB].
    split; [apply (HA ""%string)|].
    refine (proj1 (HB "002"%byte _ _
                      (set_pos (buffer_of pointer_to_www 0) 2)
                      (set_pos (buffer_of pointer_to_www 0) 7) _ _ _) eq_refl);
      vm_compute; reflexivity.
  - assert (Hl : labels_at (buf (buffer_of www_then_pointer 0))
                           (pos (buffer_of www_then_pointer 0)) [www] 4).
    { apply (labels_cons _ 0 4 "003"%byte); try (vm_compute; congruence).
      exact (labels_nil _ 4). }
    assert (Hi : index (buf (buffer_of www_then_pointer 0)) 4 = Some "192"%byte)
      by (vm_compute; reflexivity).
    destruct (C3_pointer_cursor_and_text _ _ _ _ Hl Hi Hp) as [HA HB].
    split; [apply (HA ""%string)|].
    assert (E1 : Read_qname (""%string, buffer_of www_then_pointer 0) =
                 (Ok tt, ("www.example.com"%string, buffer_of www_then_pointer 6)))
      by (vm_compute; reflexivity).
    assert (E2 : Read_qname (""%string,
                             set_pos (buffer_of www_then_pointer 0)
                                     (pointer_target "192"%byte "006"%byte)) =
                 (Ok tt, ("example.com"%string, buffer_of www_then_pointer 19)))
      by (vm_compute; reflexivity).
    destruct (proj2 (HB "006"%byte _ _ _ _ ltac:(vm_compute; reflexivity) E1 E2)
                    ltac:(discriminate)) as [[H _]|[_ H]].
    + discriminate H.
    + rewrite E1. exact H.
  - assert (Hl : labels_at (buf (buffer_of www_then_pointer_to_root 0))
                           (pos (buffer_of www_then_pointer_to_root 0)) [www] 4).
    { apply (labels_cons _ 0 4 "003"%byte); try (vm_compute; congruence).
      exact (labels_nil _ 4). }
    assert (Hi : index (buf (buffer_of www_then_pointer_to_root 0)) 4 = Some "192"%byte)
      by (vm_compute; reflexivity).
    destruct (C3_pointer_cursor_and_text _ _ _ _ Hl Hi Hp) as [HA HB].
    split; [apply (HA ""%string)|].
    assert (E1 : Read_qname (""%string, buffer_of www_then_pointer_to_root 0) =
                 (Ok tt, ("www"%string, buffer_of www_then_pointer_to_root 6)))
      by (vm_compute; reflexivity).
    assert (E2 : Read_qname (""%string,
                             set_pos (buffer_of www_then_pointer_to_root 0)
                                     (pointer_target "192"%byte "006"%byte)) =
                 (Ok tt, (""%string, buffer_of www_then_pointer_to_root 7)))
      by (vm_compute; reflexivity).
    destruct (proj2 (HB "006"%byte _ _ _ _ ltac:(vm_compute; reflexivity) E1 E2)
                    ltac:(discriminate)) as [[_ H]|[H _]].
    + rewrite E1. exact H.
    + contradiction H. reflexivity.
Defined.

(** ** C4: chains of pointers and the jump limit *)

Ltac locals_simpl :=
  unfold Read_qname_init, Pos in *;
  cbn [l_b l_outstr l_pos l_delim l_jumped l_jumpsPerformed pos buf set_pos] in *.

(** Once a jump was made, the loop follows a chain as long as the limit
    lets it. *)
Lemma run_chain_jumped (a : list byte) (n : nat) (p q : Z) :
  pointer_chain a n p q ->
  forall s r,
    buf (l_b s) = a -> l_pos s = p -> pos (l_b s) < 512 -> l_jumped s = true ->
    0 <= l_jumpsPerformed s -> l_jumpsPerformed s + Z.of_nat n <= 6 ->
    Read_qname_run
      (mkLocals (l_b s) (l_outstr s) q (l_delim s) true
                (l_jumpsPerformed s + Z.of_nat n)) r ->
    Read_qname_run s r.
Proof.
  induction 1 as [p|n p q len offset Hi Hp Ho Hch IH];
    intros s r Ha Hpos Hc Hj Hj0 Hj6 Hrun.
  - simpl in Hrun. rewrite Z.add_0_r, <- Hpos, <- Hj in Hrun.
    rewrite locals_eta in Hrun. exact Hrun.
  - subst a p.
    assert (Hap : after_pointer s = l_b s) by (unfold after_pointer; rewrite Hj; reflexivity).
    eapply run_continue.
    + apply (body_pointer s len offset); try assumption; unfold maxJumps; try lia.
      rewrite Hap. assumption.
    + rewrite Hap. apply IH; locals_simpl; try assumption; try reflexivity; try lia.
      replace (l_jumpsPerformed s + 1 + Z.of_nat n)
        with (l_jumpsPerformed s + Z.of_nat (S n)) by lia.
      exact Hrun.
Qed.

(** The same from the start of [Read_qname], when the first pointer does
    not lie in the last two bytes of the buffer: the cursor is moved past
    it. *)
Lemma run_chain_init (b : BytePacketBuffer) (outstr : string) (n : nat) (q : Z)
      (r : outcome unit * locals) :
  pointer_chain (buf b) (S n) (pos b) q -> pos b + 2 < 512 -> Z.of_nat (S n) <= 6 ->
  Read_qname_run (mkLocals (set_pos b (pos b + 2)) outstr q "" true (Z.of_nat (S n))) r ->
  Read_qname_run (Read_qname_init outstr b) r.
Proof.
  intros Hch Hc Hn Hrun.
  inversion Hch as [|n' p' q' len offset Hi Hp Ho Hch']; subst.
  pose proof (index_Some _ _ _ Hi) as [Hr _].
  eapply run_continue.
  - apply (body_pointer _ len offset); unfold after_pointer, maxJumps;
      locals_simpl; try assumption; try lia.
  - apply (run_chain_jumped _ _ _ _ Hch'); unfold after_pointer; locals_simpl;
      try reflexivity; try lia.
    replace (0 + 1 + Z.of_nat n) with (Z.of_nat (S n)) by lia. exact Hrun.
Qed.

(** Six pointers in a row, the first not in the last two bytes: the jump
    limit. *)
Lemma six_pointers_limit (b : BytePacketBuffer) (outstr : string) (q : Z) :
  pointer_chain (buf b) 6 (pos b) q -> pos b + 2 < 512 ->
  Read_qname (outstr, b) = (Err jump_limit, (outstr, set_pos b (pos b + 2))).
Proof.
  intros Hch Hc.
  rewrite (Read_qname_of_run outstr b
             (Err jump_limit, mkLocals (set_pos b (pos b + 2)) outstr q "" true 6)).
  - reflexivity.
  - apply (run_chain_init _ _ 5 q); try assumption; [simpl; lia|].
    apply run_return. apply body_limit. unfold maxJumps. locals_simpl.
    change (Z.of_nat 6) with 6. lia.
Qed.

(** Five pointers in a row, the first not in the last two bytes, and then
    labels that end with a zero octet: the name is decoded and the cursor is
    left two bytes past the first pointer. *)
Lemma five_pointers_decoded (b : BytePacketBuffer) (outstr : string) (q z : Z)
      (ls : list (list byte)) :
  pointer_chain (buf b) 5 (pos b) q -> pos b + 2 < 512 ->
  labels_at (buf b) q ls z -> index (buf b) z = Some x00 ->
  Read_qname (outstr, b) =
    (Ok tt, (append_labels outstr "" ls, set_pos b (pos b + 2))).
Proof.
  intros Hch Hc Hl Hz.
  rewrite (Read_qname_of_run outstr b
             (Ok tt, mkLocals (set_pos b (pos b + 2)) (append_labels outstr "" ls)
                              (z + 1) (delim_after "" ls) true 5)).
  - reflexivity.
  - apply (run_chain_init _ _ 4 q); try assumption; [simpl; lia|].
    apply (run_labels_end (buf b) q z ls
             (mkLocals (set_pos b (pos b + 2)) outstr q "" true 5));
      unfold maxJumps; locals_simpl; try assumption; try reflexivity; try lia.
Qed.

Ltac chain_step len offset :=
  apply (chain_S _ _ _ _ len offset);
  [vm_compute; reflexivity | vm_compute; reflexivity | vm_compute; reflexivity | ].

Lemma chain_bytes_five (tail : list byte) :
  pointer_chain (buf (copy NewBytePacketBuffer (chain_bytes ++ tail))) 5 0 10.
Proof.
  chain_step "192"%byte "002"%byte. chain_step "192"%byte "004"%byte.
  chain_step "192"%byte "006"%byte. chain_step "192"%byte "008"%byte.
  chain_step "192"%byte "010"%byte. apply (chain_O _ 10).
Qed.

Lemma chain_bytes_name (tail : list byte) :
  bytes_at (buf (copy NewBytePacketBuffer (chain_bytes ++ tail))) 10 www_example_com.
Proof.
  intros i Hi.
  do 17 (destruct i as [|i]; [vm_compute; reflexivity|]).
  simpl in Hi. lia.
Qed.

(** Away from the end of the buffer the limit is as the specification has
    it: six pointers from 27 fail with the jump limit, five pointers from 0
    and the name after them are decoded. *)
Example six_pointers_from_27 :
  Read_qname (""%string, buffer_of chain_bytes 27) =
    (Err jump_limit, (""%string, buffer_of chain_bytes 29)).
Proof.
  apply (six_pointers_limit (buffer_of chain_bytes 27) "" 10); [|simpl; lia].
  chain_step "192"%byte "000"%byte.
  rewrite <- (app_nil_r chain_bytes). apply (chain_bytes_five []).
Qed.

Example five_pointers_from_0 :
  Read_qname (""%string, buffer_of chain_bytes 0) =
    (Ok tt, ("www.example.com"%string, buffer_of chain_bytes 2)).
Proof.
  pose proof (chain_bytes_name []) as Hn. rewrite app_nil_r in Hn.
  destruct (www_example_com_labels _ _ Hn) as (_ & _ & Hz & Hl).
  rewrite (five_pointers_decoded (buffer_of chain_bytes 0) "" 10 26 [www; example; com]);
    try assumption.
  - reflexivity.
  - rewrite <- (app_nil_r chain_bytes). apply (chain_bytes_five []).
  - simpl. lia.
Qed.

(** C4, the failing input: a chain whose first pointer lies in bytes 510 and
    511.  The [Seek] past the pointer puts the cursor at 512, and [Get],
    which tests the cursor and not the index 511 it is asked for, refuses
    the second octet: six pointers from 510 fail with the overrun error, not
    with the jump limit, and five pointers from 510 followed by the name at
    10 fail with the overrun error too instead of being decoded. *)
Theorem C4_pointer_in_last_two_bytes :
  pointer_chain (buf (buffer_of six_from_510 510)) 6 510 10 /\
  Read_qname (""%string, buffer_of six_from_510 510) =
    (Err end_of_buffer, (""%string, buffer_of six_from_510 512)) /\
  ~ CompressionLoopLimit (fst (Read_qname (""%string, buffer_of six_from_510 510))) /\
  pointer_chain (buf (buffer_of five_from_510 510)) 5 510 10 /\
  bytes_at (buf (buffer_of five_from_510 510)) 10 www_example_com /\
  Read_qname (""%string, buffer_of five_from_510 510) =
    (Err end_of_buffer, (""%string, buffer_of five_from_510 512)).
Proof.
  assert (H6 : Read_qname (""%string, buffer_of six_from_510 510) =
               (Err end_of_buffer, (""%string, buffer_of six_from_510 512)))
    by (vm_compute; reflexivity).
  split; [|split; [exact H6|split; [|split; [|split]]]].
  - chain_step "192"%byte "000"%byte. apply (chain_bytes_five _).
  - rewrite H6. unfold CompressionLoopLimit. simpl. discriminate.
  - chain_step "192"%byte "002"%byte. chain_step "192"%byte "004"%byte.
    chain_step "192"%byte "006"%byte. chain_step "192"%byte "008"%byte.
    chain_step "192"%byte "010"%byte. apply (chain_O _ 10).
  - apply (chain_bytes_name _).
  - vm_compute. reflexivity.
Qed.

(** * Further properties of the code *)

(** ** Peeking and reading *)

(** X1: at a cursor inside the buffer [Read] returns the byte that [Get]
    returns for the cursor, and moves the cursor by one where [Get] leaves
    it; [GetRange] of one byte at the cursor gives that byte too, except at
    the last byte, index 511, which it refuses. *)
Theorem X1_read_get_agree (b : BytePacketBuffer) :
  0 <= pos b < 512 ->
  exists x,
    Read b = (Ok x, set_pos b (pos b + 1)) /\
    Get (pos b) b = (Ok x, b) /\
    (pos b < 511 -> GetRange (pos b) 1 b = (Ok [x], b)) /\
    (pos b = 511 -> GetRange (pos b) 1 b = (Err End_of_buffer, b)) /\
    pos (snd (Read b)) = pos b + 1 /\ buf (snd (Read b)) = buf b /\
    pos (snd (Get (pos b) b)) = pos b.
Proof.
  intros H. exists (cell (buf b) (Z.to_nat (pos b))).
  split; [apply Read_ok; assumption|].
  split; [apply Get_ok; lia|].
  split; [|split].
  - intros Hp. rewrite GetRange_ok by lia. reflexivity.
  - intros Hp. apply GetRange_err. lia.
  - rewrite Read_ok, Get_ok by lia. cbn [snd].
    rewrite pos_set_pos, buf_set_pos. repeat split.
Qed.

Lemma X1_read_get_agree_witness :
  0 <= pos (buffer_of www_example_com 1) < 512 /\
  exists x,
    Read (buffer_of www_example_com 1) =
      (Ok x, set_pos (buffer_of www_example_com 1) (pos (buffer_of www_example_com 1) + 1)) /\
    Get (pos (buffer_of www_example_com 1)) (buffer_of www_example_com 1) =
      (Ok x, buffer_of www_example_com 1) /\
    pos (snd (Read (buffer_of www_example_com 1))) = 2.
Proof.
  assert (H : 0 <= pos (buffer_of www_example_com 1) < 512) by (simpl; lia).
  split; [exact H|].
  destruct (X1_read_get_agree (buffer_of www_example_com 1) H)
    as (x & H1 & H2 & _ & _ & H3 & _).
  exists x. split; [exact H1|]. split; [exact H2|exact H3].
Defined.

Lemma map_cell_length (a : list byte) (start n : nat) :
  length (map (cell a) (seq start n)) = n.
Proof. rewrite length_map, length_seq. reflexivity. Qed.

Lemma map_cell_nth (a : list byte) (start n i : nat) :
  (i < n)%nat -> nth i (map (cell a) (seq start n)) x00 = cell a (start + i).
Proof.
  intros H. rewrite (nth_indep _ x00 (cell a 0)) by (rewrite map_cell_length; lia).
  rewrite map_nth, seq_nth by lia. reflexivity.
Qed.

(** X2: for a start and a length that are not negative, [GetRange] succeeds
    exactly when [start + len] is at most 511, whatever the cursor is, and
    then returns the [len] bytes from [start] on; it never moves the cursor.
    A range that ends on the last byte of the buffer ([start + len = 512])
    is refused with the overrun error. *)
Theorem X2_GetRange_boundary (b : BytePacketBuffer) (start len : Z) :
  0 <= start -> 0 <= len -> start + len < 2 ^ 63 ->
  (start + len <= 511 ->
   exists l,
     GetRange start len b = (Ok l, b) /\ length l = Z.to_nat len /\
     forall i, 0 <= i < len -> index (buf b) (start + i) = Some (nth (Z.to_nat i) l x00)) /\
  (512 <= start + len -> GetRange start len b = (Err End_of_buffer, b)).
Proof.
  intros Hs Hl Hr. split; intros H.
  - exists (map (cell (buf b)) (seq (Z.to_nat start) (Z.to_nat len))).
    split; [apply GetRange_ok; lia|]. split; [apply map_cell_length|].
    intros i Hi. rewrite index_in by lia. f_equal.
    rewrite map_cell_nth by lia. f_equal. lia.
  - apply GetRange_err. lia.
Qed.

Lemma X2_GetRange_boundary_witness :
  GetRange 509 3 (buffer_of www_example_com 600) =
    (Err End_of_buffer, buffer_of www_example_com 600) /\
  exists l, GetRange 1 3 (buffer_of www_example_com 600) =
              (Ok l, buffer_of www_example_com 600) /\ length l = 3%nat.
Proof.
  split.
  - apply (X2_GetRange_boundary (buffer_of www_example_com 600) 509 3); lia.
  - destruct (proj1 (X2_GetRange_boundary (buffer_of www_example_com 600) 1 3
                       ltac:(lia) ltac:(lia) ltac:(lia)) ltac:(lia))
      as (l & H1 & H2 & _).
    exists l. split; assumption.
Defined.

(** ** The integers read *)

Lemma land_high_low (hi lo k : Z) :
  0 <= k -> 0 <= lo < 2 ^ k -> Z.land (hi * 2 ^ k) lo = 0.
Proof.
  intros Hk Hlo. apply Z.bits_inj'. intros n Hn.
  rewrite Z.land_spec, Z.bits_0.
  destruct (Z.lt_ge_cases n k) as [Hlt|Hge].
  - rewrite Z.mul_pow2_bits_low by lia. reflexivity.
  - destruct (Z.eq_dec lo 0) as [->|Hne].
    + rewrite Z.bits_0. apply andb_false_r.
    + assert (Hlog : Z.log2 lo < n).
      { apply Z.log2_lt_pow2; [lia|].
        apply Z.lt_le_trans with (2 ^ k); [lia|]. apply Z.pow_le_mono_r; lia. }
      rewrite (Z.bits_above_log2 lo n) by lia. apply andb_false_r.
Qed.

Lemma lor_high_low (hi lo k : Z) :
  0 <= k -> 0 <= lo < 2 ^ k -> Z.lor (hi * 2 ^ k) lo = hi * 2 ^ k + lo.
Proof.
  intros Hk Hlo. pose proof (land_high_low hi lo k Hk Hlo) as H.
  rewrite <- Z.lxor_lor by exact H. symmetry. apply Z.add_nocarry_lxor. exact H.
Qed.

Lemma be16_value (high low : byte) :
  Z.lor (uint16 (Z.shiftl (u high) 8)) (u low) = 256 * u high + u low.
Proof.
  pose proof (u_range high). pose proof (u_range low).
  rewrite Z.shiftl_mul_pow2 by lia. unfold uint16.
  rewrite Z.mod_small by lia.
  rewrite lor_high_low by lia. lia.
Qed.

Lemma be32_value (b1 b2 b3 b4 : byte) :
  Z.lor (Z.lor (Z.lor (uint32 (Z.shiftl (u b1) 24)) (uint32 (Z.shiftl (u b2) 16)))
               (uint32 (Z.shiftl (u b3) 8)))
        (u b4) =
  65536 * (256 * u b1 + u b2) + (256 * u b3 + u b4).
Proof.
  pose proof (u_range b1). pose proof (u_range b2).
  pose proof (u_range b3). pose proof (u_range b4).
  rewrite !Z.shiftl_mul_pow2 by lia. unfold uint32.
  rewrite !Z.mod_small by lia.
  rewrite (lor_high_low (u b1) (u b2 * 2 ^ 16) 24) by lia.
  replace (u b1 * 2 ^ 24 + u b2 * 2 ^ 16) with ((u b1 * 2 ^ 8 + u b2) * 2 ^ 16) by lia.
  rewrite (lor_high_low _ (u b3 * 2 ^ 8) 16) by lia.
  replace ((u b1 * 2 ^ 8 + u b2) * 2 ^ 16 + u b3 * 2 ^ 8)
    with (((u b1 * 2 ^ 8 + u b2) * 2 ^ 8 + u b3) * 2 ^ 8) by lia.
  rewrite lor_high_low by lia. lia.
Qed.

Lemma word_at_range (a : list byte) (i : Z) : 0 <= word_at a i < 65536.
Proof.
  unfold word_at.
  pose proof (u_range (cell a (Z.to_nat i))).
  pose proof (u_range (cell a (Z.to_nat (i + 1)))). lia.
Qed.

Lemma ReadU16_word (b : BytePacketBuffer) :
  0 <= pos b <= 510 ->
  ReadU16 b = (Ok (word_at (buf b) (pos b)), set_pos b (pos b + 2)).
Proof.
  intros H. rewrite ReadU16_ok by lia. rewrite be16_value. reflexivity.
Qed.

Lemma ReadU32_dword (b : BytePacketBuffer) :
  0 <= pos b <= 508 ->
  ReadU32 b = (Ok (dword_at (buf b) (pos b)), set_pos b (pos b + 4)).
Proof.
  intros H. unfold ReadU32, bind, ret.
  rewrite Read_ok by lia.
  rewrite Read_ok by (rewrite pos_set_pos; lia).
  rewrite pos_set_pos, buf_set_pos, set_pos_set_pos.
  rewrite Read_ok by (rewrite pos_set_pos; lia).
  rewrite pos_set_pos, buf_set_pos, set_pos_set_pos.
  rewrite Read_ok by (rewrite pos_set_pos; lia).
  rewrite pos_set_pos, buf_set_pos, set_pos_set_pos.
  rewrite be32_value. unfold dword_at, word_at.
  replace (pos b + 1 + 1) with (pos b + 2) by lia.
  replace (pos b + 2 + 1) with (pos b + 3) by lia.
  replace (pos b + 3 + 1) with (pos b + 4) by lia.
  reflexivity.
Qed.

(** X3: with two bytes left [ReadU16] returns the big-endian word of the two
    bytes at the cursor, [256 * first + second], a number below 65536, and
    with four bytes left [ReadU32] returns what two calls of [ReadU16] in a
    row return, the first as the high half, a number below [2 ^ 32]. *)
Theorem X3_big_endian_reads (b : BytePacketBuffer) :
  (0 <= pos b <= 510 ->
   exists x y,
     index (buf b) (pos b) = Some x /\ index (buf b) (pos b + 1) = Some y /\
     ReadU16 b = (Ok (256 * u x + u y), set_pos b (pos b + 2)) /\
     0 <= 256 * u x + u y < 65536) /\
  (0 <= pos b <= 508 ->
   exists hi lo b1 b2,
     ReadU16 b = (Ok hi, b1) /\ ReadU16 b1 = (Ok lo, b2) /\
     ReadU32 b = (Ok (65536 * hi + lo), b2) /\
     0 <= 65536 * hi + lo < 2 ^ 32).
Proof.
  split; intros H.
  - exists (cell (buf b) (Z.to_nat (pos b))), (cell (buf b) (Z.to_nat (pos b + 1))).
    rewrite !index_in by lia.
    split; [reflexivity|]. split; [reflexivity|].
    split; [apply ReadU16_word; lia|].
    apply (word_at_range (buf b) (pos b)).
  - exists (word_at (buf b) (pos b)), (word_at (buf b) (pos b + 2)),
           (set_pos b (pos b + 2)), (set_pos b (pos b + 4)).
    split; [apply ReadU16_word; lia|].
    split.
    + rewrite ReadU16_word by (rewrite pos_set_pos; lia).
      rewrite pos_set_pos, buf_set_pos, set_pos_set_pos.
      replace (pos b + 2 + 2) with (pos b + 4) by lia. reflexivity.
    + split; [apply ReadU32_dword; lia|].
      pose proof (word_at_range (buf b) (pos b)).
      pose proof (word_at_range (buf b) (pos b + 2)). lia.
Qed.

Lemma X3_big_endian_reads_witness :
  ReadU16 (buffer_of header_flags_0010 0) =
    (Ok 0x1234, set_pos (buffer_of header_flags_0010 0) 2) /\
  ReadU32 (buffer_of header_flags_0010 0) =
    (Ok 0x12340010, set_pos (buffer_of header_flags_0010 0) 4).
Proof.
  destruct (X3_big_endian_reads (buffer_of header_flags_0010 0)) as [H16 H32].
  split.
  - destruct (H16 ltac:(simpl; lia)) as (x & y & Hx & Hy & H & _).
    vm_compute in Hx. vm_compute in Hy. inversion Hx; inversion Hy; subst.
    exact H.
  - destruct (H32 ltac:(simpl; lia)) as (hi & lo & b1 & b2 & Hhi & Hlo & H & _).
    rewrite H. vm_compute in Hhi. inversion Hhi; subst.
    vm_compute in Hlo. inversion Hlo; subst. reflexivity.
Defined.

(** ** The bytes of the buffer are never written *)

Lemma keeps_bytes_ret {A} (a : A) : keeps_bytes (ret a).
Proof. intros b. reflexivity. Qed.

Lemma keeps_bytes_bind {A B} (m : M BytePacketBuffer A) (f : A -> M BytePacketBuffer B) :
  keeps_bytes m -> (forall a, keeps_bytes (f a)) -> keeps_bytes (bind m f).
Proof.
  intros Hm Hf b. unfold bind. specialize (Hm b).
  destruct (m b) as [[a|e|] b1]; simpl in Hm; simpl; try assumption.
  rewrite (Hf a b1). assumption.
Qed.

Lemma keeps_bytes_Read : keeps_bytes Read.
Proof.
  intros b. unfold Read. destruct (512 <=? pos b); [reflexivity|].
  destruct (index (buf b) (pos b)); reflexivity.
Qed.

Lemma keeps_bytes_ReadU16 : keeps_bytes ReadU16.
Proof.
  unfold ReadU16. apply keeps_bytes_bind; [apply keeps_bytes_Read|]. intros high.
  apply keeps_bytes_bind; [apply keeps_bytes_Read|]. intros low.
  apply keeps_bytes_ret.
Qed.

Lemma keeps_bytes_ReadU32 : keeps_bytes ReadU32.
Proof.
  unfold ReadU32.
  repeat (apply keeps_bytes_bind; [apply keeps_bytes_Read|]; intros ?).
  apply keeps_bytes_ret.
Qed.

Lemma keeps_bytes_Read_bytes (n : nat) : keeps_bytes (Read_bytes n).
Proof.
  induction n as [|n IH]; simpl; [apply keeps_bytes_ret|].
  apply keeps_bytes_bind; [apply keeps_bytes_Read|]. intros x.
  apply keeps_bytes_bind; [exact IH|]. intros l. apply keeps_bytes_ret.
Qed.

(** Every way a pass of the loop ends leaves the bytes as they were. *)
Lemma body_keeps_bytes (s : locals) :
  match Read_qname_body s with
  | Continue s' | Break s' | Return _ s' => buf (l_b s') = buf (l_b s)
  end.
Proof.
  unfold Read_qname_body.
  destruct (maxJumps <? l_jumpsPerformed s); [reflexivity|].
  pose proof (Get_buffer (l_b s) (l_pos s)) as HG.
  destruct (Get (l_pos s) (l_b s)) as [[len|e|] b0]; simpl in HG; subst b0;
    try reflexivity.
  destruct (Z.land (u len) 0xC0 =? 0xC0).
  - match goal with
    | |- context [Get ?p ?c] =>
      pose proof (Get_buffer c p) as HG; destruct (Get p c) as [[offset|e|] b2];
        simpl in HG; subst b2
    end; destruct (l_jumped s); reflexivity.
  - destruct (u len =? 0); [reflexivity|].
    pose proof (GetRange_buffer (l_b s) (Int.add (l_pos s) 1) (u len)) as HG.
    destruct (GetRange (Int.add (l_pos s) 1) (u len) (l_b s)) as [[bytes|e|] b1];
      simpl in HG; subst b1; reflexivity.
Qed.

Lemma run_keeps_bytes (s : locals) (r : outcome unit * locals) :
  Read_qname_run s r -> buf (l_b (snd r)) = buf (l_b s).
Proof.
  induction 1 as [s s' r E _ IH|s s' E|s s' o E];
    pose proof (body_keeps_bytes s) as Hb; rewrite E in Hb; simpl; congruence.
Qed.

Lemma exit_keeps_bytes (r : outcome unit * locals) :
  buf (snd (snd (Read_qname_exit r))) = buf (l_b (snd r)).
Proof.
  destruct r as [[[]|e|] s]; simpl; try reflexivity.
  destruct (l_jumped s); reflexivity.
Qed.

Lemma Read_qname_keeps_bytes (outstr : string) (b : BytePacketBuffer) :
  buf (snd (snd (Read_qname (outstr, b)))) = buf b.
Proof.
  destruct (Read_qname_run_ex outstr b) as (r & Hrun & ->).
  rewrite exit_keeps_bytes. apply (run_keeps_bytes _ _ Hrun).
Qed.

Lemma keeps_bytes_Read_qname_into (outstr : string) :
  keeps_bytes (Read_qname_into outstr).
Proof.
  intros b. unfold Read_qname_into.
  pose proof (Read_qname_keeps_bytes outstr b) as H.
  destruct (Read_qname (outstr, b)) as [[[]|e|] [s b']]; exact H.
Qed.

Lemma keeps_bytes_DnsRecordRead : keeps_bytes DnsRecordRead.
Proof.
  unfold DnsRecordRead. apply keeps_bytes_bind.
  - unfold DnsRecordRead_prefix.
    apply keeps_bytes_bind; [apply keeps_bytes_Read_qname_into|]. intros name.
    apply keeps_bytes_bind; [apply keeps_bytes_ReadU16|]. intros qtype.
    apply keeps_bytes_bind; [apply keeps_bytes_ReadU16|]. intros class.
    apply keeps_bytes_bind; [apply keeps_bytes_ReadU32|]. intros ttl.
    apply keeps_bytes_bind; [apply keeps_bytes_ReadU16|]. intros datalen.
    apply keeps_bytes_ret.
  - intros rec. unfold DnsRecordRead_switch.
    destruct (rec_Qtype rec =? QTYPE_A).
    { apply keeps_bytes_bind; [apply keeps_bytes_Read_bytes|]. intros a.
      apply keeps_bytes_ret. }
    destruct (rec_Qtype rec =? QTYPE_AAAA).
    { apply keeps_bytes_bind; [apply keeps_bytes_Read_bytes|]. intros a.
      apply keeps_bytes_ret. }
    destruct (rec_Qtype rec =? QTYPE_CNAME).
    { apply keeps_bytes_bind; [apply keeps_bytes_Read_qname_into|]. intros h.
      apply keeps_bytes_ret. }
    destruct (rec_Qtype rec =? QTYPE_MX).
    { apply keeps_bytes_bind; [apply keeps_bytes_ReadU16|]. intros p.
      apply keeps_bytes_bind; [apply keeps_bytes_Read_qname_into|]. intros h.
      apply keeps_bytes_ret. }
    apply keeps_bytes_ret.
Qed.

(** The same for a method that mutates its receiver too. *)
Lemma store_keeps_bytes {T} (set : Z -> T -> T) (m : M BytePacketBuffer Z)
      (t : T) (b : BytePacketBuffer) :
  keeps_bytes m -> buf (snd (snd (store set m (t, b)))) = buf b.
Proof.
  intros Hm. unfold store. specialize (Hm b).
  destruct (m b) as [[v|e|] b']; exact Hm.
Qed.

Lemma bind_keeps_bytes_pair {T A B} (m : M (T * BytePacketBuffer) A)
      (f : A -> M (T * BytePacketBuffer) B) :
  (forall t b, buf (snd (snd (m (t, b)))) = buf b) ->
  (forall a t b, buf (snd (snd (f a (t, b)))) = buf b) ->
  forall t b, buf (snd (snd (bind m f (t, b)))) = buf b.
Proof.
  intros Hm Hf t b. unfold bind. specialize (Hm t b).
  destruct (m (t, b)) as [[a|e|] [t1 b1]]; simpl in Hm; simpl; try assumption.
  rewrite Hf. assumption.
Qed.

Lemma DnsHeader_Read_keeps_bytes (h : DnsHeader) (b : BytePacketBuffer) :
  buf (snd (snd (DnsHeader_Read (h, b)))) = buf b.
Proof.
  revert h b. unfold DnsHeader_Read.
  apply bind_keeps_bytes_pair;
    [intros; apply store_keeps_bytes, keeps_bytes_ReadU16|intros _].
  apply bind_keeps_bytes_pair.
  { intros t b. unfold on_buffer. pose proof (keeps_bytes_ReadU16 b) as H.
    destruct (ReadU16 b) as [o b']. exact H. }
  intros flags.
  apply bind_keeps_bytes_pair; [intros; reflexivity|intros _].
  repeat (apply bind_keeps_bytes_pair;
          [intros; apply store_keeps_bytes, keeps_bytes_ReadU16|intros _]).
  intros; apply store_keeps_bytes, keeps_bytes_ReadU16.
Qed.

Lemma DnsQuestion_Read_keeps_bytes (q : DnsQuestion) (b : BytePacketBuffer) :
  buf (snd (snd (DnsQuestion_Read (q, b)))) = buf b.
Proof.
  revert q b. unfold DnsQuestion_Read.
  apply bind_keeps_bytes_pair.
  { intros q b. unfold Read_qname_Name.
    pose proof (Read_qname_keeps_bytes (Name q) b) as H.
    destruct (Read_qname (Name q, b)) as [o [name b']]. exact H. }
  intros _.
  apply bind_keeps_bytes_pair;
    [intros; apply store_keeps_bytes, keeps_bytes_ReadU16|intros _].
  intros; apply store_keeps_bytes, keeps_bytes_ReadU16.
Qed.

Lemma keeps_bytes_read_questions (n : nat) : keeps_bytes (read_questions n).
Proof.
  induction n as [|n IH]; simpl; [apply keeps_bytes_ret|].
  intros b. pose proof (DnsQuestion_Read_keeps_bytes zero_DnsQuestion b) as H.
  destruct (DnsQuestion_Read (zero_DnsQuestion, b)) as [[[]|e|] [q b']];
    simpl in H; simpl; try assumption.
  rewrite <- H.
  apply (keeps_bytes_bind (read_questions n) (fun l => ret (q :: l)) IH
           (fun l => keeps_bytes_ret (q :: l))).
Qed.

Lemma keeps_bytes_read_records (n : nat) : keeps_bytes (read_records n).
Proof.
  induction n as [|n IH]; simpl; [apply keeps_bytes_ret|].
  apply keeps_bytes_bind; [apply keeps_bytes_DnsRecordRead|]. intros r.
  apply keeps_bytes_bind; [exact IH|]. intros l. apply keeps_bytes_ret.
Qed.

(** X4: no operation of the buffer and no decoder writes to the bytes of the
    buffer: after [Read], [Get], [GetRange], [Seek], [Step], [ReadU16],
    [ReadU32], [Read_qname], [DnsHeader.Read], [DnsQuestion.Read],
    [DnsRecordRead] and the two loops of [main], in every outcome (success,
    error or panic), the bytes are what they were before. *)
Theorem X4_bytes_never_written (b : BytePacketBuffer) :
  buf (snd (Read b)) = buf b /\
  (forall p, buf (snd (Get p b)) = buf b) /\
  (forall start len, buf (snd (GetRange start len b)) = buf b) /\
  (forall p, buf (snd (Seek p b)) = buf b) /\
  (forall steps, buf (snd (Step steps b)) = buf b) /\
  buf (snd (ReadU16 b)) = buf b /\
  buf (snd (ReadU32 b)) = buf b /\
  (forall outstr, buf (snd (snd (Read_qname (outstr, b)))) = buf b) /\
  (forall h, buf (snd (snd (DnsHeader_Read (h, b)))) = buf b) /\
  (forall q, buf (snd (snd (DnsQuestion_Read (q, b)))) = buf b) /\
  buf (snd (DnsRecordRead b)) = buf b /\
  (forall n, buf (snd (read_questions n b)) = buf b) /\
  (forall n, buf (snd (read_records n b)) = buf b).
Proof.
  split; [apply keeps_bytes_Read|].
  split; [intros p; rewrite Get_buffer; reflexivity|].
  split; [intros start len; rewrite GetRange_buffer; reflexivity|].
  split; [reflexivity|]. split; [reflexivity|].
  split; [apply keeps_bytes_ReadU16|].
  split; [apply keeps_bytes_ReadU32|].
  split; [intros outstr; apply Read_qname_keeps_bytes|].
  split; [intros h; apply DnsHeader_Read_keeps_bytes|].
  split; [intros q; apply DnsQuestion_Read_keeps_bytes|].
  split; [apply keeps_bytes_DnsRecordRead|].
  split; [intros n; apply keeps_bytes_read_questions|].
  intros n; apply keeps_bytes_read_records.
Qed.

(** ** Result codes *)

(** X5: [ResultCodeFromNum] gives back the code whose constant has the
    number it is given, for the numbers 0 to 5, and [NOERROR] for every
    other number; so converting the number of any code gives that code, and
    the name [ResultCode.String] gives for a converted number is never
    ["UNKNOWN"]. *)
Theorem X5_result_code_conversion (num : Z) :
  (0 <= num <= 5 -> ResultCode_value (ResultCodeFromNum num) = num) /\
  (num < 0 \/ 5 < num -> ResultCodeFromNum num = NOERROR) /\
  (forall rc, ResultCodeFromNum (ResultCode_value rc) = rc) /\
  ResultCode_String (ResultCode_value (ResultCodeFromNum num)) <> "UNKNOWN"%string.
Proof.
  split; [|split; [|split]].
  - intros H.
    assert (num = 0 \/ num = 1 \/ num = 2 \/ num = 3 \/ num = 4 \/ num = 5) as E by lia.
    destruct E as [->|[->|[->|[->|[->| ->]]]]]; reflexivity.
  - intros H. destruct num as [|p|p]; try reflexivity.
    destruct p as [[[p|p|]|[p|p|]|]|[[p|p|]|[p|p|]|]|]; try reflexivity; lia.
  - intros rc. destruct rc; reflexivity.
  - destruct (ResultCodeFromNum num); discriminate.
Qed.

Lemma X5_result_code_conversion_witness :
  ResultCode_value (ResultCodeFromNum 3) = 3 /\ ResultCodeFromNum 9 = NOERROR.
Proof.
  split.
  - apply (proj1 (X5_result_code_conversion 3)). lia.
  - apply (proj1 (proj2 (X5_result_code_conversion 9))). right. lia.
Defined.

(** ** The header *)

Lemma reads_pair_store {T} (set : Z -> T -> T) (n : Z) (m : M BytePacketBuffer Z) :
  reads n m -> reads_pair n (store set m).
Proof.
  intros Hm t b. unfold store. specialize (Hm b).
  destruct (m b) as [[v|e|] b']; exact Hm.
Qed.

Lemma reads_pair_on_buffer {T A} (n : Z) (m : M BytePacketBuffer A) :
  reads n m -> reads_pair (T := T) n (on_buffer m).
Proof.
  intros Hm t b. unfold on_buffer. specialize (Hm b).
  destruct (m b) as [[v|e|] b']; exact Hm.
Qed.

Lemma reads_pair_bind {T A B} (n k : Z) (m : M (T * BytePacketBuffer) A)
      (f : A -> M (T * BytePacketBuffer) B) :
  0 <= n -> 0 < k -> reads_pair n m -> (forall a, reads_pair k (f a)) ->
  reads_pair (n + k) (bind m f).
Proof.
  intros Hn Hk Hm Hf t b. unfold bind.
  specialize (Hm t b). destruct (m (t, b)) as [[a|e|] [t1 b1]].
  - destruct Hm as (H0 & H1 & ->).
    specialize (Hf a t1 (set_pos b (pos b + n))).
    destruct (f a (t1, set_pos b (pos b + n))) as [[x|e|] [t2 b2]];
      rewrite pos_set_pos in Hf.
    + destruct Hf as (_ & H2 & ->). repeat split; try lia.
      rewrite set_pos_set_pos. f_equal. lia.
    + destruct Hf as (-> & H2 & ->). repeat split; try lia.
      rewrite set_pos_set_pos. f_equal. lia.
    + lia.
  - destruct Hm as (-> & H1 & ->). repeat split; lia.
  - destruct Hm as (H1 & ->). auto.
Qed.

(** [update] between two reads changes nothing for the cursor. *)
Lemma reads_pair_update {T B} (k : Z) (g : T -> T) (f : M (T * BytePacketBuffer) B) :
  reads_pair k f -> reads_pair k (bind (update g) (fun _ => f)).
Proof.
  intros Hf t b. unfold bind, update. exact (Hf (g t) b).
Qed.

Lemma reads_pair_DnsHeader_Read : reads_pair 12 DnsHeader_Read.
Proof.
  unfold DnsHeader_Read.
  apply (reads_pair_bind 2 10); try lia;
    [apply reads_pair_store, reads_ReadU16|intros _].
  apply (reads_pair_bind 2 8); try lia;
    [apply reads_pair_on_buffer, reads_ReadU16|intros flags].
  apply reads_pair_update.
  apply (reads_pair_bind 2 6); try lia;
    [apply reads_pair_store, reads_ReadU16|intros _].
  apply (reads_pair_bind 2 4); try lia;
    [apply reads_pair_store, reads_ReadU16|intros _].
  apply (reads_pair_bind 2 2); try lia;
    [apply reads_pair_store, reads_ReadU16|intros _].
  apply reads_pair_store, reads_ReadU16.
Qed.

Lemma DnsHeader_Read_ok (h : DnsHeader) (b : BytePacketBuffer) :
  0 <= pos b <= 500 ->
  DnsHeader_Read (h, b) = (Ok tt, (header_at (buf b) (pos b), set_pos b (pos b + 12))).
Proof.
  intros H. unfold DnsHeader_Read, bind, store, on_buffer, update.
  rewrite ReadU16_word by lia.
  rewrite ReadU16_word by (rewrite pos_set_pos; lia).
  rewrite pos_set_pos, buf_set_pos, set_pos_set_pos.
  do 4 (rewrite ReadU16_word by (rewrite pos_set_pos; lia);
        rewrite pos_set_pos, buf_set_pos, set_pos_set_pos).
  unfold header_at, decode_flags, set_ID, set_Questions, set_Answers,
    set_AuthoritativeEntries, set_ResourceEntries. cbn [ID Questions Answers
    AuthoritativeEntries ResourceEntries RecursionDesired TruncatedMessage
    AuthoritativeAnswer Opcode Response ResCode CheckingDisabled AuthedData
    Z_reserved RecursionAvailable].
  replace (pos b + 2 + 2) with (pos b + 4) by lia.
  replace (pos b + 4 + 2) with (pos b + 6) by lia.
  replace (pos b + 6 + 2) with (pos b + 8) by lia.
  replace (pos b + 8 + 2) with (pos b + 10) by lia.
  replace (pos b + 10 + 2) with (pos b + 12) by lia.
  reflexivity.
Qed.

(** X6: [DnsHeader.Read] succeeds exactly when twelve bytes are left (cursor
    from 0 to 500): it then moves the cursor by twelve and fills the header
    from the six big-endian words at the cursor (id, flags, the four counts,
    in this order), overwriting every field, so that nothing of the header
    it was given remains.  With fewer than twelve bytes left it fails with
    the overrun error, and with a negative cursor it panics. *)
Theorem X6_header_is_twelve_bytes (h : DnsHeader) (b : BytePacketBuffer) :
  (0 <= pos b <= 500 ->
   DnsHeader_Read (h, b) =
     (Ok tt, (header_at (buf b) (pos b), set_pos b (pos b + 12))) /\
   ID (header_at (buf b) (pos b)) = word_at (buf b) (pos b) /\
   Questions (header_at (buf b) (pos b)) = word_at (buf b) (pos b + 4) /\
   Answers (header_at (buf b) (pos b)) = word_at (buf b) (pos b + 6) /\
   AuthoritativeEntries (header_at (buf b) (pos b)) = word_at (buf b) (pos b + 8) /\
   ResourceEntries (header_at (buf b) (pos b)) = word_at (buf b) (pos b + 10)) /\
  (500 < pos b -> fst (DnsHeader_Read (h, b)) = Err end_of_buffer) /\
  (pos b < 0 -> DnsHeader_Read (h, b) = (Panic, (h, b))).
Proof.
  split; [|split]; intros H.
  - split; [apply DnsHeader_Read_ok; assumption|]. repeat split.
  - pose proof (reads_pair_DnsHeader_Read h b) as Hr.
    destruct (DnsHeader_Read (h, b)) as [[[]|e|] [h' b']]; simpl.
    + lia.
    + destruct Hr as (-> & _). reflexivity.
    + lia.
  - unfold DnsHeader_Read, bind, store. rewrite ReadU16_panic by lia. reflexivity.
Qed.

Lemma X6_header_is_twelve_bytes_witness :
  DnsHeader_Read (NewDnsHeader, buffer_of two_declared_one_present 0) =
    (Ok tt, (header_at (buf (buffer_of two_declared_one_present 0)) 0,
             set_pos (buffer_of two_declared_one_present 0) 12)) /\
  fst (DnsHeader_Read (NewDnsHeader, buffer_of two_declared_one_present 501)) =
    Err end_of_buffer.
Proof.
  split.
  - apply (proj1 (X6_header_is_twelve_bytes NewDnsHeader
                    (buffer_of two_declared_one_present 0))). simpl. lia.
  - apply (proj1 (proj2 (X6_header_is_twelve_bytes NewDnsHeader
                    (buffer_of two_declared_one_present 501)))). simpl. lia.
Defined.

Lemma testbit_of_nibble (x k : Z) :
  0 <= k < 4 -> Z.testbit (x mod 2 ^ 4) k = Z.testbit x k.
Proof. intros H. apply Z.mod_pow2_bits_low. lia. Qed.

(** X7: the bits [DnsHeader.Read] takes the flags from, for every header it
    reads: response is bit 15 of the flag word, the opcode bits 11 to 14,
    authoritative-answer bit 10, truncated bit 9, recursion-desired bit 8,
    recursion-available bit 7 and the result code the conversion of bits 0
    to 3.  Checking-disabled, authed-data and the reserved bit are bits 12,
    13 and 14: they are bits 1, 2 and 3 of the opcode, so they are never set
    when the opcode is 0, and bits 4 to 6 of the word have no effect. *)
Theorem X7_flag_word_bits (h : DnsHeader) (b : BytePacketBuffer) :
  0 <= pos b <= 500 ->
  exists h' b',
    DnsHeader_Read (h, b) = (Ok tt, (h', b')) /\
    let flags := word_at (buf b) (pos b + 2) in
    Response h' = Z.testbit flags 15 /\
    Opcode h' = (flags / 2 ^ 11) mod 2 ^ 4 /\
    AuthoritativeAnswer h' = Z.testbit flags 10 /\
    TruncatedMessage h' = Z.testbit flags 9 /\
    RecursionDesired h' = Z.testbit flags 8 /\
    RecursionAvailable h' = Z.testbit flags 7 /\
    ResCode h' = ResultCodeFromNum (flags mod 2 ^ 4) /\
    CheckingDisabled h' = Z.testbit flags 12 /\
    AuthedData h' = Z.testbit flags 13 /\
    Z_reserved h' = Z.testbit flags 14 /\
    CheckingDisabled h' = Z.testbit (Opcode h') 1 /\
    AuthedData h' = Z.testbit (Opcode h') 2 /\
    Z_reserved h' = Z.testbit (Opcode h') 3.
Proof.
  intros H. exists (header_at (buf b) (pos b)), (set_pos b (pos b + 12)).
  split; [apply DnsHeader_Read_ok; assumption|].
  intros flags. unfold header_at. fold flags.
  pose proof (word_at_range (buf b) (pos b + 2)) as Hf. fold flags in Hf.
  destruct (decode_flags_bits flags
              (mkHeader (word_at (buf b) (pos b)) false false false 0 false NOERROR
                 false false false false (word_at (buf b) (pos b + 4))
                 (word_at (buf b) (pos b + 6)) (word_at (buf b) (pos b + 8))
                 (word_at (buf b) (pos b + 10))) ltac:(lia))
    as (H1 & H2 & H3 & H4 & H5 & H6 & H7 & H8 & H9 & H10).
  repeat split; try assumption.
  - rewrite H9, H2, testbit_of_nibble, Z.div_pow2_bits by lia. reflexivity.
  - rewrite H8, H2, testbit_of_nibble, Z.div_pow2_bits by lia. reflexivity.
  - rewrite H7, H2, testbit_of_nibble, Z.div_pow2_bits by lia. reflexivity.
Qed.

Lemma X7_flag_word_bits_witness :
  exists h' b',
    DnsHeader_Read (NewDnsHeader, buffer_of header_flags_1000 0) = (Ok tt, (h', b')) /\
    CheckingDisabled h' = Z.testbit (Opcode h') 1.
Proof.
  destruct (X7_flag_word_bits NewDnsHeader (buffer_of header_flags_1000 0)
              ltac:(simpl; lia)) as (h' & b' & H & Hbits).
  exists h', b'. split; [exact H|]. apply Hbits.
Defined.

(** ** Names without pointers *)

Lemma labels_at_cursor (b : BytePacketBuffer) (ls : list (list byte)) (q : Z) (x : byte) :
  labels_at (buf b) (pos b) ls q -> index (buf b) q = Some x ->
  pos b < 512 /\ pos b <= q < 512.
Proof.
  intros Hl Hi. pose proof (labels_at_range _ _ _ _ Hl) as [Hle _].
  apply index_Some in Hi. lia.
Qed.

Lemma Read_qname_plain_name
      (b : BytePacketBuffer) (outstr : string) (ls : list (list byte)) (z : Z) :
  labels_at (buf b) (pos b) ls z -> index (buf b) z = Some x00 ->
  Read_qname (outstr, b) =
    (Ok tt, ((outstr ++ name_text ls)%string, set_pos b (z + 1))).
Proof.
  intros Hl Hz. destruct (labels_at_cursor _ _ _ _ Hl Hz) as [Hc _].
  rewrite (Read_qname_of_run outstr b _
             (run_labels_end _ _ _ _ (Read_qname_init outstr b) Hl Hz
                eq_refl eq_refl Hc ltac:(unfold maxJumps; simpl; lia))).
  simpl Read_qname_exit. unfold Seek. simpl.
  rewrite append_labels_text. reflexivity.
Qed.

(** X8: a name without pointers, any labels and then the zero octet, all in
    the buffer: [Read_qname] succeeds, appends the labels joined by dots to
    the string it is given, and leaves the cursor one byte past the zero
    octet. *)
Theorem X8_name_without_pointers
        (b : BytePacketBuffer) (outstr : string) (ls : list (list byte)) (z : Z) :
  labels_at (buf b) (pos b) ls z -> index (buf b) z = Some x00 ->
  Read_qname (outstr, b) =
    (Ok tt, ((outstr ++ name_text ls)%string, set_pos b (z + 1))) /\
  pos (snd (snd (Read_qname (outstr, b)))) = z + 1 /\
  buf (snd (snd (Read_qname (outstr, b)))) = buf b.
Proof.
  intros Hl Hz. destruct (labels_at_cursor _ _ _ _ Hl Hz) as [Hc _].
  assert (Hrun := run_labels_end _ _ _ _ (Read_qname_init outstr b) Hl Hz
                    eq_refl eq_refl Hc ltac:(unfold maxJumps; simpl; lia)).
  rewrite (Read_qname_of_run outstr b _ Hrun).
  simpl Read_qname_exit. unfold Seek. cbn [snd].
  rewrite append_labels_text, pos_set_pos, buf_set_pos. repeat split.
Qed.

Lemma X8_name_without_pointers_witness :
  Read_qname ("mail."%string, buffer_of www_example_com 0) =
    (Ok tt, ("mail.www.example.com"%string, set_pos (buffer_of www_example_com 0) 17)) /\
  pos (snd (snd (Read_qname ("mail."%string, buffer_of www_example_com 0)))) = 17.
Proof.
  assert (H : bytes_at (buf (buffer_of www_example_com 0)) 0 www_example_com).
  { intros i Hi.
    do 17 (destruct i as [|i]; [vm_compute; reflexivity|]).
    simpl in Hi. lia. }
  destruct (www_example_com_labels _ _ H) as (_ & _ & Hz & Hl).
  destruct (X8_name_without_pointers (buffer_of www_example_com 0) "mail."
              [www; example; com] 16 Hl Hz) as (H1 & H2 & _).
  split; [exact H1|exact H2].
Defined.

(** X9: a question whose name has no pointers: [DnsQuestion.Read] appends
    the text of the name to the [Name] the question already has (a question
    that is read into twice accumulates both names), sets the type and the
    class to the two big-endian words after the name, and leaves the cursor
    four bytes past the end of the name. *)
Theorem X9_question_fields
        (q0 : DnsQuestion) (b : BytePacketBuffer) (ls : list (list byte)) (z : Z) :
  labels_at (buf b) (pos b) ls z -> index (buf b) z = Some x00 -> z + 4 < 512 ->
  DnsQuestion_Read (q0, b) =
    (Ok tt, (mkQuestion (Name q0 ++ name_text ls) (word_at (buf b) (z + 1))
                        (word_at (buf b) (z + 3)),
             set_pos b (z + 5))).
Proof.
  intros Hl Hz H4. destruct (labels_at_cursor _ _ _ _ Hl Hz) as [Hc Hq].
  assert (0 <= z) by (apply index_Some in Hz; lia).
  unfold DnsQuestion_Read, bind, Read_qname_Name.
  rewrite (Read_qname_plain_name b (Name q0) ls z Hl Hz).
  unfold store.
  rewrite ReadU16_word by (rewrite pos_set_pos; lia).
  rewrite pos_set_pos, buf_set_pos, set_pos_set_pos.
  rewrite ReadU16_word by (rewrite pos_set_pos; lia).
  rewrite pos_set_pos, buf_set_pos, set_pos_set_pos.
  unfold set_Qtype, set_Qclass. cbn [Name Qtype Qclass].
  replace (z + 1 + 2) with (z + 3) by lia.
  replace (z + 3 + 2) with (z + 5) by lia. reflexivity.
Qed.

Lemma X9_question_fields_witness :
  DnsQuestion_Read (mkQuestion "first." 7 7, buffer_of two_declared_one_present 12) =
    (Ok tt, (mkQuestion "first.www.example.com" 1 1,
             set_pos (buffer_of two_declared_one_present 12) 33)).
Proof.
  assert (H : bytes_at (buf (buffer_of two_declared_one_present 12)) 12 www_example_com).
  { intros i Hi.
    do 17 (destruct i as [|i]; [vm_compute; reflexivity|]).
    simpl in Hi. lia. }
  destruct (www_example_com_labels _ _ H) as (_ & _ & Hz & Hl).
  exact (X9_question_fields (mkQuestion "first." 7 7)
           (buffer_of two_declared_one_present 12) [www; example; com] 28 Hl Hz
           ltac:(lia)).
Defined.

(** ** Names that cannot be decoded *)

(** X10: a name whose labels are followed by a length octet that promises
    bytes up to index 511 or beyond: [Read_qname] fails with the overrun
    error of [GetRange], leaves the cursor where it was, and leaves in the
    string the labels decoded so far with the delimiter for the next one. *)
Theorem X10_label_overrun
        (b : BytePacketBuffer) (outstr : string) (ls : list (list byte))
        (q : Z) (len : byte) :
  labels_at (buf b) (pos b) ls q -> index (buf b) q = Some len ->
  u len <> 0 -> ~ is_pointer len -> 512 <= q + 1 + u len ->
  Read_qname (outstr, b) =
    (Err End_of_buffer, (((outstr ++ name_text ls) ++ delim_after "" ls)%string, b)).
Proof.
  intros Hl Hi Hz Hp Hover. destruct (labels_at_cursor _ _ _ _ Hl Hi) as [Hc _].
  rewrite (Read_qname_of_run outstr b
             (Err End_of_buffer,
              mkLocals b ((outstr ++ name_text ls) ++ delim_after "" ls)%string
                       (q + 1) (delim_after "" ls) false 0)); [reflexivity|].
  eapply (run_labels _ _ _ _ Hl); try reflexivity; try assumption;
    [unfold maxJumps; simpl; lia|].
  apply run_return. simpl l_outstr. simpl l_delim. simpl l_b.
  rewrite (body_label_overrun _ len); simpl; try assumption;
    [|unfold maxJumps; lia].
  rewrite append_labels_text. reflexivity.
Qed.

Lemma X10_label_overrun_witness :
  Read_qname ("www."%string, buffer_of overrun_label 500) =
    (Err End_of_buffer, ("www."%string, buffer_of overrun_label 500)).
Proof.
  apply (X10_label_overrun (buffer_of overrun_label 500) "www." [] 500 "020"%byte).
  - apply labels_nil.
  - vm_compute. reflexivity.
  - vm_compute. discriminate.
  - vm_compute. discriminate.
  - vm_compute. discriminate.
Defined.

(** X11: with the cursor at 512 or beyond [Read_qname] fails at once with
    the overrun error, and with a negative cursor it panics; in both cases
    the cursor and the string are left as they were. *)
Theorem X11_name_at_cursor_outside (b : BytePacketBuffer) (outstr : string) :
  (512 <= pos b -> Read_qname (outstr, b) = (Err end_of_buffer, (outstr, b))) /\
  (pos b < 0 -> Read_qname (outstr, b) = (Panic, (outstr, b))).
Proof.
  split; intros H.
  - rewrite (Read_qname_of_run outstr b (Err end_of_buffer, Read_qname_init outstr b));
      [reflexivity|].
    apply run_return. apply body_overrun; [unfold maxJumps; simpl; lia|exact H].
  - rewrite (Read_qname_of_run outstr b (Panic, Read_qname_init outstr b));
      [reflexivity|].
    apply run_return. apply body_panic; simpl; unfold maxJumps, Pos; lia.
Qed.

Lemma X11_name_at_cursor_outside_witness :
  Read_qname ("x"%string, buffer_of www_example_com 512) =
    (Err end_of_buffer, ("x"%string, buffer_of www_example_com 512)) /\
  Read_qname ("x"%string, buffer_of www_example_com (-1)) =
    (Panic, ("x"%string, buffer_of www_example_com (-1))).
Proof.
  split.
  - apply (proj1 (X11_name_at_cursor_outside (buffer_of www_example_com 512) "x")).
    simpl. lia.
  - apply (proj2 (X11_name_at_cursor_outside (buffer_of www_example_com (-1)) "x")).
    simpl. lia.
Defined.

(** ** Pointers and the jump limit *)






(** One to five pointers and then a name without pointers. *)
Lemma Read_qname_chain_name
      (b : BytePacketBuffer) (outstr : string) (n : nat) (q z : Z)
      (ls : list (list byte)) :
  pos b + 2 < 512 -> pointer_chain (buf b) n (pos b) q -> (1 <= n <= 5)%nat ->
  labels_at (buf b) q ls z -> index (buf b) z = Some x00 ->
  Read_qname (outstr, b) =
    (Ok tt, ((outstr ++ name_text ls)%string, set_pos b (pos b + 2))).
Proof.
  intros Hc Hch Hn Hl Hz. destruct n as [|m]; [lia|].
  rewrite (Read_qname_of_run outstr b
             (Ok tt, mkLocals (set_pos b (pos b + 2)) (append_labels outstr "" ls)
                              (z + 1) (delim_after "" ls) true (Z.of_nat (S m)))).
  - simpl Read_qname_exit. rewrite append_labels_text. reflexivity.
  - apply (run_chain_init _ _ m q); try assumption; [lia|].
    apply (run_labels_end (buf b) q z ls
             (mkLocals (set_pos b (pos b + 2)) outstr q "" true (Z.of_nat (S m))));
      unfold maxJumps; locals_simpl; try assumption; try reflexivity; try lia.
Qed.

(** X13: the jump limit, when the first pointer does not lie in the last two
    bytes of the buffer.  A chain of six pointers fails with the jump-limit
    error; a chain of one to five pointers that ends at a name without
    pointers is decoded to the text of that name.  In both cases the cursor
    is left two bytes past the first pointer. *)
Theorem X13_jump_limit_boundary
        (b : BytePacketBuffer) (outstr : string) (n : nat) (q : Z) :
  pos b + 2 < 512 -> pointer_chain (buf b) n (pos b) q ->
  (n = 6%nat ->
   Read_qname (outstr, b) = (Err jump_limit, (outstr, set_pos b (pos b + 2)))) /\
  ((1 <= n <= 5)%nat ->
   forall ls z,
     labels_at (buf b) q ls z -> index (buf b) z = Some x00 ->
     Read_qname (outstr, b) =
       (Ok tt, ((outstr ++ name_text ls)%string, set_pos b (pos b + 2)))).
Proof.
  intros Hc Hch. split.
  - intros ->. apply (six_pointers_limit b outstr q Hch Hc).
  - intros Hn ls z Hl Hz. apply (Read_qname_chain_name b outstr n q z ls); assumption.
Qed.

Lemma X13_jump_limit_boundary_witness :
  Read_qname (""%string, buffer_of chain_bytes 27) =
    (Err jump_limit, (""%string, set_pos (buffer_of chain_bytes 27) 29)) /\
  Read_qname (""%string, buffer_of chain_bytes 0) =
    (Ok tt, ("www.example.com"%string, set_pos (buffer_of chain_bytes 0) 2)).
Proof.
  assert (H5 : pointer_chain (buf (buffer_of chain_bytes 0)) 5 0 10).
  { rewrite <- (app_nil_r chain_bytes). apply (chain_bytes_five []). }
  split.
  - refine (proj1 (X13_jump_limit_boundary (buffer_of chain_bytes 27) "" 6 10
                     ltac:(simpl; lia) _) eq_refl).
    chain_step "192"%byte "000"%byte. exact H5.
  - pose proof (chain_bytes_name []) as Hn. rewrite app_nil_r in Hn.
    destruct (www_example_com_labels _ _ Hn) as (_ & _ & Hz & Hl).
    exact (proj2 (X13_jump_limit_boundary (buffer_of chain_bytes 0) "" 5 10
                    ltac:(simpl; lia) H5) ltac:(lia) [www; example; com] 26 Hl Hz).
Defined.

(** ** Name decoding and the cursor *)

(** What a pass of the loop does to the cursor and to the jump flag. *)
Lemma body_cursor (s : locals) :
  match Read_qname_body s with
  | Continue s' =>
    pos (l_b s) < 512 /\ 0 <= l_pos s < 512 /\
    ((l_jumped s' = l_jumped s /\ l_b s' = l_b s /\
      (l_jumped s = false -> l_pos s < l_pos s')) \/
     (l_jumped s = false /\ l_jumped s' = true /\
      l_b s' = set_pos (l_b s) (l_pos s + 2) /\ l_pos s + 2 < 512))
  | Break s' =>
    pos (l_b s) < 512 /\ 0 <= l_pos s < 512 /\
    l_jumped s' = l_jumped s /\ l_b s' = l_b s /\ l_pos s' = l_pos s + 1
  | Return o s' =>
    o <> Ok tt /\
    (l_b s' = l_b s \/
     (l_jumped s = false /\ l_b s' = set_pos (l_b s) (l_pos s + 2) /\
      0 <= l_pos s < 512))
  end.
Proof.
  unfold Read_qname_body.
  destruct (maxJumps <? l_jumpsPerformed s);
    [split; [discriminate|left; reflexivity]|].
  destruct (Get (l_pos s) (l_b s)) as [[len|e|] b0] eqn:EG.
  2: { pose proof (Get_buffer (l_b s) (l_pos s)) as HG. rewrite EG in HG.
       simpl in HG. subst b0. split; [discriminate|left; reflexivity]. }
  2: { pose proof (Get_buffer (l_b s) (l_pos s)) as HG. rewrite EG in HG.
       simpl in HG. subst b0. split; [discriminate|left; reflexivity]. }
  apply Get_Ok_inv in EG. destruct EG as (Hc & Hi & ->).
  pose proof (index_Some _ _ _ Hi) as [Hr _].
  destruct (Z.eqb_spec (Z.land (u len) 0xC0) 0xC0) as [Hptr|Hptr].
  - rewrite !Int_add_small by lia. unfold Seek. cbn [snd].
    destruct (l_jumped s) eqn:Hj.
    + pose proof (Get_buffer (l_b s) (l_pos s + 1)) as HG.
      destruct (Get (l_pos s + 1) (l_b s)) as [[offset|e|] b2]; simpl in HG; subst b2.
      * split; [assumption|]. split; [assumption|]. left.
        simpl. repeat split. discriminate.
      * split; [discriminate|left; reflexivity].
      * split; [discriminate|left; reflexivity].
    + destruct (Get (l_pos s + 1) (set_pos (l_b s) (l_pos s + 2)))
        as [[offset|e|] b2] eqn:EG2.
      * apply Get_Ok_inv in EG2. destruct EG2 as (Hc2 & _ & ->).
        rewrite pos_set_pos in Hc2.
        split; [assumption|]. split; [assumption|]. right. simpl. auto.
      * pose proof (Get_buffer (set_pos (l_b s) (l_pos s + 2)) (l_pos s + 1)) as HG.
        rewrite EG2 in HG. simpl in HG. subst b2.
        split; [discriminate|]. right. simpl. auto.
      * pose proof (Get_buffer (set_pos (l_b s) (l_pos s + 2)) (l_pos s + 1)) as HG.
        rewrite EG2 in HG. simpl in HG. subst b2.
        split; [discriminate|]. right. simpl. auto.
  - rewrite Int_add_small by lia.
    destruct (Z.eqb_spec (u len) 0) as [Hz|Hz].
    + simpl. auto.
    + destruct (GetRange (l_pos s + 1) (u len) (l_b s)) as [[bytes|e|] b1] eqn:ER.
      * apply GetRange_Ok_inv in ER. destruct ER as (Hlt & _ & ->).
        pose proof (u_range len) as Hu.
        rewrite Int_add_small in * by lia.
        split; [assumption|]. split; [assumption|]. left. simpl.
        repeat split. intros _. lia.
      * pose proof (GetRange_buffer (l_b s) (l_pos s + 1) (u len)) as HG.
        rewrite ER in HG. simpl in HG. subst b1.
        split; [discriminate|left; reflexivity].
      * pose proof (GetRange_buffer (l_b s) (l_pos s + 1) (u len)) as HG.
        rewrite ER in HG. simpl in HG. subst b1.
        split; [discriminate|left; reflexivity].
Qed.

Lemma run_cursor (p0 : Z) (s : locals) (r : outcome unit * locals) :
  Read_qname_run s r -> cursor_kept p0 s ->
  match fst r with
  | Ok _ =>
    0 <= p0 /\
    (if l_jumped (snd r) then p0 + 2 <= pos (l_b (snd r)) <= 511
     else pos (l_b (snd r)) = p0 /\ p0 < l_pos (snd r) <= 512)
  | _ => p0 <= pos (l_b (snd r)) <= Z.max p0 513
  end.
Proof.
  induction 1 as [s s' r E _ IH|s s' E|s s' o E]; intros Hk;
    pose proof (body_cursor s) as Hb; rewrite E in Hb; unfold cursor_kept in *.
  - apply IH. destruct Hb as (Hc & Hp & [(Hj & Hbuf & Hmono)|(Hj & Hj' & Hbuf & Hlt)]).
    + rewrite Hj, Hbuf. destruct (l_jumped s); [assumption|].
      destruct Hk as (Hk1 & Hk2 & Hk3). specialize (Hmono eq_refl).
      split; [assumption|]. split; [lia|]. right. lia.
    + rewrite Hj in Hk. rewrite Hj', Hbuf, pos_set_pos.
      destruct Hk as (Hk1 & Hk2 & Hk3). lia.
  - destruct Hb as (Hc & Hp & Hj & Hbuf & Hpos). simpl.
    rewrite Hj, Hbuf, Hpos. destruct (l_jumped s).
    + destruct Hk as (Hk1 & Hk2). split; assumption.
    + destruct Hk as (Hk1 & Hk2 & Hk3). lia.
  - destruct Hb as (Ho & Hb). simpl.
    assert (Hgoal : p0 <= pos (l_b s') <= Z.max p0 513).
    { destruct Hb as [->|(Hj & -> & Hp)].
      - destruct (l_jumped s); lia.
      - rewrite Hj in Hk. rewrite pos_set_pos. lia. }
    destruct o as [[]|e|]; [contradiction Ho; reflexivity| |]; exact Hgoal.
Qed.

(** A name decoded takes one byte at least. *)
Lemma Read_qname_cursor_moves (b : BytePacketBuffer) (outstr : string) :
  fst (Read_qname (outstr, b)) = Ok tt ->
  0 <= pos b /\ pos b < pos (snd (snd (Read_qname (outstr, b)))) <= 512.
Proof.
  destruct (Read_qname_run_ex outstr b) as (r & Hrun & ->).
  pose proof (run_cursor (pos b) _ _ Hrun) as H.
  specialize (H ltac:(unfold cursor_kept; simpl; unfold Pos; lia)).
  destruct r as [[[]|e|] s]; simpl in H; simpl; try discriminate.
  destruct H as [H0 H]. destruct (l_jumped s); simpl; intros _; lia.
Qed.

(** X14: [Read_qname] only moves the cursor forward.  When it succeeds the
    cursor was inside the buffer, has advanced by one byte at least and is
    at most 512; when it fails the cursor is where it was or further on,
    at most at 513 (two bytes past a pointer whose first octet is the last
    byte of the buffer). *)
Theorem X14_name_decoding_advances (b : BytePacketBuffer) (outstr : string) :
  (fst (Read_qname (outstr, b)) = Ok tt ->
   0 <= pos b /\ pos b < pos (snd (snd (Read_qname (outstr, b)))) <= 512) /\
  pos b <= pos (snd (snd (Read_qname (outstr, b)))) <= Z.max (pos b) 513.
Proof.
  destruct (Read_qname_run_ex outstr b) as (r & Hrun & ->).
  pose proof (run_cursor (pos b) _ _ Hrun) as H.
  assert (Hk : cursor_kept (pos b) (Read_qname_init outstr b))
    by (unfold cursor_kept; simpl; unfold Pos; lia).
  specialize (H Hk).
  destruct r as [[[]|e|] s]; simpl in H; simpl.
  - destruct H as [H0 H]. destruct (l_jumped s); simpl.
    + split; [intros _|]; lia.
    + split; [intros _|]; lia.
  - split; [discriminate|exact H].
  - split; [discriminate|exact H].
Qed.

Lemma X14_name_decoding_advances_witness :
  fst (Read_qname (""%string, buffer_of pointer_to_www 0)) = Ok tt /\
  pos (buffer_of pointer_to_www 0) <
    pos (snd (snd (Read_qname (""%string, buffer_of pointer_to_www 0)))) <= 512 /\
  pos (snd (snd (Read_qname (""%string, buffer_of pointer_at_511 511)))) = 513.
Proof.
  assert (H : fst (Read_qname (""%string, buffer_of pointer_to_www 0)) = Ok tt)
    by (vm_compute; reflexivity).
  split; [exact H|]. split.
  - apply (proj1 (X14_name_decoding_advances (buffer_of pointer_to_www 0) "") H).
  - vm_compute. reflexivity.
Defined.

(** ** How many questions and records fit *)

Lemma advances_ret {A} (a : A) : advances 0 (ret a).
Proof. intros b H. simpl. lia. Qed.

Lemma advances_bind {A B} (k1 k2 : Z) (m : M BytePacketBuffer A)
      (f : A -> M BytePacketBuffer B) :
  0 <= k1 -> advances k1 m -> (forall a, advances k2 (f a)) ->
  advances (k1 + k2) (bind m f).
Proof.
  intros Hk Hm Hf b Hb. unfold bind. specialize (Hm b Hb).
  destruct (m b) as [[a|e|] b1]; try exact I.
  specialize (Hf a b1 ltac:(lia)).
  destruct (f a b1) as [[x|e|] b2]; try exact I. lia.
Qed.

Lemma advances_reads {A} (n : Z) (m : M BytePacketBuffer A) :
  reads n m -> advances n m.
Proof.
  intros Hm b Hb. specialize (Hm b).
  destruct (m b) as [[a|e|] b1]; try exact I.
  destruct Hm as (_ & H & ->). rewrite pos_set_pos. lia.
Qed.

Lemma advances_Read_qname_into (outstr : string) : advances 1 (Read_qname_into outstr).
Proof.
  intros b Hb. unfold Read_qname_into.
  pose proof (Read_qname_cursor_moves b outstr) as H.
  destruct (Read_qname (outstr, b)) as [[[]|e|] [s b']]; try exact I.
  specialize (H eq_refl). simpl in H. lia.
Qed.

Lemma DnsQuestion_Read_advances (q q' : DnsQuestion) (b b' : BytePacketBuffer) :
  0 <= pos b <= 512 ->
  DnsQuestion_Read (q, b) = (Ok tt, (q', b')) -> pos b + 5 <= pos b' <= 512.
Proof.
  intros Hb H. unfold DnsQuestion_Read in H.
  apply bind_Ok_inv in H. destruct H as (x1 & [q1 b1] & H1 & H).
  apply bind_Ok_inv in H. destruct H as (x2 & [q2 b2] & H2 & H3).
  unfold Read_qname_Name in H1.
  pose proof (Read_qname_cursor_moves b (Name q)) as Hn.
  destruct (Read_qname (Name q, b)) as [o [name c]].
  inversion H1; subst. destruct x1. specialize (Hn eq_refl). simpl in Hn.
  unfold store in H2, H3.
  pose proof (reads_ReadU16 b1) as R2.
  destruct (ReadU16 b1) as [[v|e|] c2]; try discriminate.
  inversion H2; subst. destruct R2 as (_ & R2 & ->).
  pose proof (reads_ReadU16 (set_pos b1 (pos b1 + 2))) as R3.
  destruct (ReadU16 (set_pos b1 (pos b1 + 2))) as [[v3|e|] c3]; try discriminate.
  inversion H3; subst. destruct R3 as (_ & R3 & ->).
  rewrite !pos_set_pos in *. lia.
Qed.

Lemma read_questions_fit (n : nat) : forall b,
  0 <= pos b <= 512 ->
  match read_questions n b with
  | (Ok l, b') => length l = n /\ pos b + 5 * Z.of_nat n <= pos b' <= 512
  | _ => True
  end.
Proof.
  induction n as [|n IH]; intros b Hb.
  - simpl. split; [reflexivity|lia].
  - cbn [read_questions].
    destruct (DnsQuestion_Read (zero_DnsQuestion, b)) as [[[]|e|] [q b1]] eqn:E;
      try exact I.
    pose proof (DnsQuestion_Read_advances _ _ _ _ Hb E) as H1.
    unfold bind, ret. specialize (IH b1 ltac:(lia)).
    destruct (read_questions n b1) as [[l|e|] b2]; try exact I.
    destruct IH as [IH1 IH2]. simpl. split; [congruence|lia].
Qed.

Lemma advances_Read_bytes (n : nat) : advances 0 (Read_bytes n).
Proof.
  induction n as [|n IH]; simpl; [apply advances_ret|].
  apply (advances_bind 0 0); [lia| |].
  - intros b Hb. pose proof (reads_Read b) as H.
    destruct (Read b) as [[x|e|] b1]; try exact I.
    destruct H as (_ & H & ->). rewrite pos_set_pos. lia.
  - intros x. apply (advances_bind 0 0); [lia|exact IH|]. intros l. apply advances_ret.
Qed.

Lemma advances_weaken {A} (k k' : Z) (m : M BytePacketBuffer A) :
  k' <= k -> advances k m -> advances k' m.
Proof.
  intros Hk Hm b Hb. specialize (Hm b Hb).
  destruct (m b) as [[a|e|] b1]; try exact I. lia.
Qed.

Lemma advances_DnsRecordRead : advances 11 DnsRecordRead.
Proof.
  unfold DnsRecordRead. apply (advances_bind 11 0); [lia| |].
  - unfold DnsRecordRead_prefix.
    apply (advances_bind 1 10); [lia|apply advances_Read_qname_into|]. intros name.
    apply (advances_bind 2 8); [lia|apply advances_reads, reads_ReadU16_Query|].
    intros qtype.
    apply (advances_bind 2 6); [lia|apply advances_reads, reads_ReadU16|]. intros class.
    apply (advances_bind 4 2); [lia|apply advances_reads, reads_ReadU32|]. intros ttl.
    apply (advances_bind 2 0); [lia|apply advances_reads, reads_ReadU16|]. intros dl.
    apply advances_ret.
  - intros rec. unfold DnsRecordRead_switch.
    destruct (rec_Qtype rec =? QTYPE_A).
    { apply (advances_bind 0 0); [lia|apply advances_Read_bytes|].
      intros a. apply advances_ret. }
    destruct (rec_Qtype rec =? QTYPE_AAAA).
    { apply (advances_bind 0 0); [lia|apply advances_Read_bytes|].
      intros a. apply advances_ret. }
    destruct (rec_Qtype rec =? QTYPE_CNAME).
    { apply (advances_bind 0 0); [lia| |intros a; apply advances_ret].
      apply (advances_weaken 1); [lia|apply advances_Read_qname_into]. }
    destruct (rec_Qtype rec =? QTYPE_MX).
    { apply (advances_bind 0 0); [lia| |].
      - apply (advances_weaken 2); [lia|apply advances_reads, reads_ReadU16].
      - intros p. apply (advances_bind 0 0); [lia| |intros a; apply advances_ret].
        apply (advances_weaken 1); [lia|apply advances_Read_qname_into]. }
    apply advances_ret.
Qed.

Lemma read_records_fit (n : nat) : forall b,
  0 <= pos b <= 512 ->
  match read_records n b with
  | (Ok l, b') => length l = n /\ pos b + 11 * Z.of_nat n <= pos b' <= 512
  | _ => True
  end.
Proof.
  induction n as [|n IH]; intros b Hb.
  - simpl. split; [reflexivity|lia].
  - cbn [read_records]. unfold bind, ret.
    pose proof (advances_DnsRecordRead b Hb) as H1.
    destruct (DnsRecordRead b) as [[r|e|] b1]; try exact I.
    specialize (IH b1 ltac:(lia)).
    destruct (read_records n b1) as [[l|e|] b2]; try exact I.
    destruct IH as [IH1 IH2]. simpl. split; [congruence|lia].
Qed.

Lemma main_parse_header (data : list byte) :
  DnsHeader_Read (NewDnsHeader, copy NewBytePacketBuffer data) =
    (Ok tt, (header_at (buf (copy NewBytePacketBuffer data)) 0,
             set_pos (copy NewBytePacketBuffer data) 12)).
Proof.
  rewrite DnsHeader_Read_ok; [reflexivity|]. unfold copy. simpl. lia.
Qed.

(** X15: whatever the header declares, a parse that succeeds has read as
    many questions as the question count and as many records as the answer
    count says, and they fit in the 500 bytes after the header at five bytes
    at least for a question and eleven for a record: so no packet with more
    than 100 questions, or more than 45 answers, is ever parsed
    successfully. *)
Theorem X15_counts_fit (data : list byte) (h : DnsHeader)
        (qs : list DnsQuestion) (rs : list DnsRecord) :
  main_parse data = Ok (h, qs, rs) ->
  Z.of_nat (length qs) = Questions h /\ Z.of_nat (length rs) = Answers h /\
  5 * Questions h + 11 * Answers h <= 500 /\
  Questions h <= 100 /\ Answers h <= 45.
Proof.
  unfold main_parse. rewrite main_parse_header.
  set (h0 := header_at (buf (copy NewBytePacketBuffer data)) 0).
  set (b0 := set_pos (copy NewBytePacketBuffer data) 12).
  assert (HQ : 0 <= Questions h0) by apply word_at_range.
  assert (HA : 0 <= Answers h0) by apply word_at_range.
  assert (Hb0 : pos b0 = 12) by reflexivity.
  pose proof (read_questions_fit (Z.to_nat (Questions h0)) b0 ltac:(lia)) as H1.
  destruct (read_questions (Z.to_nat (Questions h0)) b0) as [[l1|e|] b1];
    try discriminate.
  destruct H1 as [L1 P1]. rewrite Z2Nat.id in P1 by lia.
  assert (Hb1 : 0 <= pos b1 <= 512) by lia.
  pose proof (read_records_fit (Z.to_nat (Answers h0)) b1 Hb1) as H2.
  destruct (read_records (Z.to_nat (Answers h0)) b1) as [[l2|e|] b2];
    try discriminate.
  destruct H2 as [L2 P2]. rewrite Z2Nat.id in P2 by lia.
  intros E. inversion E; subst h qs rs.
  rewrite L1, L2, !Z2Nat.id by lia. lia.
Qed.

Lemma X15_counts_fit_witness :
  main_parse two_declared_one_present =
    Ok (mkHeader 0x1234 true false false 0 false NOERROR
                 false false false false 2 0 0 0,
        [mkQuestion "www.example.com" 1 1; mkQuestion "" 0 0], []) /\
  Z.of_nat (length [mkQuestion "www.example.com" 1 1; mkQuestion "" 0 0]) = 2.
Proof.
  assert (H : main_parse two_declared_one_present =
    Ok (mkHeader 0x1234 true false false 0 false NOERROR
                 false false false false 2 0 0 0,
        [mkQuestion "www.example.com" 1 1; mkQuestion "" 0 0], []))
    by (vm_compute; reflexivity).
  split; [exact H|]. exact (proj1 (X15_counts_fit _ _ _ _ H)).
Defined.

(** ** The data of a record *)

Lemma Read_bytes_ok (n : nat) : forall b,
  0 <= pos b -> pos b + Z.of_nat n <= 512 ->
  Read_bytes n b =
    (Ok (map (cell (buf b)) (seq (Z.to_nat (pos b)) n)), set_pos b (pos b + Z.of_nat n)).
Proof.
  induction n as [|n IH]; intros b H0 Hn.
  - simpl. unfold ret. rewrite Z.add_0_r, set_pos_same. reflexivity.
  - cbn [Read_bytes]. unfold bind, ret. rewrite Read_ok by lia.
    rewrite IH by (rewrite pos_set_pos; lia).
    rewrite pos_set_pos, buf_set_pos, set_pos_set_pos. cbn [seq map].
    replace (Z.to_nat (pos b + 1)) with (S (Z.to_nat (pos b))) by lia.
    replace (pos b + 1 + Z.of_nat n) with (pos b + Z.of_nat (S n)) by lia.
    reflexivity.
Qed.

Lemma Read_bytes_short (n : nat) : forall b,
  0 <= pos b <= 512 -> 512 < pos b + Z.of_nat n ->
  fst (Read_bytes n b) = Err end_of_buffer.
Proof.
  induction n as [|n IH]; intros b H0 Hn; [simpl in Hn; lia|].
  cbn [Read_bytes]. unfold bind.
  destruct (Z.eq_dec (pos b) 512) as [E|E].
  - rewrite Read_err by lia. reflexivity.
  - rewrite Read_ok by lia.
    specialize (IH (set_pos b (pos b + 1))).
    rewrite pos_set_pos in IH. specialize (IH ltac:(lia) ltac:(lia)).
    destruct (Read_bytes n (set_pos b (pos b + 1))) as [[l|e|] b2];
      simpl in IH; try discriminate.
    inversion IH. reflexivity.
Qed.

Lemma DnsRecordRead_prefix_cursor (b b1 : BytePacketBuffer) (rec : DnsRecord) :
  DnsRecordRead_prefix b = (Ok rec, b1) -> 2 <= pos b1 <= 512.
Proof.
  unfold DnsRecordRead_prefix. intros H.
  apply bind_Ok_inv in H. destruct H as (name & s1 & _ & H).
  apply bind_Ok_inv in H. destruct H as (qtype & s2 & _ & H).
  apply bind_Ok_inv in H. destruct H as (class & s3 & _ & H).
  apply bind_Ok_inv in H. destruct H as (ttl & s4 & _ & H).
  apply bind_Ok_inv in H. destruct H as (datalen & s5 & H5 & H).
  unfold ret in H. inversion H; subst.
  pose proof (reads_ReadU16 s4) as R. rewrite H5 in R.
  destruct R as (R0 & R1 & ->). rewrite pos_set_pos. lia.
Qed.

(** X16: a record of type A.  After the fields every record has, four bytes
    are read as the address, whatever the data length says: the record gets
    the sixteen-byte form of the IPv4 address made of them and the cursor
    moves by four.  With fewer than four bytes left the decoding fails with
    the overrun error. *)
Theorem X16_A_record (b b1 : BytePacketBuffer) (rec : DnsRecord) :
  DnsRecordRead_prefix b = (Ok rec, b1) -> rec_Qtype rec = QTYPE_A ->
  (pos b1 <= 508 ->
   DnsRecordRead b =
     (Ok (with_Addr rec
            (net_IPv4 (cell (buf b1) (Z.to_nat (pos b1)))
                      (cell (buf b1) (Z.to_nat (pos b1 + 1)))
                      (cell (buf b1) (Z.to_nat (pos b1 + 2)))
                      (cell (buf b1) (Z.to_nat (pos b1 + 3))))),
      set_pos b1 (pos b1 + 4))) /\
  (508 < pos b1 -> fst (DnsRecordRead b) = Err end_of_buffer).
Proof.
  intros Hpre Ht. pose proof (DnsRecordRead_prefix_cursor _ _ _ Hpre) as Hc.
  unfold DnsRecordRead, bind. rewrite Hpre. unfold DnsRecordRead_switch.
  rewrite Ht. cbn [Z.eqb QTYPE_A Pos.eqb]. unfold bind, ret.
  split; intros H.
  - rewrite (Read_bytes_ok 4) by (simpl; lia). cbn [seq map nth].
    replace (S (Z.to_nat (pos b1))) with (Z.to_nat (pos b1 + 1)) by lia.
    replace (S (Z.to_nat (pos b1 + 1))) with (Z.to_nat (pos b1 + 2)) by lia.
    replace (S (Z.to_nat (pos b1 + 2))) with (Z.to_nat (pos b1 + 3)) by lia.
    change (Z.of_nat 4) with 4. rewrite <- Ht. reflexivity.
  - pose proof (Read_bytes_short 4 b1 ltac:(lia) ltac:(simpl; lia)) as E.
    destruct (Read_bytes 4 b1) as [[l|e|] b2]; simpl in E; try discriminate.
    inversion E. reflexivity.
Qed.

Lemma X16_A_record_witness :
  DnsRecordRead (buffer_of a_record 0) =
    (Ok (mkRecord "" 1 1 60 4
           (bytes_of [0; 0; 0; 0; 0; 0; 0; 0; 0; 0; 255; 255; 127; 0; 0; 1]) "" 0),
     set_pos (buffer_of a_record 0) 15).
Proof.
  assert (H : DnsRecordRead_prefix (buffer_of a_record 0) =
              (Ok (mkRecord "" 1 1 60 4 [] "" 0), set_pos (buffer_of a_record 0) 11))
    by (vm_compute; reflexivity).
  exact (proj1 (X16_A_record _ _ _ H eq_refl) ltac:(simpl; lia)).
Defined.

(** X17: a record of type AAAA.  After the fields every record has, sixteen
    bytes are read as the address, whatever the data length says, and the
    cursor moves by sixteen; with fewer than sixteen bytes left the decoding
    fails with the overrun error. *)
Theorem X17_AAAA_record (b b1 : BytePacketBuffer) (rec : DnsRecord) :
  DnsRecordRead_prefix b = (Ok rec, b1) -> rec_Qtype rec = QTYPE_AAAA ->
  (pos b1 <= 496 ->
   exists addr,
     DnsRecordRead b = (Ok (with_Addr rec addr), set_pos b1 (pos b1 + 16)) /\
     length addr = 16%nat /\
     forall i, 0 <= i < 16 ->
       index (buf b1) (pos b1 + i) = Some (nth (Z.to_nat i) addr x00)) /\
  (496 < pos b1 -> fst (DnsRecordRead b) = Err end_of_buffer).
Proof.
  intros Hpre Ht. pose proof (DnsRecordRead_prefix_cursor _ _ _ Hpre) as Hc.
  unfold DnsRecordRead, bind. rewrite Hpre. unfold DnsRecordRead_switch.
  rewrite Ht. cbn [Z.eqb QTYPE_A QTYPE_AAAA Pos.eqb]. unfold bind, ret.
  split; intros H.
  - exists (map (cell (buf b1)) (seq (Z.to_nat (pos b1)) 16)).
    rewrite (Read_bytes_ok 16) by (simpl; lia).
    change (Z.of_nat 16) with 16. rewrite <- Ht.
    split; [reflexivity|]. split; [apply map_cell_length|].
    intros i Hi. rewrite index_in by lia. f_equal.
    rewrite map_cell_nth by lia. f_equal. lia.
  - pose proof (Read_bytes_short 16 b1 ltac:(lia) ltac:(simpl; lia)) as E.
    destruct (Read_bytes 16 b1) as [[l|e|] b2]; simpl in E; try discriminate.
    inversion E. reflexivity.
Qed.

Lemma X17_AAAA_record_witness :
  exists addr,
    DnsRecordRead (buffer_of aaaa_record 0) =
      (Ok (with_Addr (mkRecord "" 28 1 60 16 [] "" 0) addr),
       set_pos (buffer_of aaaa_record 0) 27) /\
    length addr = 16%nat.
Proof.
  assert (H : DnsRecordRead_prefix (buffer_of aaaa_record 0) =
              (Ok (mkRecord "" 28 1 60 16 [] "" 0), set_pos (buffer_of aaaa_record 0) 11))
    by (vm_compute; reflexivity).
  destruct (proj1 (X17_AAAA_record _ _ _ H eq_refl) ltac:(simpl; lia))
    as (addr & H1 & H2 & _).
  exists addr. split; assumption.
Defined.

(** A name that begins with a pointer in the last two bytes of the buffer:
    the [Seek] past the pointer puts the cursor at 512 or beyond and the
    second octet is refused. *)
Lemma Read_qname_pointer_at_end (b : BytePacketBuffer) (outstr : string) (len : byte) :
  index (buf b) (pos b) = Some len -> is_pointer len -> 509 < pos b ->
  Read_qname (outstr, b) = (Err end_of_buffer, (outstr, set_pos b (pos b + 2))).
Proof.
  intros Hi Hp Hc. pose proof (index_Some _ _ _ Hi) as [Hr _].
  rewrite (Read_qname_of_run outstr b
             (Err end_of_buffer,
              mkLocals (set_pos b (pos b + 2)) outstr (pos b) "" false 0)).
  - reflexivity.
  - apply run_return.
    rewrite (body_pointer_overrun (Read_qname_init outstr b) len);
      unfold after_pointer, maxJumps; locals_simpl; try assumption; try lia.
    reflexivity.
Qed.

(** The host of a record, written without pointers or as pointers. *)
Lemma Read_qname_into_plain (b : BytePacketBuffer) (outstr : string)
      (ls : list (list byte)) (z : Z) :
  labels_at (buf b) (pos b) ls z -> index (buf b) z = Some x00 ->
  Read_qname_into outstr b = (Ok (outstr ++ name_text ls)%string, set_pos b (z + 1)).
Proof.
  intros Hl Hz. unfold Read_qname_into.
  rewrite (Read_qname_plain_name b outstr ls z Hl Hz). reflexivity.
Qed.

Lemma Read_qname_into_chain (b : BytePacketBuffer) (outstr : string)
      (n : nat) (q z : Z) (ls : list (list byte)) :
  (1 <= n <= 5)%nat -> pointer_chain (buf b) n (pos b) q ->
  labels_at (buf b) q ls z -> index (buf b) z = Some x00 ->
  (pos b <= 509 ->
   Read_qname_into outstr b =
     (Ok (outstr ++ name_text ls)%string, set_pos b (pos b + 2))) /\
  (509 < pos b ->
   Read_qname_into outstr b = (Err end_of_buffer, set_pos b (pos b + 2))).
Proof.
  intros Hn Hch Hl Hz. unfold Read_qname_into. split; intros Hc.
  - rewrite (Read_qname_chain_name b outstr n q z ls ltac:(lia) Hch Hn Hl Hz).
    reflexivity.
  - destruct n as [|m]; [lia|].
    inversion Hch as [|n' p' q' len offset Hi Hp Ho Hch']; subst.
    rewrite (Read_qname_pointer_at_end b outstr len Hi Hp Hc). reflexivity.
Qed.

(** X18: a record of type CNAME.  When its data is a name without pointers,
    the host of the record is the text of that name and the cursor is left
    one byte past the zero octet of the name.  When its data is one to five
    pointers that lead to such a name and the first pointer lies at index
    509 or lower, the host is the same text and the cursor is left two bytes
    past the first pointer.  Both whatever the data length says.  When the
    first pointer lies in bytes 510 and 511 the decoding fails with the
    overrun error. *)
Theorem X18_CNAME_record (b b1 : BytePacketBuffer) (rec : DnsRecord)
        (ls : list (list byte)) :
  DnsRecordRead_prefix b = (Ok rec, b1) -> rec_Qtype rec = QTYPE_CNAME ->
  (forall z,
     labels_at (buf b1) (pos b1) ls z -> index (buf b1) z = Some x00 ->
     DnsRecordRead b = (Ok (with_Host rec (name_text ls)), set_pos b1 (z + 1)) /\
     pos (snd (DnsRecordRead b)) = z + 1) /\
  (forall n q z,
     (1 <= n <= 5)%nat -> pointer_chain (buf b1) n (pos b1) q ->
     labels_at (buf b1) q ls z -> index (buf b1) z = Some x00 ->
     (pos b1 <= 509 ->
      DnsRecordRead b = (Ok (with_Host rec (name_text ls)), set_pos b1 (pos b1 + 2)) /\
      pos (snd (DnsRecordRead b)) = pos b1 + 2) /\
     (509 < pos b1 -> fst (DnsRecordRead b) = Err end_of_buffer)).
Proof.
  intros Hpre Ht.
  destruct (DnsRecordRead_prefix_payload _ _ _ Hpre) as (_ & Hhost & _).
  unfold DnsRecordRead, bind. rewrite Hpre. unfold DnsRecordRead_switch.
  rewrite Ht. cbn [Z.eqb QTYPE_A QTYPE_AAAA QTYPE_CNAME Pos.eqb]. unfold bind, ret.
  split.
  - intros z Hl Hz.
    rewrite (Read_qname_into_plain b1 (rec_Host rec) ls z Hl Hz).
    rewrite Hhost, <- Ht. cbn [snd]. rewrite pos_set_pos. split; reflexivity.
  - intros n q z Hn Hch Hl Hz.
    destruct (Read_qname_into_chain b1 (rec_Host rec) n q z ls Hn Hch Hl Hz)
      as [Hok Herr].
    split; intros Hc.
    + rewrite (Hok Hc), Hhost, <- Ht. cbn [snd]. rewrite pos_set_pos.
      split; reflexivity.
    + rewrite (Herr Hc). reflexivity.
Qed.

Lemma X18_CNAME_record_witness :
  (DnsRecordRead (buffer_of cname_record 0) =
     (Ok (mkRecord "" 5 1 60 5 [] "www" 0), set_pos (buffer_of cname_record 0) 16) /\
   pos (snd (DnsRecordRead (buffer_of cname_record 0))) = 16) /\
  fst (DnsRecordRead (buffer_of cname_pointer_at_510 499)) = Err end_of_buffer.
Proof.
  split.
  - assert (H : DnsRecordRead_prefix (buffer_of cname_record 0) =
                (Ok (mkRecord "" 5 1 60 5 [] "" 0), set_pos (buffer_of cname_record 0) 11))
      by (vm_compute; reflexivity).
    refine (proj1 (X18_CNAME_record _ _ _ [www] H eq_refl) 15 _ _).
    + apply (labels_cons _ 11 15 "003"%byte); try (vm_compute; congruence).
      exact (labels_nil _ 15).
    + vm_compute. reflexivity.
  - assert (H : DnsRecordRead_prefix (buffer_of cname_pointer_at_510 499) =
                (Ok (mkRecord "" 5 1 60 2 [] "" 0),
                 set_pos (buffer_of cname_pointer_at_510 499) 510))
      by (vm_compute; reflexivity).
    refine (proj2 (proj2 (X18_CNAME_record _ _ _ [www] H eq_refl) 1%nat 0 4 _ _ _ _) _).
    + lia.
    + chain_step "192"%byte "000"%byte. apply (chain_O _ 0).
    + apply (labels_cons _ 0 4 "003"%byte); try (vm_compute; congruence).
      exact (labels_nil _ 4).
    + vm_compute. reflexivity.
    + simpl. lia.
Defined.

(** X19: a record of type MX: the priority is the big-endian word after the
    fields every record has, and the host is the text of the name that
    follows.  When that name is written without pointers the cursor is left
    one byte past its zero octet; when it is written as one to five pointers
    that lead to such a name and the first pointer lies at index 509 or
    lower, the cursor is left two bytes past the first pointer.  When the
    first pointer lies in bytes 510 and 511 the decoding fails with the
    overrun error. *)
Theorem X19_MX_record (b b1 : BytePacketBuffer) (rec : DnsRecord)
        (ls : list (list byte)) :
  DnsRecordRead_prefix b = (Ok rec, b1) -> rec_Qtype rec = QTYPE_MX ->
  (forall z,
     labels_at (buf b1) (pos b1 + 2) ls z -> index (buf b1) z = Some x00 ->
     DnsRecordRead b =
       (Ok (with_Host_Priority rec (name_text ls) (word_at (buf b1) (pos b1))),
        set_pos b1 (z + 1)) /\
     pos (snd (DnsRecordRead b)) = z + 1) /\
  (forall n q z,
     (1 <= n <= 5)%nat -> pointer_chain (buf b1) n (pos b1 + 2) q ->
     labels_at (buf b1) q ls z -> index (buf b1) z = Some x00 ->
     (pos b1 + 2 <= 509 ->
      DnsRecordRead b =
        (Ok (with_Host_Priority rec (name_text ls) (word_at (buf b1) (pos b1))),
         set_pos b1 (pos b1 + 4)) /\
      pos (snd (DnsRecordRead b)) = pos b1 + 4) /\
     (509 < pos b1 + 2 -> fst (DnsRecordRead b) = Err end_of_buffer)).
Proof.
  intros Hpre Ht.
  destruct (DnsRecordRead_prefix_payload _ _ _ Hpre) as (_ & Hhost & _).
  pose proof (DnsRecordRead_prefix_cursor _ _ _ Hpre) as Hc.
  unfold DnsRecordRead, bind. rewrite Hpre. unfold DnsRecordRead_switch.
  rewrite Ht. cbn [Z.eqb QTYPE_A QTYPE_AAAA QTYPE_CNAME QTYPE_MX Pos.eqb].
  unfold bind, ret.
  split.
  - intros z Hl Hz.
    assert (Hp : pos b1 + 2 < 512).
    { pose proof (labels_at_range _ _ _ _ Hl) as [Hle _].
      apply index_Some in Hz. lia. }
    rewrite ReadU16_word by lia.
    rewrite (Read_qname_into_plain (set_pos b1 (pos b1 + 2)) (rec_Host rec) ls z)
      by (rewrite ?pos_set_pos, ?buf_set_pos; assumption).
    rewrite set_pos_set_pos, Hhost, <- Ht. cbn [snd]. rewrite pos_set_pos.
    split; reflexivity.
  - intros n q z Hn Hch Hl Hz.
    assert (Hp : pos b1 + 2 < 512).
    { destruct n as [|m]; [lia|].
      inversion Hch as [|n' p' q' len offset Hi _ _ _]; subst.
      apply index_Some in Hi. lia. }
    rewrite ReadU16_word by lia.
    destruct (Read_qname_into_chain (set_pos b1 (pos b1 + 2)) (rec_Host rec) n q z ls Hn)
      as [Hok Herr]; rewrite ?pos_set_pos, ?buf_set_pos; try assumption.
    rewrite pos_set_pos in Hok, Herr.
    split; intros Hlt.
    + rewrite (Hok Hlt), set_pos_set_pos, Hhost, <- Ht. cbn [snd].
      rewrite pos_set_pos.
      replace (pos b1 + 2 + 2) with (pos b1 + 4) by lia. split; reflexivity.
    + rewrite (Herr Hlt). reflexivity.
Qed.

Lemma X19_MX_record_witness :
  DnsRecordRead (buffer_of mx_record 0) =
    (Ok (mkRecord "www" 15 1 60 4 [] "www" 10), set_pos (buffer_of mx_record 0) 19) /\
  pos (snd (DnsRecordRead (buffer_of mx_record 0))) = 19.
Proof.
  assert (H : DnsRecordRead_prefix (buffer_of mx_record 0) =
              (Ok (mkRecord "www" 15 1 60 4 [] "" 0), set_pos (buffer_of mx_record 0) 15))
    by (vm_compute; reflexivity).
  refine (proj1 (proj2 (X19_MX_record _ _ _ [www] H eq_refl) 1%nat 0 4 _ _ _ _) _).
  - lia.
  - chain_step "192"%byte "000"%byte. apply (chain_O _ 0).
  - apply (labels_cons _ 0 4 "003"%byte); try (vm_compute; congruence).
    exact (labels_nil _ 4).
  - vm_compute. reflexivity.
  - simpl. lia.
Defined.

(** ** The file and the buffer *)

Lemma nth_firstn_lt {A} (n i : nat) (l : list A) (d : A) :
  (i < n)%nat -> nth i (firstn n l) d = nth i l d.
Proof.
  intros H. rewrite nth_firstn. destruct (Nat.ltb_spec i n); [reflexivity|lia].
Qed.

Lemma copy_length (data : list byte) :
  length (buf (copy NewBytePacketBuffer data)) = 512%nat.
Proof.
  unfold copy, NewBytePacketBuffer. cbv zeta. cbn [buf].
  assert (Hd : (length (firstn 512 data) <= 512)%nat)
    by (rewrite length_firstn; lia).
  set (d := firstn 512 data) in *.
  rewrite length_app, length_skipn, repeat_length. lia.
Qed.

Lemma copy_cell (data : list byte) (i : nat) :
  (i < 512)%nat -> cell (buf (copy NewBytePacketBuffer data)) i = nth i data x00.
Proof.
  intros Hi. destruct (Nat.lt_ge_cases i (length data)) as [Hlt|Hge].
  - unfold cell, copy, NewBytePacketBuffer. cbv zeta. cbn [buf].
    assert (Hd : (i < length (firstn 512 data))%nat)
      by (rewrite length_firstn; lia).
    assert (Hn : nth i (firstn 512 data) x00 = nth i data x00)
      by (apply (nth_firstn_lt 512 i data x00); exact Hi).
    set (d := firstn 512 data) in *.
    rewrite app_nth1 by exact Hd. exact Hn.
  - rewrite nth_padding by exact Hge. symmetry. apply nth_overflow. exact Hge.
Qed.

Lemma copy_same_cells (data1 data2 : list byte) :
  (forall i, (i < 512)%nat -> nth i data1 x00 = nth i data2 x00) ->
  copy NewBytePacketBuffer data1 = copy NewBytePacketBuffer data2.
Proof.
  intros H.
  assert (E : buf (copy NewBytePacketBuffer data1) = buf (copy NewBytePacketBuffer data2)).
  { apply (nth_ext _ _ x00 x00).
    - rewrite !copy_length. reflexivity.
    - intros i Hi. rewrite copy_length in Hi.
      pose proof (copy_cell data1 i Hi) as H1. pose proof (copy_cell data2 i Hi) as H2.
      unfold cell in H1, H2. rewrite H1, H2. apply H. exact Hi. }
  unfold copy in *. cbv zeta in *. cbn [buf pos] in *. rewrite E. reflexivity.
Qed.

(** X20: the length of the file is no part of what is parsed.  The bytes
    after the first 512 are ignored, and zero bytes at the end of the file
    change nothing: a file and the same file with zeros appended give the
    same result, since the buffer is filled up with zeros anyway. *)
Theorem X20_file_length_is_not_input (data : list byte) (k : nat) :
  main_parse (firstn 512 data) = main_parse data /\
  main_parse (data ++ repeat x00 k) = main_parse data.
Proof.
  split; unfold main_parse; cbv zeta.
  - rewrite (copy_same_cells (firstn 512 data) data); [reflexivity|].
    intros i Hi. apply (nth_firstn_lt 512 i data x00). exact Hi.
  - rewrite (copy_same_cells (data ++ repeat x00 k) data); [reflexivity|].
    intros i Hi. destruct (Nat.lt_ge_cases i (length data)) as [Hlt|Hge].
    + apply app_nth1. exact Hlt.
    + rewrite app_nth2 by exact Hge. rewrite nth_repeat.
      symmetry. apply nth_overflow. exact Hge.
Qed.

Lemma word_at_copy_zero (data : list byte) (i : Z) :
  Z.of_nat (length data) <= i -> 0 <= i ->
  word_at (buf (copy NewBytePacketBuffer data)) i = 0.
Proof.
  intros H H0. unfold word_at. rewrite !nth_padding by lia. reflexivity.
Qed.

(** X21: a file of fewer than five bytes, the empty file among them, is not
    rejected: the header is read from its bytes and the zeros that fill the
    buffer, it declares no question and no answer, and the result is that
    header with no question and no record. *)
Theorem X21_short_file (data : list byte) :
  (length data <= 4)%nat ->
  main_parse data = Ok (header_at (buf (copy NewBytePacketBuffer data)) 0, [], []) /\
  Questions (header_at (buf (copy NewBytePacketBuffer data)) 0) = 0 /\
  Answers (header_at (buf (copy NewBytePacketBuffer data)) 0) = 0.
Proof.
  intros H.
  assert (HQ : Questions (header_at (buf (copy NewBytePacketBuffer data)) 0) = 0)
    by (apply (word_at_copy_zero data 4); lia).
  assert (HA : Answers (header_at (buf (copy NewBytePacketBuffer data)) 0) = 0)
    by (apply (word_at_copy_zero data 6); lia).
  split; [|split; assumption].
  unfold main_parse. rewrite main_parse_header. rewrite HQ, HA. reflexivity.
Qed.

Lemma X21_short_file_witness :
  main_parse [] = Ok (NewDnsHeader, [], []).
Proof.
  exact (proj1 (X21_short_file [] ltac:(simpl; lia))).
Defined.

(** ** Moving the cursor *)

(** X22: two calls of [Step] are one call with the sum of the steps, also
    when a sum overflows the 64 bits of an [int]; and a [Step] followed by
    the [Step] back restores a cursor that is an [int]. *)
Theorem X22_Step_composes (b : BytePacketBuffer) (m n : Z) :
  snd (Step n (snd (Step m b))) = snd (Step (Int.add m n) b) /\
  (- 2 ^ 63 <= pos b < 2 ^ 63 ->
   snd (Step (Int.wrap (- n)) (snd (Step n b))) = b).
Proof.
  unfold Step. cbn [snd]. rewrite !set_pos_set_pos, !pos_set_pos. split.
  - f_equal. unfold Int.add, Int.wrap.
    Z.div_mod_to_equations. lia.
  - intros H. rewrite <- (set_pos_same b) at 3. f_equal.
    unfold Int.add, Int.wrap. Z.div_mod_to_equations. lia.
Qed.

Lemma X22_Step_composes_witness :
  snd (Step (Int.wrap (- 7)) (snd (Step 7 (buffer_of [] 5)))) = buffer_of [] 5.
Proof.
  apply (proj2 (X22_Step_composes (buffer_of [] 5) 0 7)). simpl. lia.
Defined.

(** * The whole parse when questions are missing *)

(** ** Records decoded from the zeros that fill the buffer *)

Lemma zero_from_set_pos (b : BytePacketBuffer) (p : Z) :
  zero_from b -> pos b <= p -> zero_from (set_pos b p).
Proof.
  intros Hz Hp i Hi. rewrite pos_set_pos in Hi. rewrite buf_set_pos.
  apply Hz. lia.
Qed.

Lemma word_at_zero (b : BytePacketBuffer) (i : Z) :
  zero_from b -> 0 <= i -> pos b <= i -> i + 1 < 512 -> word_at (buf b) i = 0.
Proof.
  intros Hz H0 Hi Hlt. unfold word_at.
  rewrite !(zero_from_cell b) by (assumption || lia). reflexivity.
Qed.

(** The fields of a record after its name take ten bytes. *)
Lemma reads_record_fields (name : string) :
  reads 10 (qtype <- ReadU16_Query ;;
            class <- ReadU16 ;;
            ttl <- ReadU32 ;;
            datalen <- ReadU16 ;;
            ret (mkRecord name qtype class ttl datalen [] "" 0)).
Proof.
  apply (reads_bind 2 8); try lia; [apply reads_ReadU16_Query|]. intros qtype.
  apply (reads_bind 2 6); try lia; [apply reads_ReadU16|]. intros class.
  apply (reads_bind 4 2); try lia; [apply reads_ReadU32|]. intros ttl.
  apply reads_last, reads_ReadU16.
Qed.

(** With eleven bytes or more of zeros left, a record is decoded from them:
    the empty name and every field zero. *)
Lemma DnsRecordRead_zeros (b : BytePacketBuffer) :
  zero_from b -> 0 <= pos b <= 501 ->
  DnsRecordRead b = (Ok zero_DnsRecord, set_pos b (pos b + 11)).
Proof.
  intros Hz Hp.
  unfold DnsRecordRead, DnsRecordRead_prefix, bind, Read_qname_into.
  rewrite Read_qname_zero by (apply Hz; lia).
  change ReadU16_Query with ReadU16.
  rewrite ReadU16_word by (rewrite pos_set_pos; lia).
  rewrite pos_set_pos, buf_set_pos, set_pos_set_pos.
  rewrite ReadU16_word by (rewrite pos_set_pos; lia).
  rewrite pos_set_pos, buf_set_pos, set_pos_set_pos.
  rewrite ReadU32_dword by (rewrite pos_set_pos; lia).
  rewrite pos_set_pos, buf_set_pos, set_pos_set_pos.
  rewrite ReadU16_word by (rewrite pos_set_pos; lia).
  rewrite pos_set_pos, buf_set_pos, set_pos_set_pos.
  unfold dword_at. rewrite !(word_at_zero b) by (assumption || lia).
  unfold DnsRecordRead_switch.
  cbn [rec_Qtype Z.eqb QTYPE_A QTYPE_AAAA QTYPE_CNAME QTYPE_MX].
  unfold ret, zero_DnsRecord.
  replace (pos b + 1 + 2 + 2 + 4 + 2) with (pos b + 11) by lia. reflexivity.
Qed.

(** With fewer than eleven bytes left a record cannot be read. *)
Lemma DnsRecordRead_end (b : BytePacketBuffer) :
  zero_from b -> 0 <= pos b -> 501 < pos b ->
  fst (DnsRecordRead b) = Err end_of_buffer.
Proof.
  intros Hz H0 Hp.
  unfold DnsRecordRead. unfold bind at 1. unfold DnsRecordRead_prefix.
  unfold bind at 1. unfold Read_qname_into.
  destruct (Z.le_gt_cases 512 (pos b)) as [Hge|Hlt].
  - destruct (Read_qname_run_ex "" b) as (r & Hrun & ->).
    inversion Hrun as [s s' r' E _ | s s' E | s s' o E]; subst;
      rewrite body_overrun in E by (unfold maxJumps; simpl; lia);
      try discriminate.
    inversion E; subst. reflexivity.
  - rewrite Read_qname_zero by (apply Hz; lia). cbv beta iota.
    pose proof (reads_record_fields "" (set_pos b (pos b + 1))) as Hr.
    rewrite pos_set_pos in Hr.
    destruct ((qtype <- ReadU16_Query ;;
               class <- ReadU16 ;;
               ttl <- ReadU32 ;;
               datalen <- ReadU16 ;;
               ret (mkRecord "" qtype class ttl datalen [] "" 0))
                (set_pos b (pos b + 1))) as [[rec|e|] b2].
    + lia.
    + destruct Hr as (-> & _). reflexivity.
    + lia.
Qed.

Lemma read_records_zeros (n : nat) : forall b,
  zero_from b -> 0 <= pos b -> pos b + 11 * Z.of_nat n <= 512 ->
  read_records n b =
    (Ok (repeat zero_DnsRecord n), set_pos b (pos b + 11 * Z.of_nat n)).
Proof.
  induction n as [|n IH]; intros b Hz H0 Hn.
  - simpl. unfold ret. rewrite Z.add_0_r, set_pos_same. reflexivity.
  - cbn [read_records repeat]. unfold bind.
    rewrite DnsRecordRead_zeros by (assumption || lia).
    rewrite IH;
      [|apply zero_from_set_pos; [assumption|lia]
       |rewrite pos_set_pos; lia|rewrite pos_set_pos; lia].
    rewrite pos_set_pos, set_pos_set_pos. unfold ret.
    replace (pos b + 11 + 11 * Z.of_nat n) with (pos b + 11 * Z.of_nat (S n)) by lia.
    reflexivity.
Qed.

Lemma read_records_end (n : nat) : forall b,
  zero_from b -> 0 <= pos b <= 512 -> 512 < pos b + 11 * Z.of_nat n ->
  fst (read_records n b) = Err end_of_buffer.
Proof.
  induction n as [|n IH]; intros b Hz H0 Hn; [simpl in Hn; lia|].
  cbn [read_records]. unfold bind.
  destruct (Z.le_gt_cases (pos b) 501) as [Hle|Hgt].
  - rewrite DnsRecordRead_zeros by (assumption || lia).
    specialize (IH (set_pos b (pos b + 11))).
    rewrite pos_set_pos in IH.
    specialize (IH ltac:(apply zero_from_set_pos; [assumption|lia])
                   ltac:(lia) ltac:(lia)).
    destruct (read_records n (set_pos b (pos b + 11))) as [[l|e|] b2];
      simpl in IH; try discriminate.
    inversion IH. reflexivity.
  - pose proof (DnsRecordRead_end b Hz ltac:(lia) Hgt) as He.
    destruct (DnsRecordRead b) as [[r|e|] b2]; simpl in He; try discriminate.
    inversion He. reflexivity.
Qed.

(** ** C8: fewer questions than the header declares *)

(** C8, counterexample: the packet is parsed without any error; the zeros
    that fill the buffer after the one question are decoded as a second
    question with the empty name, type 0 and class 0. *)
Lemma C8_counterexample :
  main_parse two_declared_one_present =
    Ok (mkHeader 0x1234 true false false 0 false NOERROR
                 false false false false 2 0 0 0,
        [mkQuestion "www.example.com" 1 1; mkQuestion "" 0 0],
        []) /\
  ~ BufferOverrun (main_parse two_declared_one_present).
Proof.
  assert (H : main_parse two_declared_one_present =
    Ok (mkHeader 0x1234 true false false 0 false NOERROR
                 false false false false 2 0 0 0,
        [mkQuestion "www.example.com" 1 1; mkQuestion "" 0 0],
        [])) by (vm_compute; reflexivity).
  split; [exact H|]. rewrite H. intros [E|E]; discriminate E.
Qed.

(** C8, as amended: a packet whose header declares two questions and [A]
    answers and whose bytes end with the first question.  The parse fails
    with the overrun error exactly when fewer than [5 + 11 * A] bytes of
    the 512 are left after the first question (fewer than five when no
    answer is declared).  Otherwise it succeeds: the zeros that fill the
    rest of the buffer are decoded as a second question with the empty
    name, type 0 and class 0, and as [A] records with the empty name and
    every field zero. *)
Theorem C8_second_question_from_padding
        (data : list byte) (h : DnsHeader) (bh b1 : BytePacketBuffer)
        (q1 : DnsQuestion) :
  DnsHeader_Read (NewDnsHeader, copy NewBytePacketBuffer data) = (Ok tt, (h, bh)) ->
  Questions h = 2 ->
  DnsQuestion_Read (zero_DnsQuestion, bh) = (Ok tt, (q1, b1)) ->
  Z.of_nat (length data) <= pos b1 ->
  (pos b1 + 5 + 11 * Answers h <= 512 ->
   main_parse data =
     Ok (h, [q1; zero_DnsQuestion], repeat zero_DnsRecord (Z.to_nat (Answers h)))) /\
  (512 < pos b1 + 5 + 11 * Answers h ->
   main_parse data = Err end_of_buffer /\ BufferOverrun (main_parse data)).
Proof.
  intros Hh H2 H1 Hlen.
  pose proof (main_parse_header data) as Hm. rewrite Hh in Hm.
  assert (Eh : h = header_at (buf (copy NewBytePacketBuffer data)) 0) by congruence.
  assert (Eb : bh = set_pos (copy NewBytePacketBuffer data) 12) by congruence.
  clear Hm.
  assert (HA : 0 <= Answers h).
  { rewrite Eh. unfold header_at, decode_flags. cbn [Answers].
    apply word_at_range. }
  pose proof (DnsQuestion_Read_Ok_buf _ _ _ _ H1) as Hr.
  assert (Hbuf : buf b1 = buf (copy NewBytePacketBuffer data)).
  { pose proof (DnsQuestion_Read_keeps_bytes zero_DnsQuestion bh) as Hk.
    rewrite H1 in Hk. cbn [snd] in Hk. rewrite Hk, Eb. apply buf_set_pos. }
  assert (Hz : zero_from b1).
  { intros i Hi. rewrite Hbuf. rewrite index_in by lia. f_equal.
    apply nth_padding. lia. }
  destruct (read_two_questions_padding bh b1 q1 H1 Hz) as [Hok Hend].
  unfold main_parse. cbv zeta. rewrite Hh, H2.
  change (Z.to_nat 2) with 2%nat.
  split; intros Hn.
  - rewrite Hok by lia.
    rewrite read_records_zeros;
      [reflexivity|apply zero_from_set_pos; [assumption|lia]
      |rewrite pos_set_pos; lia|rewrite pos_set_pos; lia].
  - assert (E : match read_questions 2 bh with
                | (Ok questions, buffer2) =>
                  match read_records (Z.to_nat (Answers h)) buffer2 with
                  | (Ok records, _) => Ok (h, questions, records)
                  | (Err e, _) => Err e
                  | (Panic, _) => Panic
                  end
                | (Err e, _) => Err e
                | (Panic, _) => Panic
                end = Err end_of_buffer).
    { destruct (Z.le_gt_cases (pos b1) 507) as [Hle|Hgt].
      - rewrite Hok by lia.
        pose proof (read_records_end (Z.to_nat (Answers h)) (set_pos b1 (pos b1 + 5))) as He.
        rewrite pos_set_pos in He.
        specialize (He ltac:(apply zero_from_set_pos; [assumption|lia])
                       ltac:(lia) ltac:(lia)).
        destruct (read_records _ _) as [[l|e|] b2]; simpl in He; try discriminate.
        inversion He. reflexivity.
      - specialize (Hend Hgt).
        destruct (read_questions 2 bh) as [[l|e|] b2]; simpl in Hend; try discriminate.
        inversion Hend. reflexivity. }
    rewrite E. split; [reflexivity|]. left. reflexivity.
Qed.

Lemma C8_second_question_from_padding_witness :
  main_parse two_declared_one_answer =
    Ok (mkHeader 0x1234 true false false 0 false NOERROR
                 false false false false 2 1 0 0,
        [mkQuestion "www.example.com" 1 1; zero_DnsQuestion],
        [zero_DnsRecord]) /\
  main_parse two_declared_46_answers = Err end_of_buffer.
Proof.
  split.
  - refine (proj1 (C8_second_question_from_padding two_declared_one_answer
                     _ (buffer_of two_declared_one_answer 12)
                     (buffer_of two_declared_one_answer 33)
                     (mkQuestion "www.example.com" 1 1) _ _ _ _) _).
    + vm_compute. reflexivity.
    + reflexivity.
    + vm_compute. reflexivity.
    + vm_compute. discriminate.
    + vm_compute. discriminate.
  - refine (proj1 (proj2 (C8_second_question_from_padding two_declared_46_answers
                     (mkHeader 0x1234 true false false 0 false NOERROR
                               false false false false 2 46 0 0)
                     (buffer_of two_declared_46_answers 12)
                     (buffer_of two_declared_46_answers 33)
                     (mkQuestion "www.example.com" 1 1) _ _ _ _) _)).
    + vm_compute. reflexivity.
    + reflexivity.
    + vm_compute. reflexivity.
    + vm_compute. discriminate.
    + vm_compute. reflexivity.
Defined.
